(** * vsc-administration: storage synchronisation

    A shallow embedding of the synchronisation code of vsc-administration
    ([bin/sync_ugent_vsc_users.py], [lib/vsc/administration/sync.py],
    [lib/vsc/administration/tier1c.py], [lib/vsc/administration/vo.py])
    and the properties of its reconciliation passes.

    Python objects are records, Python exceptions are values of [exn],
    and code with side effects runs in the monad [M] over a [world] that
    holds the state of the external systems, the file system operations
    that were invoked and the log. *)

From stdpp Require Import base option list gmap strings sorting.
From Stdlib Require Import Ascii String ZArith QArith Qround SpecFloat Lia Lqa.

Close Scope Q_scope.
Local Open Scope string_scope.
Local Open Scope list_scope.

(** ** Python runtime fragment *)

Module Py.

(** The exception classes the code raises or catches.  [Exception_] is a
    plain [Exception(msg)], which is what [fancylogger]'s
    [raiseException] raises; [KeyboardInterrupt] and [SystemExit] derive
    from [BaseException] only. *)
Inductive exn : Type :=
| HTTPError
| IndexError
| KeyError
| AttributeError
| UnboundLocalError (name : string)
| NameError (name : string)
| TypeError
| IOError
| Exception_ (msg : string)
| KeyboardInterrupt
| SystemExit (code : Z).

(** [isinstance(e, Exception)] *)
Definition is_Exception (e : exn) : bool :=
  match e with
  | KeyboardInterrupt | SystemExit _ => false
  | _ => true
  end.

Definition is_HTTPError (e : exn) : bool :=
  match e with HTTPError => true | _ => false end.

Definition is_IndexError (e : exn) : bool :=
  match e with IndexError => true | _ => false end.

Definition is_AttributeError (e : exn) : bool :=
  match e with AttributeError => true | _ => false end.

(** bare [except:] *)
Definition any_exn (e : exn) : bool := true.

Inductive result (A : Type) : Type :=
| Returned (a : A)
| Raised (e : exn).
Arguments Returned {A} a.
Arguments Raised {A} e.

Definition raised {A} (r : result A) : bool :=
  match r with Raised _ => true | Returned _ => false end.

(** [os.path.join(a, b)] for POSIX paths *)
Definition ends_with_slash (s : string) : bool :=
  match reverse (list_ascii_of_string s) with
  | c :: _ => Ascii.eqb c "/"
  | [] => false
  end.

Definition path_join (a b : string) : string :=
  match b with
  | String c _ => if Ascii.eqb c "/" then b
                  else if (a =? "")%string || ends_with_slash a then a ++ b
                  else a ++ "/" ++ b
  | EmptyString => if (a =? "")%string || ends_with_slash a then a else a ++ "/"
  end.

(** [os.path.dirname(p)]: the head up to the last slash, with trailing
    slashes removed unless the head consists of slashes only. *)
Fixpoint drop_slashes (rev_head : list Ascii.ascii) : list Ascii.ascii :=
  match rev_head with
  | c :: rest => if Ascii.eqb c "/" then drop_slashes rest else rev_head
  | [] => []
  end.

Fixpoint drop_basename (rev_path : list Ascii.ascii) : list Ascii.ascii :=
  match rev_path with
  | c :: rest => if Ascii.eqb c "/" then rev_path else drop_basename rest
  | [] => []
  end.

Definition dirname (p : string) : string :=
  let rev_head := drop_basename (reverse (list_ascii_of_string p)) in
  match drop_slashes rev_head with
  | [] => string_of_list_ascii (reverse rev_head)
  | stripped => string_of_list_ascii (reverse stripped)
  end.

(** [int(x)] on a number with a fractional part: truncation towards zero *)
Definition int_of_Q (x : Q) : Z := Z.quot (Qnum x) (Z.pos (Qden x)).

(** A Python float is an IEEE 754 binary64 number: [float(z)], the
    product and the quotient of two floats, rounded to nearest even, and
    [int(x)], which is not defined on infinities and NaN. *)
Definition float_of_int (z : Z) : spec_float := binary_normalize 53 1024 z 0 false.

Definition float_mul : spec_float -> spec_float -> spec_float := SFmul 53 1024.

Definition float_div : spec_float -> spec_float -> spec_float := SFdiv 53 1024.

Definition int_of_float (x : spec_float) : option Z :=
  match x with
  | S754_zero _ => Some 0%Z
  | S754_finite s m e =>
      let v := if (0 <=? e)%Z then (Z.pos m * 2 ^ e)%Z else (Z.pos m / 2 ^ (- e))%Z in
      Some (if s then (- v)%Z else v)
  | S754_infinity _ | S754_nan => None
  end.

(** The float that a decimal literal [n/d] such as [0.95] denotes. *)
Definition float_literal (n d : Z) : spec_float := float_div (float_of_int n) (float_of_int d).

(** [sorted(ids)] on strings *)
Definition str_le (a b : string) : Prop := String.leb a b = true.

#[global] Instance str_le_dec a b : Decision (str_le a b).
Proof. unfold str_le. apply _. Defined.

Definition sorted (ids : list string) : list string := merge_sort str_le ids.

End Py.
Export Py.

(** ** The external systems *)

(** The operations of a [vsc.filesystem] operations object
    ([LustreOperations], [GpfsOperations]) that the code invokes. *)
Inductive fs_call : Type :=
| ListFilesets
| MakeDir (path : string)
| MakeFileset (path name : string)
| Chmod (mode : Z) (path : string)
| Chown (uid gid : Z) (path : string)
| SetFilesetQuota (soft : Z) (path name : string) (hard : Z)
| SetFilesetGrace (path : string) (grace : Z)
| SetUserQuota (soft : Z) (uid : Z) (path : string) (hard : Z)
| CreateStatDirectory (path : string) (mode uid gid : Z) (override : bool).


Inductive fs_kind : Type := Lustre | Gpfs.

Inductive log_level : Type := LInfo | LDebug | LError | LException.

Record log_record : Type := LogRecord {
  log_lvl : log_level;
  log_fmt : string;
  log_args : list string
}.

Inductive nagios_code : Type := NAGIOS_EXIT_OK | NAGIOS_EXIT_WARNING | NAGIOS_EXIT_CRITICAL.

(** What [nagios_reporter.cache(code, result)] stores: the exit code, the
    message and the named counters of the result. *)
Record nagios_report : Type := NagiosReport {
  nagios_exit : nagios_code;
  nagios_message : string;
  nagios_metrics : list (string * nat)
}.

(** The state of the systems outside the Python process: the storage
    backends, the LDAP directory, the account page, the clock. *)
Class Platform : Type := {
  ext_state : Type;
  (** [fsops.get_fileset_info(filesystem, name)] is truthy *)
  fsops_get_fileset_info : fs_kind -> string -> string -> ext_state -> bool;
  (** [fsops.get_filesystem_info(name)['defaultMountPoint']] *)
  fsops_mount_point : string -> ext_state -> option string;
  (** the effect of an operation; [Some e] when it raises [e] *)
  fsops_exec : fs_kind -> fs_call -> ext_state -> ext_state * option exn
}.

Section World.
Context `{Platform}.

Record world : Type := World {
  ext : ext_state;
  (** the file system operations that the code of these sources has
      invoked so far, oldest first; what a method that lives outside these
      sources does on its own is part of [ext] *)
  calls : list fs_call;
  (** status values written to the directory, oldest first *)
  status_pushes : list (string * string);
  log : list log_record;
  (** contents of the timestamp file, [None] when it cannot be read *)
  timestamp_file : option Z;
  (** the reports handed to the nagios reporter, oldest first *)
  nagios_cache : list nagios_report;
  (** [self.thresholds] of the [Sync] object *)
  thresholds : option (gmap string nat)
}.

Definition set_ext (e : ext_state) (w : world) : world :=
  World e (calls w) (status_pushes w) (log w)
        (timestamp_file w) (nagios_cache w) (thresholds w).
Definition add_call (c : fs_call) (w : world) : world :=
  World (ext w) (calls w ++ [c]) (status_pushes w) (log w)
        (timestamp_file w) (nagios_cache w) (thresholds w).
Definition add_status_push (p : string * string) (w : world) : world :=
  World (ext w) (calls w) (status_pushes w ++ [p]) (log w)
        (timestamp_file w) (nagios_cache w) (thresholds w).
Definition add_log (r : log_record) (w : world) : world :=
  World (ext w) (calls w) (status_pushes w) (log w ++ [r])
        (timestamp_file w) (nagios_cache w) (thresholds w).
Definition set_timestamp_file (t : option Z) (w : world) : world :=
  World (ext w) (calls w) (status_pushes w) (log w)
        t (nagios_cache w) (thresholds w).
Definition add_nagios (r : nagios_report) (w : world) : world :=
  World (ext w) (calls w) (status_pushes w) (log w)
        (timestamp_file w) (nagios_cache w ++ [r]) (thresholds w).
Definition set_thresholds (t : gmap string nat) (w : world) : world :=
  World (ext w) (calls w) (status_pushes w) (log w)
        (timestamp_file w) (nagios_cache w) (Some t).

Definition M (A : Type) : Type := world -> world * result A.

(** Code that is not part of these sources acts on the external state
    only: it returns or raises, and leaves the records of the script
    ([calls], [status_pushes], [log], the timestamp file, the nagios
    cache) alone. *)
Definition Ext (A : Type) : Type := ext_state -> ext_state * result A.

Definition call {A} (f : Ext A) : M A :=
  fun w => let '(e', r) := f (ext w) in (set_ext e' w, r).

Definition ret {A} (a : A) : M A := fun w => (w, Returned a).

Definition raise {A} (e : exn) : M A := fun w => (w, Raised e).

Definition bind {A B} (m : M A) (k : A -> M B) : M B :=
  fun w => match m w with
           | (w', Returned a) => k a w'
           | (w', Raised e) => (w', Raised e)
           end.

(** [try: body except <catches>: handler] *)
Definition try_except {A} (body : M A) (catches : exn -> bool) (handler : exn -> M A) : M A :=
  fun w => match body w with
           | (w', Raised e) => if catches e then handler e w' else (w', Raised e)
           | r => r
           end.

(** [try: body finally: final] *)
Definition try_finally {A} (body : M A) (final : M unit) : M A :=
  fun w => match body w with
           | (w', r) => match final w' with
                        | (w'', Returned _) => (w'', r)
                        | (w'', Raised e) => (w'', Raised e)
                        end
           end.

(** [for x in xs: s = body x s] *)
Fixpoint for_each {A S} (xs : list A) (body : A -> S -> M S) (s : S) : M S :=
  match xs with
  | [] => ret s
  | x :: rest => bind (body x s) (for_each rest body)
  end.

Definition log_msg (lvl : log_level) (fmt : string) (args : list string) : M unit :=
  fun w => (add_log (LogRecord lvl fmt args) w, Returned tt).

(** [log.raiseException(msg)] of [fancylogger]: log, then raise *)
Definition log_raiseException {A} (msg : string) (args : list string) : M A :=
  bind (log_msg LException msg args) (fun _ => raise (Exception_ msg)).

(** A call of a method of the operations object. *)
Definition fsops (k : fs_kind) (c : fs_call) : M unit :=
  fun w => let '(e', r) := fsops_exec k c (ext w) in
           (add_call c (set_ext e' w),
            match r with Some e => Raised e | None => Returned tt end).

(** attribute access on an object that may lack the attribute *)
Definition getattr {A} (o : option A) : M A :=
  match o with Some a => ret a | None => raise AttributeError end.

Definition get_fileset_info (k : fs_kind) (filesystem name : string) : M bool :=
  fun w => (w, Returned (fsops_get_fileset_info k filesystem name (ext w))).

(** [get_filesystem_info(name)['defaultMountPoint']] *)
Definition get_mount_point (filesystem : string) : M string :=
  fun w => (w, match fsops_mount_point filesystem (ext w) with
               | Some p => Returned p
               | None => Raised KeyError
               end).

Definition push_status (user : string) (st : string) : M unit :=
  fun w => (add_status_push (user, st) w, Returned tt).

Definition nagios_reporter_cache (code : nagios_code) (message : string)
    (metrics : list (string * nat)) : M unit :=
  fun w => (add_nagios (NagiosReport code message metrics) w, Returned tt).

(** [sys.exit(code)] *)
Definition sys_exit {A} (code : Z) : M A := raise (SystemExit code).

End World.

Declare Scope py_scope.
Delimit Scope py_scope with py.
Notation "x <~ c ;; k" := (bind c (fun x => k))
  (at level 100, c at next level, right associativity) : py_scope.
Notation "c ;; k" := (bind c (fun _ => k))
  (at level 100, right associativity) : py_scope.
Local Open Scope py_scope.

(** ** vsc.config.base and vsc.utils.missing *)

(** The values of [vsc.config.base] that the code reads.  The module is
    not part of these sources, so they are parameters. *)
Class VscConfig : Type := {
  GENT : string;
  (** [VSC().quota_soft_fraction] *)
  quota_soft_fraction : Q;
  (** [VSC().vo_storage_grace_time] *)
  vo_storage_grace_time : Z;
  (** [VSC().institute_vos.values()] *)
  institute_vos : list string;
  (** [data_replication_factor] of a [Storage] built without that keyword *)
  storage_data_replication_factor : Z;
  (** [pwd.getpwnam('nobody').pw_uid] *)
  nobody_uid : Z
}.

(** Modelled from the spec: [MonoidDict] of [vsc.utils.missing], which is
    not part of these sources.  The spec describes it as a mapping from a
    project id to an appendable ordered sequence with
    [merge(existing, new) = existing ++ new]; the code builds it from
    [Monoid([], lambda xs, ys: xs + ys)].  Assigning to a key merges the
    new value into the one already there. *)
Abbreviation MonoidDict := (gmap string (list string)).

Definition md_set (k : string) (v : list string) (d : MonoidDict) : MonoidDict :=
  match d !! k with
  | Some current => <[k := current ++ v]> d
  | None => <[k := v]> d
  end.

(** [len(d)] *)
Definition md_len (d : MonoidDict) : nat := size d.

(** the truth value of a list and of a dictionary *)
Definition list_truthy {A} (l : list A) : bool :=
  match l with [] => false | _ :: _ => true end.

Definition dict_truthy (d : MonoidDict) : bool := negb (Nat.eqb (md_len d) 0).

(** ** lib/vsc/administration/vo.py *)

Module Vo.

(** [CentralStorage()]; an attribute may be missing. *)
Record CentralStorage : Type := {
  data_name : option string;
  scratch_name : option string
}.

(** A [VscVo]; [storage] is only assigned when the constructor got no
    storage argument. *)
Record VscVo : Type := {
  vo_id : string;
  storage : option CentralStorage
}.

(** The LDAP attributes of a VO and of its members, loaded on access by
    [VscLdapGroup] and [VscUser]; numeric attributes are read through
    [int(...)]. *)
Class VscLdapGroup `{Platform} : Type := {
  status : VscVo -> Ext string;
  memberUid : VscVo -> Ext (list string);
  gidNumber : VscVo -> Ext Z;
  dataQuota : VscVo -> Ext Z;
  scratchQuota : VscVo -> Ext Z;
  (** [int(VscUser(uid).uidNumber)] *)
  uidNumber : string -> Ext Z;
  (** [vo.set_member_data_symlink(VscUser(uid))], not defined in vo.py *)
  set_member_data_symlink : VscVo -> string -> Ext unit
}.

Section Methods.
Context `{Platform} `{!VscConfig} `{!VscLdapGroup}.

(** The handlers of [AttributeError] format [self.storage] into their
    message, which raises again when the attribute is missing. *)
Definition storage_repr (vo : VscVo) : M unit :=
  _ <~ getattr (storage vo) ;; ret tt.

(** [s[:-2]] *)
Definition drop_last2 (s : string) : string :=
  let l := list_ascii_of_string s in
  string_of_list_ascii (take (List.length l - 2) l).

Definition vo_path (mount_point : string) (vo : VscVo) : string :=
  path_join (path_join (path_join mount_point "vos") (drop_last2 (vo_id vo))) (vo_id vo).

Definition _data_path (vo : VscVo) : M string :=
  st <~ getattr (storage vo) ;;
  name <~ getattr (data_name st) ;;
  mp <~ get_mount_point name ;;
  ret (vo_path mp vo).

Definition _scratch_path (vo : VscVo) : M string :=
  st <~ getattr (storage vo) ;;
  name <~ getattr (scratch_name st) ;;
  mp <~ get_mount_point name ;;
  ret (vo_path mp vo).

(** [VscVo._create_fileset(filesystem_name, path, quota)]; [0700] is 448.
    The method never reads its [quota] parameter, which is left out here;
    the callers below still evaluate the argument, [self.dataQuota]. *)
Definition _create_fileset (vo : VscVo) (filesystem_name path : string) : M unit :=
  fsops Gpfs ListFilesets ;;
  let fileset_name := vo_id vo in
  info <~ get_fileset_info Gpfs filesystem_name fileset_name ;;
  (if negb info then
     log_msg LInfo "Creating new fileset on %s scratch with name %s and path %s"
             [filesystem_name; fileset_name; path] ;;
     let base_dir_hierarchy := dirname path in
     fsops Gpfs (MakeDir base_dir_hierarchy) ;;
     fsops Gpfs (MakeFileset path fileset_name)
   else
     log_msg LInfo "Fileset %s already exists for VO %s ... not creating again."
             [fileset_name; vo_id vo]) ;;
  fsops Gpfs (Chmod 448 path) ;;
  gid <~ call (gidNumber vo) ;;
  gid' <~ call (gidNumber vo) ;;
  fsops Gpfs (Chown gid gid' path).

Definition create_data_fileset (vo : VscVo) : M unit :=
  try_except
    (path <~ _data_path vo ;;
     st <~ getattr (storage vo) ;;
     name <~ getattr (data_name st) ;;
     _ <~ call (dataQuota vo) ;;
     _create_fileset vo name path)
    is_AttributeError
    (fun _ =>
       storage_repr vo ;;
       log_msg LException "No data_name attribute in the storage instance %s" []).

Definition create_scratch_fileset (vo : VscVo) : M unit :=
  try_except
    (path <~ _scratch_path vo ;;
     st <~ getattr (storage vo) ;;
     name <~ getattr (scratch_name st) ;;
     _ <~ call (dataQuota vo) ;;
     _create_fileset vo name path)
    is_AttributeError
    (fun _ =>
       storage_repr vo ;;
       log_msg LException "No scratch_name attribute in the storage instance %s" []).

(** The two numbers [_set_quota] hands to the backend for a quota in
    KiB: [quota *= 1024] and [soft = int(quota * quota_soft_fraction)]. *)
Definition hard_limit (quota : Z) : Z := (quota * 1024)%Z.

Definition soft_limit (hard : Z) : Z :=
  int_of_Q (inject_Z hard * quota_soft_fraction)%Q.

(** [VscVo._set_quota(path_function, quota)] *)
Definition _set_quota (vo : VscVo) (path_function : M string) (quota : Z) : M unit :=
  try_except
    (path <~ path_function ;;
     let quota := hard_limit quota in
     let soft := soft_limit quota in
     fsops Gpfs (SetFilesetQuota soft path (vo_id vo) quota) ;;
     fsops Gpfs (SetFilesetGrace path vo_storage_grace_time))
    is_AttributeError
    (fun _ =>
       storage_repr vo ;;
       log_msg LException "No such attribute in the storage instance %s" []).

Definition set_data_quota (vo : VscVo) : M unit :=
  q <~ call (dataQuota vo) ;;
  _set_quota vo (_data_path vo) q.

Definition set_scratch_quota (vo : VscVo) : M unit :=
  q <~ call (scratchQuota vo) ;;
  _set_quota vo (_scratch_path vo) q.

(** [VscVo._set_member_quota(path_function, member, quota)] *)
Definition _set_member_quota (vo : VscVo) (path_function : M string)
    (member : string) (quota : Z) : M unit :=
  try_except
    (path <~ path_function ;;
     let soft := soft_limit quota in
     uid <~ call (uidNumber member) ;;
     fsops Gpfs (SetUserQuota soft uid path quota))
    is_AttributeError
    (fun _ =>
       storage_repr vo ;;
       log_msg LException "No such attribute in the storage instance %s" []).

(** [quota = int(self.dataQuota) / 2 * 1024], integer division *)
Definition set_member_data_quota (vo : VscVo) (member : string) : M unit :=
  q <~ call (dataQuota vo) ;;
  let quota := (q / 2 * 1024)%Z in
  _set_member_quota vo (_data_path vo) member quota.

Definition set_member_scratch_quota (vo : VscVo) (member : string) : M unit :=
  q <~ call (dataQuota vo) ;;
  let quota := (q / 2 * 1024)%Z in
  _set_member_quota vo (_scratch_path vo) member quota.

End Methods.

(** [VscVo.__init__(vo_id, storage=None)]: [self.storage] is assigned, to
    [CentralStorage()], only when no storage is passed. *)
Definition VscVo_init (central : CentralStorage) (vo_id : string)
    (storage : option CentralStorage) : VscVo :=
  {| vo_id := vo_id;
     storage := match storage with None => Some central | Some _ => None end |}.

End Vo.

(** ** bin/sync_ugent_vsc_users.py *)

Module SyncUgent.

(** A [VscUser] as the script uses it. *)
Record VscUser : Type := {
  user_id : string;
  status : string;
  dry_run : bool
}.

Definition set_status (u : VscUser) (st : string) : VscUser :=
  {| user_id := user_id u; status := st; dry_run := dry_run u |}.

Definition set_dry_run (u : VscUser) (d : bool) : VscUser :=
  {| user_id := user_id u; status := status u; dry_run := d |}.

(** The methods of [vsc.administration.user.VscUser] that the script
    calls; the class is not part of these sources. *)
Class VscUserMethods `{Platform} : Type := {
  create_home_dir : VscUser -> Ext unit;
  set_home_quota : VscUser -> Ext unit;
  populate_home_dir : VscUser -> Ext unit;
  create_data_dir : VscUser -> Ext unit;
  set_data_quota : VscUser -> Ext unit
}.

(** The command line options after [simple_option]. *)
Record options : Type := {
  opt_dry_run : bool;
  opt_nagios : bool;
  opt_user : bool;
  opt_vo : bool
}.

(** What [main] uses of [vsc.ldap], [vsc.utils.lock], [vsc.utils.nagios]
    and the clock. *)
Class ScriptEnv `{Platform} : Type := {
  (** [nagios_reporter.report_and_exit()] *)
  report_and_exit : Ext unit;
  (** [lock_or_bork(lockfile, nagios_reporter)] *)
  lock_or_bork : Ext unit;
  (** [release_or_bork(lockfile, nagios_reporter, result)] *)
  release_or_bork : Ext unit;
  (** [lockfile.release()] *)
  lockfile_release : Ext unit;
  (** [LdapQuery(VscConfiguration())] *)
  LdapQuery_init : Ext unit;
  (** [VscUser.lookup(timestamp_filter & InstituteFilter(GENT))] *)
  VscUser_lookup : Z -> Ext (list VscUser);
  (** [VscVo.lookup(timestamp_filter & InstituteFilter(GENT) & CnFilter("gvo*"))] *)
  VscVo_lookup : Z -> Ext (list Vo.VscVo);
  (** [convert_timestamp()]: the current time as an LDAP timestamp *)
  convert_timestamp : Ext Z;
  (** [Some e] when writing the timestamp file raises [e] *)
  write_timestamp_fault : ext_state -> option exn
}.

Section Script.
Context `{Platform} `{!VscConfig} `{!VscUserMethods} `{!Vo.VscLdapGroup} `{!ScriptEnv}.

(** [notify_user_directory_created(user, dry_run=True)]; the
    assignment to [user.status] writes the LDAP attribute. *)
Definition notify_user_directory_created (user : VscUser) (dry : bool) : M VscUser :=
  if dry then
    log_msg LInfo "User %s has LDAP status %s. Dry-run so not changing anything"
            [user_id user; status user] ;;
    ret user
  else if (status user =? "new")%string then
    push_status (user_id user) "notify" ;;
    log_msg LInfo "User %s changed LDAP status from new to notify" [user_id user] ;;
    ret (set_status user "notify")
  else
    log_msg LInfo "User %s has LDAP status %s, not changing to notify"
            [user_id user; status user] ;;
    ret user.

(** The provisioning steps of one user: the body of the [try]. *)
Definition provision_user (options_dry_run : bool) (user : VscUser) : M VscUser :=
  call (create_home_dir user) ;;
  call (set_home_quota user) ;;
  call (populate_home_dir user) ;;
  call (create_data_dir user) ;;
  call (set_data_quota user) ;;
  notify_user_directory_created user options_dry_run.

(** One iteration of the loop of [process_users]. *)
Definition process_users_body (options_dry_run : bool) (user : VscUser)
    (acc : list VscUser * list VscUser) : M (list VscUser * list VscUser) :=
  let '(ok_users, error_users) := acc in
  let user := if options_dry_run then set_dry_run user true else user in
  try_except
    (user' <~ provision_user options_dry_run user ;;
     ret (ok_users ++ [user'], error_users))
    any_exn
    (fun _ =>
       log_msg LException "Cannot process user %s" [user_id user] ;;
       ret (ok_users, error_users ++ [user])).

(** [process_users(options, users, storage)] *)
Definition process_users (options_dry_run : bool) (users : list VscUser)
    : M (list VscUser * list VscUser) :=
  for_each users (process_users_body options_dry_run) ([], []).

(** The steps for one member of a VO: the body of the inner [try]. *)
Definition provision_vo_member (vo : Vo.VscVo) (user : string) : M unit :=
  Vo.set_member_data_quota vo user ;;
  call (Vo.set_member_data_symlink vo user).

Definition process_vos_member (vo : Vo.VscVo) (user : string)
    (acc : MonoidDict * MonoidDict) : M (MonoidDict * MonoidDict) :=
  let '(ok_vos, error_vos) := acc in
  try_except
    (provision_vo_member vo user ;;
     ret (md_set (Vo.vo_id vo) [user] ok_vos, error_vos))
    any_exn
    (fun _ =>
       log_msg LException "Failure at setting up the member %s VO %s data"
               [user; Vo.vo_id vo] ;;
       ret (ok_vos, md_set (Vo.vo_id vo) [user] error_vos)).

(** One iteration of the outer loop of [process_vos]. *)
Definition process_vos_body (vo : Vo.VscVo) (acc : MonoidDict * MonoidDict)
    : M (MonoidDict * MonoidDict) :=
  try_except
    (_ <~ call (Vo.status vo) ;;
     Vo.create_data_fileset vo ;;
     Vo.set_data_quota vo ;;
     members <~ call (Vo.memberUid vo) ;;
     for_each members (process_vos_member vo) acc)
    any_exn
    (fun _ =>
       log_msg LException "Something went wrong setting up the VO %s on the storage %s"
               [Vo.vo_id vo] ;;
       ret acc).

(** [process_vos(options, vos, storage)] *)
Definition process_vos (vos : list Vo.VscVo) : M (MonoidDict * MonoidDict) :=
  for_each vos process_vos_body (∅, ∅).

(** [read_timestamp(SYNC_TIMESTAMP_FILENAME)].  The timestamps of the
    directory are strings of the form ["YYYYMMDDhhmmZ"]; a timestamp is
    kept here as the number that its digits spell, whose order is the
    order of the points in time. *)
Definition read_timestamp : M Z :=
  fun w => (w, match timestamp_file w with
               | Some t => Returned t
               | None => Raised IOError
               end).

(** [write_timestamp(SYNC_TIMESTAMP_FILENAME, ldap_timestamp)] *)
Definition write_timestamp (t : Z) : M unit :=
  fun w => match write_timestamp_fault (ext w) with
           | Some e => (w, Raised e)
           | None => (set_timestamp_file (Some t) w, Returned tt)
           end.

(** The timestamp used when the file cannot be read, ["200901010000Z"]. *)
Definition default_timestamp : Z := 200901010000.

Definition NAGIOS_EXIT_CRITICAL_code : Z := 2.

(** The local variables that the first [try] of [main] leaves behind.
    [users_ok] is only bound when users are processed: the
    initialisation before the [if] assigns [user_ok]. *)
Record main_locals : Type := {
  users_ok : option (list VscUser);
  users_critical : list VscUser;
  vos_ok : MonoidDict;
  vos_critical : MonoidDict
}.

(** The synchronisation proper: the body of the first [try] of [main]. *)
Definition main_sync (opts : options) : M main_locals :=
  call LdapQuery_init ;;
  last_timestamp <~
    try_except read_timestamp any_exn
      (fun _ =>
         log_msg LException "Something broke reading the timestamp from %s" [] ;;
         ret default_timestamp) ;;
  log_msg LInfo "Last recorded timestamp was %s" [] ;;
  log_msg LDebug "Timestamp filter = %s" [] ;;
  users <~
    (if opt_user opts then
       log_msg LDebug "Filter for looking up changed UGent users %s" [] ;;
       ugent_users <~ call (VscUser_lookup last_timestamp) ;;
       log_msg LInfo "Found %d UGent users that have changed in the LDAP since %s" [] ;;
       log_msg LDebug "Found the following UGent users: {users}" (map user_id ugent_users) ;;
       r <~ process_users (opt_dry_run opts) ugent_users ;;
       ret (Some r.1, r.2)
     else ret (None, [])) ;;
  vos <~
    (if opt_vo opts then
       log_msg LInfo "Filter for looking up changed UGent VOs = %s" [] ;;
       found <~ call (VscVo_lookup last_timestamp) ;;
       let ugent_vos :=
         filter (fun vo => Vo.vo_id vo ∉ institute_vos) found in
       log_msg LInfo "Found %d UGent VOs that have changed in the LDAP since %s" [] ;;
       log_msg LDebug "Found the following UGent VOs: {vos}" (map Vo.vo_id ugent_vos) ;;
       process_vos ugent_vos
     else ret (∅, ∅)) ;;
  ret {| users_ok := users.1; users_critical := users.2;
         vos_ok := vos.1; vos_critical := vos.2 |}.

Definition result_metrics (n_users : nat) (l : main_locals) : list (string * nat) :=
  [("users", n_users); ("users_critical", List.length (users_critical l));
   ("vos", md_len (vos_ok l)); ("vos_critical", md_len (vos_critical l))].

(** The start of [main]: the nagios-only mode and the lock. *)
Definition main_start (opts : options) : M unit :=
  (if opt_nagios opts then
     log_msg LDebug "Producing Nagios report and exiting." [] ;;
     call report_and_exit ;;
     sys_exit 0
   else ret tt) ;;
  log_msg LInfo "Starting synchronisation of UGent users." [] ;;
  call lock_or_bork.

(** The handler of the first [try] of [main]. *)
Definition main_failed {A} : M A :=
  log_msg LException "Fail during UGent users synchronisation: {err}" [] ;;
  nagios_reporter_cache NAGIOS_EXIT_CRITICAL "Script failed, check log file ({logfile})" [] ;;
  call lockfile_release ;;
  sys_exit NAGIOS_EXIT_CRITICAL_code.

(** The end of [main]: the new timestamp is taken and written, the result
    is cached, the lock is released. *)
Definition main_commit (metrics : list (string * nat)) : M unit :=
  try_finally
    (try_except
       (ldap_timestamp <~ call convert_timestamp ;;
        write_timestamp ldap_timestamp ;;
        nagios_reporter_cache NAGIOS_EXIT_OK "UGent users synchronised" metrics)
       any_exn
       (fun _ =>
          log_msg LException "Something broke writing the timestamp" [] ;;
          nagios_reporter_cache NAGIOS_EXIT_WARNING
            "UGent users synchronised, filestamp not written" metrics))
    (call release_or_bork).

(** [main()] after option parsing *)
Definition main (opts : options) : M unit :=
  main_start opts ;;
  l <~ try_except (main_sync opts) is_Exception (fun _ => main_failed) ;;
  n_users <~
    match users_ok l with
    | Some ok => ret (List.length ok)
    | None => raise (UnboundLocalError "users_ok")
    end ;;
  main_commit (result_metrics n_users l) ;;
  log_msg LInfo
    "Finished synchronisation of the UGent VSC users from the LDAP with the filesystem." [].

End Script.

End SyncUgent.

(** ** lib/vsc/administration/tier1c.py *)

Module Tier1c.

Definition PROJECT_SUBDIR : string := "projects".
Definition PROJ : string := "prj".

(** A [vsc.config.base.Storage] with the attributes that tier1c.py reads. *)
Record Storage : Type := {
  filesystem : string;
  fsbackend : string;
  mount_point : string;
  quota_prj : Z;
  data_replication_factor : Z
}.

(** [path_templates]: from a template type to the function that gives the
    path of a name below the mount point. *)
Definition path_templates : Type := string -> option (string -> string).

(** A quota record of the account page. *)
Record Quota : Type := { hard : Z }.

(** The account page as tier1c.py and sync.py see it.  [prj_load] is the
    [prj] (or [vo]) property of a project. *)
Record PrjRecord : Type := {
  vsc_id : string;
  vsc_id_number : Z;
  moderators : list string
}.

Record Account : Type := {
  acc_vsc_id : string;
  acc_vsc_id_number : Z
}.

Class AccountPage `{Platform} : Type := {
  (** [VscStorage()[institute][name]] with its path templates *)
  vscstorage : string -> string -> option (Storage * path_templates);
  prj_load : string -> Ext PrjRecord;
  (** [mkVscAccount(rest_client.account[vsc_id].get()[1])] *)
  account_get : string -> Ext Account;
  (** the ["vsc_id"] entries of [prj.member.modified[datestamp].get()] *)
  member_modified : string -> Z -> Ext (list string);
  (** [_quota_cache] as the parent class left it *)
  quota_cache : string -> option Quota
}.

Section Classes.
Context `{Platform} `{!VscConfig} `{!AccountPage}.

(** [Dodrio()] *)
Definition Dodrio : Storage :=
  {| filesystem := "dodrioscratch";
     fsbackend := "lustre";
     mount_point := "/dodrio/scratch";
     quota_prj := 1048576;
     data_replication_factor := storage_data_replication_factor |}.

(** A [VscStorageBackend] after construction.  The constructor has a
    [dry_run] parameter and stores nothing for it. *)
Record VscStorageBackend : Type := {
  storage : Storage;
  storage_name : string;
  templates : path_templates;
  ops : fs_kind
}.

(** [VscStorageBackend.__init__] *)
Definition VscStorageBackend_init (storage : option Storage)
    (path_templates : option path_templates) (storage_name host_institute : option string)
    (dry_run : bool) : M VscStorageBackend :=
  found <~
    match storage, path_templates with
    | Some st, Some pt => ret (st, pt)
    | _, _ =>
        match storage_name, host_institute with
        | Some name, Some institute =>
            match vscstorage institute name with
            | Some r => ret r
            | None => raise KeyError
            end
        | _, _ =>
            log_raiseException
              "Can not find storage backend without storage or storage_name/institute defined" []
        end
    end ;;
  let '(st, pt) := found in
  k <~ (if (fsbackend st =? "lustre")%string then ret Lustre
        else if (fsbackend st =? "gpfs")%string then ret Gpfs
        else log_raiseException "FS backend not yet supported" []) ;;
  ret {| storage := st; storage_name := filesystem st; templates := pt; ops := k |}.

Definition _get_path (b : VscStorageBackend) (template_type name : string) : M string :=
  match templates b template_type with
  | Some f => ret (path_join (mount_point (storage b)) (f name))
  | None => raise KeyError
  end.

Definition _get_project_path (b : VscStorageBackend) (pjname : string) : M string :=
  _get_path b PROJ pjname.

(** [_create_fileset(path, name, mode=0o770)]; [0o770] is 504. *)
Definition _create_fileset (b : VscStorageBackend) (path name : string) (mode : Z) : M unit :=
  info <~ get_fileset_info (ops b) (storage_name b) name ;;
  (if negb info then
     log_msg LInfo "Creating new fileset on %s with name %s and path %s"
             [storage_name b; name; path] ;;
     let base_dir_hierarchy := dirname path in
     fsops (ops b) (MakeDir base_dir_hierarchy) ;;
     fsops (ops b) (MakeFileset path name)
   else
     log_msg LInfo "Fileset %s already exists for %s ... not creating again."
             [name; storage_name b]) ;;
  fsops (ops b) (Chmod mode path).

Definition create_project_fileset (b : VscStorageBackend) (pjname : string)
    (moderator_id group_owner_id : Z) : M unit :=
  path <~ _get_project_path b pjname ;;
  _create_fileset b path pjname 504 ;;
  fsops (ops b) (Chown moderator_id group_owner_id path).

(** The two numbers [_set_fileset_quota] hands to the backend for a
    quota in KiB. *)
Definition hard_limit (b : VscStorageBackend) (quota : Z) : Z :=
  (quota * 1024 * data_replication_factor (storage b))%Z.

Definition soft_limit (hard : Z) : Z :=
  int_of_Q (inject_Z hard * quota_soft_fraction)%Q.

(** [quota_soft_fraction] is a Python float.  [soft_limit] takes it as the
    rational number that it stands for and multiplies exactly;
    [soft_limit_binary64] is [int(hard * fraction)] in binary64 arithmetic,
    to check concrete values against. *)
Definition soft_limit_binary64 (fraction : spec_float) (hard : Z) : option Z :=
  int_of_float (float_mul (float_of_int hard) fraction).

(** [_set_fileset_quota(path, name, quota)] *)
Definition _set_fileset_quota (b : VscStorageBackend) (path name : string) (quota : Z)
    : M unit :=
  try_except
    (let hard := hard_limit b quota in
     let soft := soft_limit hard in
     fsops (ops b) (SetFilesetQuota soft path name hard) ;;
     fsops (ops b) (SetFilesetGrace path vo_storage_grace_time))
    is_Exception
    (fun _ => log_raiseException "Unable to set quota on path %s" [path]).

(** [set_project_quota(pjname, quota=None)] *)
Definition set_project_quota (b : VscStorageBackend) (pjname : string)
    (quota : option Quota) : M unit :=
  path <~ _get_project_path b pjname ;;
  quota <~
    match quota with
    | None =>
        let quota := quota_prj (storage b) in
        log_msg LError "No %s quota information available for %s" [pjname; storage_name b] ;;
        log_msg LInfo "Setting default quota for %s on storage %s to %d"
                [pjname; storage_name b] ;;
        ret quota
    | Some q => ret (hard q)
    end ;;
  log_msg LInfo "Setting %s quota on storage %s to %d" [pjname; storage_name b] ;;
  _set_fileset_quota b path pjname quota.

(** [_create_member_dir(target, uid, gid, mode=0o700, override_permissions=False)] *)
Definition _create_member_dir (b : VscStorageBackend) (target : string) (uid gid : Z)
    : M unit :=
  fsops (ops b) (CreateStatDirectory target 448 uid gid false).

Definition create_project_member_dir (b : VscStorageBackend) (pjname member : string)
    (muid mgid : Z) : M unit :=
  path <~ _get_project_path b pjname ;;
  _create_member_dir b (path_join path member) muid mgid.

(** A [VscTier1cUser] after construction. *)
Record VscTier1cUser : Type := {
  user_id : string;
  user_backend : VscStorageBackend
}.

(** [VscTier1cUser.__init__] as sync.py calls it: no [storage], so the
    backend is built from [Dodrio()] and the [dry_run] flag alone. *)
Definition VscTier1cUser_init (user_id : string) (dry_run : bool) : M VscTier1cUser :=
  let storage := Dodrio in
  b <~ VscStorageBackend_init (Some storage) None None (Some GENT) dry_run ;;
  ret {| user_id := user_id; user_backend := b |}.

(** [VscTier1cUser.set_quota] returns at once. *)
Definition user_set_quota (u : VscTier1cUser) : M unit := ret tt.

(** A [VscTier1cProject] after construction. *)
Record VscTier1cProject : Type := {
  pjid : string;
  prj_storage_name : string;
  backend : VscStorageBackend
}.

(** [VscTier1cProject.project_path] *)
Definition project_path (pjid host_institute : string) : string :=
  path_join (path_join host_institute PROJECT_SUBDIR) pjid.

(** [VscTier1cProject.__init__] as sync.py calls it: no [storage] and no
    [storage_name]. *)
Definition VscTier1cProject_init (pjid : string) (dry_run : bool) : M VscTier1cProject :=
  let host_institute := GENT in
  let storage := Dodrio in
  let path_templates : path_templates :=
    fun t => if (t =? PROJ)%string then Some (fun pjname => project_path pjname host_institute)
             else None in
  let storage_name := filesystem storage in
  b <~ VscStorageBackend_init (Some storage) (Some path_templates) (Some storage_name)
                              (Some GENT) dry_run ;;
  ret {| pjid := pjid; prj_storage_name := storage_name; backend := b |}.

(** The [prj_quota] property: the cache when it holds a record. *)
Definition prj_quota (prj : VscTier1cProject) : option Quota :=
  quota_cache (pjid prj).

(** Reading a local variable that an earlier statement may not have
    assigned. *)
Definition local {A} (name : string) (v : option A) : M A :=
  match v with Some a => ret a | None => raise (UnboundLocalError name) end.

(** [l[0]] *)
Definition index0 {A} (l : list A) : M A :=
  match l with a :: _ => ret a | [] => raise IndexError end.

(** The first [try] of [create_fileset]: the values of the locals
    [fileset_owner_id] and [fileset_group_owner_id] after it.  An
    exception in the body comes from the moderator lookup or from the
    second read of [self.prj], both before the first assignment.
    [self.rest_client] and [HTTPError] stand for the client of the account
    page and for its error class, as the handler reads. *)
Definition resolve_owner (prj : VscTier1cProject) : M (option Z * option Z) :=
  try_except
    (p <~ call (prj_load (pjid prj)) ;;
     first <~ index0 (moderators p) ;;
     moderator <~ call (account_get first) ;;
     p' <~ call (prj_load (pjid prj)) ;;
     let fileset_group_owner_id := vsc_id_number p' in
     let fileset_owner_id := acc_vsc_id_number moderator in
     ret (Some fileset_owner_id, Some fileset_group_owner_id))
    (fun e => is_HTTPError e || is_IndexError e)
    (fun e =>
       if is_HTTPError e then
         log_msg LException
           "Cannot obtain moderator information from account page, setting ownership to nobody"
           [] ;;
         ret (Some nobody_uid, None)
       else
         p <~ call (prj_load (pjid prj)) ;;
         log_msg LError "There is no moderator available for %s" [vsc_id p] ;;
         ret (Some nobody_uid, None)).

(** [VscTier1cProject.create_fileset] *)
Definition create_fileset (prj : VscTier1cProject) : M unit :=
  ids <~ resolve_owner prj ;;
  try_except
    (fileset_owner_id <~ local "fileset_owner_id" ids.1 ;;
     fileset_group_owner_id <~ local "fileset_group_owner_id" ids.2 ;;
     create_project_fileset (backend prj) (pjid prj) fileset_owner_id fileset_group_owner_id)
    is_Exception
    (fun _ => log_raiseException "Failed to create fileset %s " [pjid prj]).

(** [VscTier1cProject.set_quota] *)
Definition set_quota (prj : VscTier1cProject) : M unit :=
  let quota := prj_quota prj in
  set_project_quota (backend prj) (pjid prj) quota.

(** [VscTier1cProject.modified_members] *)
Definition modified_members (prj : VscTier1cProject) (datestamp : Z) : M (list string) :=
  call (member_modified (pjid prj) datestamp).

(** [VscTier1cProject.set_member_scratch_quota] returns at once. *)
Definition set_member_scratch_quota (prj : VscTier1cProject) (member : VscTier1cUser)
    : M unit := ret tt.

(** [VscTier1cProject.create_member_dir]: the call hands five arguments
    to [create_project_member_dir], which takes four. *)
Definition create_member_dir (prj : VscTier1cProject) (member : VscTier1cUser) : M unit :=
  raise TypeError.

End Classes.

End Tier1c.

(** ** lib/vsc/administration/sync.py *)

Module Sync.
Import Tier1c.

Definition STORAGE_USERS_LIMIT_WARNING : nat := 1.
Definition STORAGE_USERS_LIMIT_CRITICAL : nat := 10.
Definition STORAGE_QUOTA_LIMIT_WARNING : nat := 1.
Definition STORAGE_QUOTA_LIMIT_CRITICAL : nat := 5.
Definition STORAGE_PRJ_LIMIT_WARNING : nat := 1.
Definition STORAGE_PRJ_LIMIT_CRITICAL : nat := 2.

Definition VSC_TIER1C_SCRATCH : string := "dodrioscratch".

(** The records that the account page returns to [do]. *)
Record UserQuota : Type := { quota_user : string }.
Record Group : Type := { group_vsc_id : string }.
Record VoQuota : Type := { quota_fileset : string; virtual_organisation : string }.

(** What sync.py uses and does not define: the methods that
    [VscTier1cUser] and [VscTier1cProject] inherit, [update_user_status]
    of [vsc.administration.user], and the queries of the [Sync] base
    class. *)
Class SyncEnv `{Platform} `{!VscConfig} `{!AccountPage} : Type := {
  create_home_dir : VscTier1cUser -> Ext unit;
  populate_home_dir : VscTier1cUser -> Ext unit;
  update_user_status : VscTier1cUser -> Ext unit;
  (** [prj.members] *)
  members : VscTier1cProject -> Ext (list string);
  (** [self.get_accounts(site=institute)[0]] *)
  get_accounts : string -> Ext (list string);
  get_user_storage_quota : string -> Ext (list UserQuota);
  (** [self.get_groups(site=institute)[0]] *)
  get_groups : string -> Ext (list Group);
  get_vo_storage_quota : string -> Ext (list VoQuota);
  start_timestamp : Z
}.

(** The entry points of a project that [process_projects] calls under
    their scratch names.  tier1c.py defines the steps as [create_fileset],
    [set_quota] and [create_member_dir]; the scratch names come from the
    parent class, which is not part of these sources. *)
Class ProjectEntryPoints `{Platform} `{!VscConfig} `{!AccountPage} : Type := {
  create_scratch_fileset : VscTier1cProject -> M unit;
  set_scratch_quota : VscTier1cProject -> M unit;
  create_member_scratch_dir : VscTier1cProject -> VscTier1cUser -> M unit
}.

(** The entry points bound to the methods that tier1c.py defines for the
    same steps. *)
Definition Tier1cEntryPoints `{Platform} `{!VscConfig} `{!AccountPage} : ProjectEntryPoints :=
  {| create_scratch_fileset := create_fileset;
     set_scratch_quota := set_quota;
     create_member_scratch_dir := create_member_dir |}.

Section VscTier1cSync.
Context `{Platform} `{!VscConfig} `{!AccountPage} `{!SyncEnv} `{!ProjectEntryPoints}.

(** [prj.prj_id]: the id the project was built from. *)
Definition prj_id (prj : VscTier1cProject) : string := pjid prj.

(** [[f(x) for x in xs]] *)
Fixpoint comprehension {A B} (f : A -> M B) (xs : list A) : M (list B) :=
  match xs with
  | [] => ret []
  | x :: rest =>
      y <~ f x ;;
      ys <~ comprehension f rest ;;
      ret (y :: ys)
  end.

(** The guard on the storage name that opens both [process_*] methods. *)
Definition check_storage_name (storage_name : string) : M unit :=
  if negb (storage_name =? VSC_TIER1C_SCRATCH)%string then
    log_raiseException "%s is not a storage name for tier1c" [storage_name]
  else ret tt.

(** The provisioning steps of one user: the body of the [try]. *)
Definition provision_t1_user (user : VscTier1cUser) : M unit :=
  call (create_home_dir user) ;;
  call (populate_home_dir user) ;;
  call (update_user_status user).

Definition process_t1_users_body (dry_run : bool) (vsc_id : string)
    (acc : list VscTier1cUser * list VscTier1cUser)
    : M (list VscTier1cUser * list VscTier1cUser) :=
  let '(ok_users, error_users) := acc in
  user <~ VscTier1cUser_init vsc_id dry_run ;;
  try_except
    (provision_t1_user user ;;
     ret (ok_users ++ [user], error_users))
    is_Exception
    (fun _ =>
       log_msg LException "Cannot process user %s" [user_id user] ;;
       ret (ok_users, error_users ++ [user])).

Definition process_t1_quota_body (dry_run : bool) (quota : UserQuota)
    (acc : list UserQuota * list UserQuota) : M (list UserQuota * list UserQuota) :=
  let '(ok_quota, error_quota) := acc in
  user <~ VscTier1cUser_init (quota_user quota) dry_run ;;
  try_except
    (user_set_quota user ;;
     ret (ok_quota ++ [quota], error_quota))
    is_Exception
    (fun _ =>
       log_msg LException "Cannot process user %s" [user_id user] ;;
       ret (ok_quota, error_quota ++ [quota])).

(** [process_t1_users(account_ids, quotas, storage_name, dry_run)] *)
Definition process_t1_users (account_ids : list string) (quotas : list UserQuota)
    (storage_name : string) (dry_run : bool)
    : M (list VscTier1cUser * list VscTier1cUser * list UserQuota * list UserQuota) :=
  check_storage_name storage_name ;;
  users <~ for_each (sorted account_ids) (process_t1_users_body dry_run) ([], []) ;;
  quota <~ for_each quotas (process_t1_quota_body dry_run) ([], []) ;;
  ret (users.1, users.2, quota.1, quota.2).

(** The steps for one modified member: the body of the inner [try]. *)
Definition provision_member (prj : VscTier1cProject) (member : VscTier1cUser) : M unit :=
  set_member_scratch_quota prj member ;;
  create_member_scratch_dir prj member.

Definition process_projects_member (storage_name : string) (prj : VscTier1cProject)
    (member : VscTier1cUser) (acc : MonoidDict * MonoidDict)
    : M (MonoidDict * MonoidDict) :=
  let '(ok_prj, error_prj) := acc in
  try_except
    (provision_member prj member ;;
     ret (md_set (prj_id prj) [user_id member] ok_prj, error_prj))
    is_Exception
    (fun _ =>
       log_msg LException "Failure at setting up the member %s of project %s on %s"
               [user_id member; prj_id prj; storage_name] ;;
       ret (ok_prj, md_set (prj_id prj) [user_id member] error_prj)).

(** The steps of one project: the body of the outer [try]. *)
Definition provision_project (storage_name : string) (datestamp : Z) (dry_run : bool)
    (prj : VscTier1cProject) (acc : MonoidDict * MonoidDict)
    : M (MonoidDict * MonoidDict) :=
  create_scratch_fileset prj ;;
  set_scratch_quota prj ;;
  modified_member_list <~ modified_members prj datestamp ;;
  modified <~ comprehension (fun a => VscTier1cUser_init a dry_run) modified_member_list ;;
  for_each modified (process_projects_member storage_name prj) acc.

Definition process_projects_body (storage_name : string) (datestamp : Z) (dry_run : bool)
    (id : string) (acc : MonoidDict * MonoidDict) : M (MonoidDict * MonoidDict) :=
  prj <~ VscTier1cProject_init id dry_run ;;
  try_except
    (provision_project storage_name datestamp dry_run prj acc)
    is_Exception
    (fun _ =>
       log_msg LException "Something went wrong setting up the project %s on the storage %s"
               [prj_id prj; storage_name] ;;
       ms <~ call (members prj) ;;
       ret (acc.1, md_set (prj_id prj) ms acc.2)).

(** [process_projects(prj_ids, storage_name, datestamp, dry_run)] *)
Definition process_projects (prj_ids : list string) (storage_name : string)
    (datestamp : Z) (dry_run : bool) : M (MonoidDict * MonoidDict) :=
  check_storage_name storage_name ;;
  for_each (sorted prj_ids) (process_projects_body storage_name datestamp dry_run) (∅, ∅).

(** An entry of the list that [do] returns. *)
Inductive failed : Type :=
| FailedUser (u : VscTier1cUser)
| FailedQuota (q : UserQuota).

Definition store_thresholds (stats : gmap string nat) : M unit :=
  fun w => (set_thresholds stats w, Returned tt).

(** ["%s_..." % (storage_name,)] *)
Definition stat_key (storage_name suffix : string) : string := storage_name ++ suffix.

Definition user_stats (storage_name : string) (users_ok users_fail : nat)
    (quota_ok quota_fail : nat) (stats : gmap string nat) : gmap string nat :=
  <[stat_key storage_name "_quota_sync_fail_critical" := STORAGE_QUOTA_LIMIT_CRITICAL]>
  (<[stat_key storage_name "_quota_sync_fail_warning" := STORAGE_QUOTA_LIMIT_WARNING]>
  (<[stat_key storage_name "_quota_sync_fail" := quota_fail]>
  (<[stat_key storage_name "_quota_sync" := quota_ok]>
  (<[stat_key storage_name "_users_sync_fail_critical" := STORAGE_USERS_LIMIT_CRITICAL]>
  (<[stat_key storage_name "_users_sync_fail_warning" := STORAGE_USERS_LIMIT_WARNING]>
  (<[stat_key storage_name "_users_sync_fail" := users_fail]>
  (<[stat_key storage_name "_users_sync" := users_ok]> stats))))))).

Definition prj_stats (storage_name : string) (prj_ok prj_fail : nat)
    (stats : gmap string nat) : gmap string nat :=
  <[stat_key storage_name "_prj_sync_fail_critical" := STORAGE_PRJ_LIMIT_CRITICAL]>
  (<[stat_key storage_name "_prj_sync_fail_warning" := STORAGE_PRJ_LIMIT_WARNING]>
  (<[stat_key storage_name "_prj_sync_fail" := prj_fail]>
  (<[stat_key storage_name "_prj_sync" := prj_ok]> stats))).

(** [do(dry_run)]; [None] is the [False] that it returns when nothing
    failed.  When projects are processed [prj_fail] is a dictionary,
    and adding it to a list raises [TypeError]. *)
Definition do (options_user options_projects : bool) (dry_run : bool)
    : M (option (list failed)) :=
  let stats : gmap string nat := ∅ in
  let institute := "GhentTier1c" in
  let storage_name := VSC_TIER1C_SCRATCH in
  let project_prefix := "proj_" in
  users <~
    (if options_user then
       changed_accounts <~ call (get_accounts institute) ;;
       log_msg LInfo "Found %d %s accounts that have changed in the accountpage since %s"
               [institute] ;;
       storage_changed_quota <~ call (get_user_storage_quota storage_name) ;;
       log_msg LInfo "Found %d quota changes on storage %s in the accountpage"
               [storage_name] ;;
       r <~ process_t1_users changed_accounts storage_changed_quota storage_name dry_run ;;
       let '(users_ok, users_fail, quota_ok, quota_fail) := r in
       ret (users_fail, quota_fail,
            user_stats storage_name (List.length users_ok) (List.length users_fail)
                       (List.length quota_ok) (List.length quota_fail) stats)
     else ret ([], [], stats)) ;;
  let '(users_fail, quota_fail, stats) := users in
  prjs <~
    (if options_projects then
       changed_groups <~ call (get_groups institute) ;;
       let changed_prjs :=
         filter (fun g => String.prefix project_prefix (group_vsc_id g) = true)
                changed_groups in
       quota <~ call (get_vo_storage_quota storage_name) ;;
       let changed_prj_quota :=
         filter (fun q => String.prefix project_prefix (quota_fileset q) = true) quota in
       let prjs := sorted (remove_dups (map group_vsc_id changed_prjs
                                        ++ map virtual_organisation changed_prj_quota)) in
       log_msg LInfo "Found %d %s projects that have changed in the accountpage since %s"
               [institute] ;;
       log_msg LInfo "Found %d %s VOs that have changed quota in the accountpage since %s"
               [institute] ;;
       log_msg LDebug "Found the following {institute} projects: {prjs}" (institute :: prjs) ;;
       r <~ process_projects prjs storage_name start_timestamp dry_run ;;
       ret (Some r.2, prj_stats storage_name (md_len r.1) (md_len r.2) stats)
     else ret (None, stats)) ;;
  let '(prj_fail, stats) := prjs in
  store_thresholds stats ;;
  let prj_failed := match prj_fail with Some d => dict_truthy d | None => false end in
  if list_truthy users_fail || list_truthy quota_fail || prj_failed then
    match prj_fail with
    | Some _ => raise TypeError
    | None => ret (Some (map FailedUser users_fail ++ map FailedQuota quota_fail))
    end
  else ret None.

End VscTier1cSync.

End Sync.

(** ** A small site, for examples *)

Module Demo.
Local Open Scope Z_scope.

(** The external state of the examples: the clock, the names of the
    filesets that exist, and the ids for which the directory, the account
    page or the user's storage are out of order. *)
Record state : Type := {
  clock : Z;
  filesets : list string;
  broken : list string
}.

Definition platform : Platform :=
  {| ext_state := state;
     fsops_get_fileset_info := fun _ _ name st => bool_decide (name ∈ filesets st);
     fsops_mount_point := fun name _ => Some (String "/" name);
     fsops_exec := fun _ c st =>
       match c with
       | MakeFileset _ name =>
           ({| clock := clock st; filesets := name :: filesets st; broken := broken st |}, None)
       | _ => (st, None)
       end |}.

(** The configuration with soft fraction 0.95 and the given replication
    factor. *)
Definition config (replication : Z) : VscConfig :=
  {| GENT := "gent";
     quota_soft_fraction := (95 # 100)%Q;
     vo_storage_grace_time := 604800;
     institute_vos := ["gvo00012"; "gvo00016"; "gvo00017"; "gvo00018"];
     storage_data_replication_factor := replication;
     nobody_uid := 65534 |}.


(** An external call that raises [e] for the ids that are out of order. *)
Definition unless_broken {A} (id : string) (e : exn) (a : A) : @Ext platform A :=
  fun st => (st, if bool_decide (id ∈ broken st) then Raised e else Returned a).

Definition user_methods : @SyncUgent.VscUserMethods platform :=
  {| SyncUgent.create_home_dir := fun u => unless_broken (SyncUgent.user_id u) IOError tt;
     SyncUgent.set_home_quota := fun _ st => (st, Returned tt);
     SyncUgent.populate_home_dir := fun _ st => (st, Returned tt);
     SyncUgent.create_data_dir := fun _ st => (st, Returned tt);
     SyncUgent.set_data_quota := fun _ st => (st, Returned tt) |}.

Definition ldap_group : @Vo.VscLdapGroup platform :=
  {| Vo.status := fun vo => unless_broken (Vo.vo_id vo) IOError "active";
     Vo.memberUid := fun _ st => (st, Returned ["vsc40001"; "vsc40002"]);
     Vo.gidNumber := fun _ st => (st, Returned 2640012);
     Vo.dataQuota := fun _ st => (st, Returned 10);
     Vo.scratchQuota := fun _ st => (st, Returned 10);
     Vo.uidNumber := fun _ st => (st, Returned 2540001);
     Vo.set_member_data_symlink := fun _ uid => unless_broken uid IOError tt |}.

Definition a_vo (id : string) : Vo.VscVo :=
  {| Vo.vo_id := id;
     Vo.storage := Some {| Vo.data_name := Some "data"; Vo.scratch_name := Some "scratch" |} |}.

Definition a_user (id st : string) : SyncUgent.VscUser :=
  {| SyncUgent.user_id := id; SyncUgent.status := st; SyncUgent.dry_run := false |}.

(** The script environment: the clock reads [now]; the directory returns
    the given users and VOs when it is up and raises otherwise. *)
Definition script_env (now : Z) (ldap_up : bool) (users : list SyncUgent.VscUser)
    (vos : list Vo.VscVo) : @SyncUgent.ScriptEnv platform :=
  {| SyncUgent.report_and_exit := fun st => (st, Raised (SystemExit 0));
     SyncUgent.lock_or_bork := fun st => (st, Returned tt);
     SyncUgent.release_or_bork := fun st => (st, Returned tt);
     SyncUgent.lockfile_release := fun st => (st, Returned tt);
     SyncUgent.LdapQuery_init := fun st => (st, Returned tt);
     SyncUgent.VscUser_lookup := fun _ st =>
       (st, if ldap_up then Returned users else Raised IOError);
     SyncUgent.VscVo_lookup := fun _ st =>
       (st, if ldap_up then Returned vos else Raised IOError);
     SyncUgent.convert_timestamp := fun st => (st, Returned now);
     SyncUgent.write_timestamp_fault := fun _ => None |}.

Definition account_page : @Tier1c.AccountPage platform :=
  {| Tier1c.vscstorage := fun _ _ => None;
     Tier1c.prj_load := fun id =>
       unless_broken id HTTPError
         {| Tier1c.vsc_id := id; Tier1c.vsc_id_number := 2640100;
            Tier1c.moderators := ["vsc40001"] |};
     Tier1c.account_get := fun id =>
       unless_broken id HTTPError
         {| Tier1c.acc_vsc_id := id; Tier1c.acc_vsc_id_number := 2540001 |};
     Tier1c.member_modified := fun _ _ st => (st, Returned []);
     Tier1c.quota_cache := fun _ => None |}.


Definition world0 (st : state) (ts : option Z) : @world platform :=
  @World platform st [] [] [] ts [] None.

Definition site (broken : list string) : state :=
  {| clock := 0; filesets := []; broken := broken |}.

Definition users_only : SyncUgent.options :=
  {| SyncUgent.opt_dry_run := false; SyncUgent.opt_nagios := false;
     SyncUgent.opt_user := true; SyncUgent.opt_vo := false |}.

(** A pass that takes place in 2020 over a timestamp file that holds
    [before]: two users have changed and ["vsc40002"] cannot be
    provisioned. *)
Definition pass_2020 (before : Z) : @world platform * result unit :=
  @SyncUgent.main platform (config 1) user_methods ldap_group
    (script_env 202001010000 true [a_user "vsc40001" "new"; a_user "vsc40002" "new"] [])
    users_only (world0 (site ["vsc40002"]) (Some before)).

(** The backend of a project on the small site. *)
Definition backend (cfg : VscConfig) : Tier1c.VscStorageBackend :=
  {| Tier1c.storage := @Tier1c.Dodrio cfg;
     Tier1c.storage_name := "dodrioscratch";
     Tier1c.templates := fun t =>
       if (t =? Tier1c.PROJ)%string
       then Some (fun pjname => Tier1c.project_path pjname "gent") else None;
     Tier1c.ops := Lustre |}.




Definition test01_path : string := "/dodrio/scratch/gent/projects/proj_test01".


(** The fileset of a project is created on a site that has the filesets
    [existing]. *)
Definition create_test01 (existing : list string) : @world platform * result unit :=
  @Tier1c._create_fileset platform (backend (config 1)) test01_path "proj_test01" 504
    (world0 {| clock := 0; filesets := existing; broken := [] |} None).

(** Users are processed by [process_users] while ["vsc40002"] cannot be
    provisioned. *)
Definition three_users
    : @world platform * result (list SyncUgent.VscUser * list SyncUgent.VscUser) :=
  @SyncUgent.process_users platform user_methods false
    [a_user "vsc40001" "new"; a_user "vsc40002" "new"; a_user "vsc40003" "active"]
    (world0 (site ["vsc40002"]) None).

(** VOs are processed by [process_vos] while ["gvo00020"] cannot be loaded. *)
Definition two_vos : @world platform * result (MonoidDict * MonoidDict) :=
  @SyncUgent.process_vos platform (config 1) ldap_group [a_vo "gvo00020"; a_vo "gvo00021"]
    (world0 (site ["gvo00020"]) None).


(** The command line of the nagios check. *)
Definition nagios_only : SyncUgent.options :=
  {| SyncUgent.opt_dry_run := false; SyncUgent.opt_nagios := true;
     SyncUgent.opt_user := false; SyncUgent.opt_vo := false |}.

(** A directory whose attributes can always be read. *)
Definition steady_ldap_group : @Vo.VscLdapGroup platform :=
  {| Vo.status := fun _ st => (st, Returned "active");
     Vo.memberUid := fun _ st => (st, Returned ["vsc40001"; "vsc40002"]);
     Vo.gidNumber := fun _ st => (st, Returned 2640012);
     Vo.dataQuota := fun _ st => (st, Returned 10);
     Vo.scratchQuota := fun _ st => (st, Returned 10);
     Vo.uidNumber := fun _ st => (st, Returned 2540001);
     Vo.set_member_data_symlink := fun _ _ st => (st, Returned tt) |}.

(** A VO on a storage that has no data filesystem. *)
Definition scratch_only_vo (id : string) : Vo.VscVo :=
  {| Vo.vo_id := id;
     Vo.storage := Some {| Vo.data_name := None; Vo.scratch_name := Some "scratch" |} |}.

Definition central_storage : Vo.CentralStorage :=
  {| Vo.data_name := Some "data"; Vo.scratch_name := Some "scratch" |}.



Definition sync_env_with (cfg : VscConfig) (ap : @Tier1c.AccountPage platform)
    : @Sync.SyncEnv platform cfg ap :=
  {| Sync.create_home_dir := fun _ st => (st, Returned tt);
     Sync.populate_home_dir := fun _ st => (st, Returned tt);
     Sync.update_user_status := fun _ st => (st, Returned tt);
     Sync.members := fun _ st => (st, Returned ["vsc40001"; "vsc40002"]);
     Sync.get_accounts := fun _ st => (st, Returned []);
     Sync.get_user_storage_quota := fun _ st => (st, Returned []);
     Sync.get_groups := fun _ st =>
       (st, Returned [ {| Sync.group_vsc_id := "proj_test01" |};
                       {| Sync.group_vsc_id := "gvo00020" |};
                       {| Sync.group_vsc_id := "proj_a" |} ]);
     Sync.get_vo_storage_quota := fun _ st =>
       (st, Returned [ {| Sync.quota_fileset := "proj_test01";
                          Sync.virtual_organisation := "proj_test01" |};
                       {| Sync.quota_fileset := "gvo00020";
                          Sync.virtual_organisation := "gvo00020" |} ]);
     Sync.start_timestamp := 202101010000 |}.

(** The project ["proj_test01"] as [VscTier1cProject] builds it. *)
Definition test01 (cfg : VscConfig) : Tier1c.VscTier1cProject :=
  {| Tier1c.pjid := "proj_test01";
     Tier1c.prj_storage_name := "dodrioscratch";
     Tier1c.backend := backend cfg |}.

End Demo.

(** ** Frames: the parts of the world that a piece of code leaves alone *)

Section Frames.
Context `{Platform}.

(** [m] leaves the component [proj] of the world as it found it. *)
Definition preserves {X A} (proj : world -> X) (m : M A) : Prop :=
  forall w, proj (m w).1 = proj w.

(** [proj] does not look at the external state / at the log / at the
    calls / at the status values written to the directory. *)
Definition ext_blind {X} (proj : world -> X) : Prop :=
  forall e w, proj (set_ext e w) = proj w.
Definition log_blind {X} (proj : world -> X) : Prop :=
  forall r w, proj (add_log r w) = proj w.
Definition call_blind {X} (proj : world -> X) : Prop :=
  forall c w, proj (add_call c w) = proj w.
Definition push_blind {X} (proj : world -> X) : Prop :=
  forall s w, proj (add_status_push s w) = proj w.

End Frames.

(** ** The vocabulary of the properties *)

Section Vocabulary.
Import SyncUgent Tier1c Sync.
Context `{Platform} `{!VscConfig} `{!VscUserMethods} `{!Vo.VscLdapGroup} `{!ScriptEnv}
        `{!AccountPage} `{!SyncEnv} `{!ProjectEntryPoints}.

(** The accumulators of a loop over users only grow at their ends. *)
Definition extend_users (acc r : list VscUser * list VscUser) : list VscUser * list VscUser :=
  (acc.1 ++ r.1, acc.2 ++ r.2).

Definition map_result {A B} (f : A -> B) (r : world * result A) : world * result B :=
  match r with
  | (w, Returned a) => (w, Returned (f a))
  | (w, Raised e) => (w, Raised e)
  end.

(** The timestamp file of [w'] is the one of [w], or holds what the clock
    has read. *)
Definition kept_or_fresh (w w' : world) : Prop :=
  timestamp_file w' = timestamp_file w
  \/ exists e e' t, convert_timestamp e = (e', Returned t) /\ timestamp_file w' = Some t.

(** The run of [main] up to the point where the new timestamp is taken:
    the start and the synchronisation have returned and [users_ok] is
    bound. *)
Inductive reaches_commit (opts : options) (w : world) : world -> main_locals -> Prop :=
| ReachesCommit w0 w1 l ok :
    main_start opts w = (w0, Returned tt) ->
    main_sync opts w0 = (w1, Returned l) ->
    users_ok l = Some ok ->
    reaches_commit opts w w1 l.

(** The operations of the backend never raise. *)
Definition fsops_reliable : Prop :=
  forall k c e, (fsops_exec k c e).2 = None.

(** The calls that create a fileset: none when it exists already. *)
Definition creation_calls (exists_already : bool) (path name : string) : list fs_call :=
  if exists_already then [] else [MakeDir (dirname path); MakeFileset path name].

(** The messages of [VscStorageBackend.__init__] and of [create_fileset]. *)
Definition no_backend_message : string :=
  "Can not find storage backend without storage or storage_name/institute defined".





(** The value of a key of a [MonoidDict], empty when the key is missing. *)
Definition entries (d : MonoidDict) (k : string) : list string := default [] (d !! k).

(** The keys of a dictionary are among [ids], and no key holds an empty
    list. *)
Definition member_lists (ids : list string) (d : MonoidDict) : Prop :=
  forall k l, d !! k = Some l -> k ∈ ids /\ l <> [].

(** The reports that [main] hands to the nagios reporter. *)
Definition critical_report : nagios_report :=
  NagiosReport NAGIOS_EXIT_CRITICAL "Script failed, check log file ({logfile})" [].

Definition ok_report (metrics : list (string * nat)) : nagios_report :=
  NagiosReport NAGIOS_EXIT_OK "UGent users synchronised" metrics.

Definition warning_report (metrics : list (string * nat)) : nagios_report :=
  NagiosReport NAGIOS_EXIT_WARNING "UGent users synchronised, filestamp not written" metrics.

(** A path component: not empty, without a slash. *)
Definition component (s : string) : Prop :=
  s <> "" /\ "/"%char ∉ list_ascii_of_string s.

(** A directory path that [os.path.join] extends with a slash: not empty
    and without a slash at its end. *)
Definition open_dir (s : string) : Prop :=
  s <> "" /\ ends_with_slash s = false.

(** More messages of tier1c.py and sync.py. *)
Definition unsupported_backend_message : string := "FS backend not yet supported".
Definition no_quota_message : string := "No %s quota information available for %s".

(** The path of a project on a backend whose project template is [f]. *)
Definition templated_path (b : Tier1c.VscStorageBackend) (f : string -> string)
    (pjname : string) : string :=
  path_join (Tier1c.mount_point (Tier1c.storage b)) (f pjname).

(** The ids that [do] hands to [process_projects]: the changed groups that
    are projects and the VOs of the changed quota whose fileset is the one
    of a project, without duplicates, in ascending order. *)
Definition selected_projects (changed_groups : list Sync.Group) (quota : list Sync.VoQuota)
    : list string :=
  let changed_prjs :=
    filter (fun g => String.prefix "proj_" (Sync.group_vsc_id g) = true) changed_groups in
  let changed_prj_quota :=
    filter (fun q => String.prefix "proj_" (Sync.quota_fileset q) = true) quota in
  sorted (remove_dups (map Sync.group_vsc_id changed_prjs
                       ++ map Sync.virtual_organisation changed_prj_quota)).

(** The end of [do] after a project pass that returned [r]. *)
Definition project_pass_result (r : MonoidDict * MonoidDict) (w : world)
    : world * result (option (list Sync.failed)) :=
  (set_thresholds (Sync.prj_stats Sync.VSC_TIER1C_SCRATCH (md_len r.1) (md_len r.2) ∅) w,
   if dict_truthy r.2 then Raised TypeError else Returned None).

End Vocabulary.

(** * Properties *)

Section MonadLemmas.
Context `{Platform}.

Lemma bind_returned {A B} (m : M A) (k : A -> M B) w w' a :
  m w = (w', Returned a) -> bind m k w = k a w'.
Proof. unfold bind. intros ->. reflexivity. Qed.

Lemma bind_raised {A B} (m : M A) (k : A -> M B) w w' e :
  m w = (w', Raised e) -> bind m k w = (w', Raised e).
Proof. unfold bind. intros ->. reflexivity. Qed.

Lemma try_except_returned {A} (body : M A) c h w w' a :
  body w = (w', Returned a) -> try_except body c h w = (w', Returned a).
Proof. unfold try_except. intros ->. reflexivity. Qed.

Lemma try_except_caught {A} (body : M A) c h w w' e :
  body w = (w', Raised e) -> c e = true -> try_except body c h w = h e w'.
Proof. unfold try_except. intros -> ->. reflexivity. Qed.

Lemma try_except_escapes {A} (body : M A) c h w w' e :
  body w = (w', Raised e) -> c e = false -> try_except body c h w = (w', Raised e).
Proof. unfold try_except. intros -> ->. reflexivity. Qed.

Lemma preserves_ret {X A} (p : world -> X) (a : A) : preserves p (ret a).
Proof. intros w. reflexivity. Qed.

Lemma preserves_raise {X A} (p : world -> X) e : preserves p (@raise _ A e).
Proof. intros w. reflexivity. Qed.

Lemma preserves_bind {X A B} (p : world -> X) (m : M A) (k : A -> M B) :
  preserves p m -> (forall a, preserves p (k a)) -> preserves p (bind m k).
Proof.
  intros Hm Hk w. unfold bind. specialize (Hm w).
  destruct (m w) as [w1 [a|e]]; simpl in *.
  - rewrite Hk. exact Hm.
  - exact Hm.
Qed.

Lemma preserves_try_except {X A} (p : world -> X) (body : M A) c h :
  preserves p body -> (forall e, preserves p (h e)) -> preserves p (try_except body c h).
Proof.
  intros Hb Hh w. unfold try_except. specialize (Hb w).
  destruct (body w) as [w1 [a|e]]; simpl in *; [exact Hb|].
  destruct (c e); simpl; [rewrite Hh|]; exact Hb.
Qed.

Lemma preserves_try_finally {X A} (p : world -> X) (body : M A) final :
  preserves p body -> preserves p final -> preserves p (try_finally body final).
Proof.
  intros Hb Hf w. unfold try_finally. specialize (Hb w).
  destruct (body w) as [w1 r]; simpl in *. specialize (Hf w1).
  destruct (final w1) as [w2 [u|e]]; simpl in *; congruence.
Qed.

Lemma preserves_for_each {X A S} (p : world -> X) (xs : list A) (body : A -> S -> M S) :
  (forall x s, preserves p (body x s)) -> forall s, preserves p (for_each xs body s).
Proof.
  intros Hb. induction xs as [|x xs IH]; intros s; simpl.
  - apply preserves_ret.
  - apply preserves_bind; [apply Hb | exact IH].
Qed.

Lemma preserves_call {X A} (p : world -> X) (f : Ext A) :
  ext_blind p -> preserves p (call f).
Proof.
  intros Hp w. unfold call. destruct (f (ext w)) as [e r]. simpl. apply Hp.
Qed.

Lemma preserves_log_msg {X} (p : world -> X) lvl fmt args :
  log_blind p -> preserves p (log_msg lvl fmt args).
Proof. intros Hp w. apply Hp. Qed.

Lemma preserves_log_raiseException {X A} (p : world -> X) msg args :
  log_blind p -> preserves p (@log_raiseException _ A msg args).
Proof.
  intros Hp. apply preserves_bind; [by apply preserves_log_msg|].
  intros _. apply preserves_raise.
Qed.

Lemma preserves_fsops {X} (p : world -> X) k c :
  ext_blind p -> call_blind p -> preserves p (fsops k c).
Proof.
  intros He Hc w. unfold fsops. destruct (fsops_exec k c (ext w)) as [e r]. simpl.
  rewrite Hc. apply He.
Qed.

Lemma preserves_get_fileset_info {X} (p : world -> X) k fs name :
  preserves p (get_fileset_info k fs name).
Proof. intros w. reflexivity. Qed.

Lemma preserves_get_mount_point {X} (p : world -> X) fs :
  preserves p (get_mount_point fs).
Proof. intros w. reflexivity. Qed.

Lemma preserves_getattr {X A} (p : world -> X) (o : option A) : preserves p (getattr o).
Proof. destruct o; [apply preserves_ret | apply preserves_raise]. Qed.

Lemma timestamp_ext_blind : ext_blind timestamp_file.
Proof. intros e w. reflexivity. Qed.
Lemma timestamp_log_blind : log_blind timestamp_file.
Proof. intros r w. reflexivity. Qed.
Lemma timestamp_call_blind : call_blind timestamp_file.
Proof. intros c w. reflexivity. Qed.
Lemma calls_ext_blind : ext_blind calls.
Proof. intros e w. reflexivity. Qed.
Lemma calls_log_blind : log_blind calls.
Proof. intros r w. reflexivity. Qed.
Lemma pushes_ext_blind : ext_blind status_pushes.
Proof. intros e w. reflexivity. Qed.
Lemma pushes_log_blind : log_blind status_pushes.
Proof. intros r w. reflexivity. Qed.
Lemma pushes_call_blind : call_blind status_pushes.
Proof. intros c w. reflexivity. Qed.

End MonadLemmas.

Create HintDb frame.
#[export] Hint Resolve preserves_ret preserves_raise preserves_call preserves_log_msg
  preserves_log_raiseException preserves_fsops preserves_get_fileset_info
  preserves_get_mount_point preserves_getattr
  timestamp_ext_blind timestamp_log_blind timestamp_call_blind
  calls_ext_blind calls_log_blind pushes_ext_blind pushes_log_blind pushes_call_blind : frame.

(** Walks through the structure of a program to show that it preserves a
    component of the world. *)
Ltac frame_step :=
  first
    [ solve [eauto with frame]
    | solve [intros ?; reflexivity]
    | apply preserves_bind
    | apply preserves_try_except
    | apply preserves_try_finally
    | apply preserves_for_each
    | match goal with
      | |- preserves _ (if ?b then _ else _) => destruct b
      | |- preserves _ (match ?x with _ => _ end) => destruct x
      | |- preserves _ (let '(_, _) := ?x in _) => destruct x
      end
    | progress intros ].

Ltac frame := repeat frame_step.

(** ** bin/sync_ugent_vsc_users.py: users *)

Section SyncUgentUsers.
Import SyncUgent.
Context `{Platform} `{!VscConfig} `{!VscUserMethods} `{!Vo.VscLdapGroup} `{!ScriptEnv}.

(** C9.  The status transition after provisioning is the one-way edge from
    [new] to [notify]: the call always returns; in dry-run mode the user
    and the directory are left as they are; otherwise a user in status
    [new] ends in status [notify], which is written to the directory once,
    and a user in any other status is left untouched and nothing is
    written.  A user that has been moved is not moved again. *)
Theorem notify_new_to_notify_only (user : VscUser) (dry : bool) (w : world) :
  exists user' w',
    notify_user_directory_created user dry w = (w', Returned user')
    /\ user_id user' = user_id user
    /\ (dry = true -> user' = user /\ status_pushes w' = status_pushes w)
    /\ (dry = false -> status user = "new" ->
        status user' = "notify"
        /\ status_pushes w' = status_pushes w ++ [(user_id user, "notify")])
    /\ (dry = false -> status user <> "new" ->
        user' = user /\ status_pushes w' = status_pushes w)
    /\ (dry = false -> forall d w2,
        (notify_user_directory_created user' d w2).2 = Returned user').
Proof.
  unfold notify_user_directory_created.
  destruct dry.
  - exists user. eexists. split; [reflexivity|].
    repeat split; try discriminate; auto.
  - destruct (String.eqb_spec (status user) "new") as [Hnew | Hnew].
    + exists (set_status user "notify"). eexists. split; [reflexivity|].
      repeat split; try discriminate; try contradiction; auto.
      intros _ [] w2; reflexivity.
    + exists user. eexists. split; [reflexivity|].
      repeat split; try discriminate; try contradiction; auto.
      intros _ [] w2; [reflexivity|].
      destruct (String.eqb_spec (status user) "new"); [contradiction | reflexivity].
Qed.

(** The provisioning steps of a user never write a status in dry-run mode. *)
Lemma provision_user_dry_run_no_push (user : VscUser) :
  preserves status_pushes (provision_user true user).
Proof. unfold provision_user, notify_user_directory_created. frame. Qed.

Lemma process_users_dry_run_no_push (users : list VscUser) :
  preserves status_pushes (process_users true users).
Proof.
  unfold process_users. apply preserves_for_each. intros u [ok err].
  unfold process_users_body. apply preserves_try_except.
  - apply preserves_bind; [apply provision_user_dry_run_no_push | frame].
  - frame.
Qed.

Lemma process_users_body_acc dry u acc w :
  process_users_body dry u acc w
  = map_result (extend_users acc) (process_users_body dry u ([], []) w).
Proof.
  destruct acc as [ok err]. unfold process_users_body, try_except, bind, ret.
  destruct (provision_user dry _ w) as [w1 [u'|e]];
    unfold extend_users; simpl; rewrite ?app_nil_r; reflexivity.
Qed.

Lemma process_users_body_returns dry u acc w :
  exists w' r, process_users_body dry u acc w = (w', Returned r).
Proof.
  destruct acc as [ok err]. unfold process_users_body, try_except, bind, ret.
  destruct (provision_user dry _ w) as [w1 [u'|e]]; simpl; eauto.
Qed.

Lemma process_users_loop_acc dry users acc w :
  for_each users (process_users_body dry) acc w
  = map_result (extend_users acc) (for_each users (process_users_body dry) ([], []) w).
Proof.
  revert acc w. induction users as [|u users IH]; intros acc w; cbn [for_each].
  - unfold ret, extend_users. simpl. rewrite !app_nil_r. by destruct acc.
  - unfold bind.
    rewrite (process_users_body_acc dry u acc w).
    destruct (process_users_body dry u ([], []) w) as [w1 [r1|e]]; cbn [map_result];
      [|reflexivity].
    rewrite (IH (extend_users acc r1)), (IH r1).
    destruct (for_each users (process_users_body dry) ([], []) w1) as [w2 [r2|e]];
      cbn [map_result]; [|reflexivity].
    unfold extend_users. simpl. by rewrite !app_assoc.
Qed.

(** What the loop does with its first user: a user whose provisioning
    returns heads the success list, a user whose provisioning raises heads
    the failure list, and in both cases the rest of the users are
    processed. *)
Lemma process_users_cons (dry : bool) (u : VscUser) (users : list VscUser) (w : world) :
  let u0 := if dry then set_dry_run u true else u in
  process_users dry (u :: users) w
  = match provision_user dry u0 w with
    | (w1, Returned u') =>
        map_result (fun r : list VscUser * list VscUser => (u' :: r.1, r.2))
          (process_users dry users w1)
    | (w1, Raised _) =>
        map_result (fun r : list VscUser * list VscUser => (r.1, u0 :: r.2))
          (process_users dry users
             (add_log (LogRecord LException "Cannot process user %s" [user_id u0]) w1))
    end.
Proof.
  unfold process_users. cbn [for_each]. unfold bind at 1.
  unfold process_users_body at 1, try_except, bind, ret, log_msg.
  destruct (provision_user dry _ w) as [w1 [u'|e]]; cbn [any_exn];
    rewrite process_users_loop_acc; reflexivity.
Qed.

(** Failure isolation in [process_users]: the loop returns for every list
    of users, whatever their provisioning does, and every user ends in
    exactly one of the two lists. *)
Lemma process_users_isolation dry users w :
  exists w' ok err,
    process_users dry users w = (w', Returned (ok, err))
    /\ map user_id (ok ++ err) ≡ₚ map user_id users.
Proof.
  revert w. induction users as [|u users IH]; intros w.
  - exists w, [], []. split; reflexivity.
  - rewrite process_users_cons. cbv zeta.
    destruct (provision_user dry _ w) as [w1 [u'|e]] eqn:Hp.
    + destruct (IH w1) as (w' & ok & err & -> & Hperm).
      exists w', (u' :: ok), err. split; [reflexivity|].
      simpl. rewrite Hperm. f_equiv.
      unfold provision_user, notify_user_directory_created in Hp.
      unfold bind, call, ret, log_msg, push_status in Hp.
      repeat match type of Hp with
             | context [let '(_, _) := ?x in _] => destruct x as [? [[]|?]]; simpl in Hp
             end; try discriminate.
      destruct dry; simpl in Hp.
      * injection Hp as _ <-. reflexivity.
      * destruct (String.eqb _ "new"); injection Hp as _ <-; reflexivity.
    + destruct (IH (add_log (LogRecord LException "Cannot process user %s"
                               [user_id (if dry then set_dry_run u true else u)]) w1))
        as (w' & ok & err & -> & Hperm).
      exists w', ok, ((if dry then set_dry_run u true else u) :: err).
      split; [reflexivity|].
      rewrite map_app. simpl. rewrite <- Permutation_middle. rewrite <- map_app, Hperm.
      by destruct dry.
Qed.

End SyncUgentUsers.

(** ** bin/sync_ugent_vsc_users.py: the timestamp *)

Section SyncUgentMain.
Import SyncUgent.
Context `{Platform} `{!VscConfig} `{!VscUserMethods} `{!Vo.VscLdapGroup} `{!ScriptEnv}.

Lemma for_each_returns {A S} (body : A -> S -> M S) :
  (forall x s w, exists w' s', body x s w = (w', Returned s')) ->
  forall xs s w, exists w' s', for_each xs body s w = (w', Returned s').
Proof.
  intros Hb. induction xs as [|x xs IH]; intros s w; cbn [for_each].
  - exists w, s. reflexivity.
  - destruct (Hb x s w) as (w1 & s1 & Hx). unfold bind. rewrite Hx. apply IH.
Qed.

Lemma process_users_keeps_timestamp dry users :
  preserves timestamp_file (process_users dry users).
Proof.
  unfold process_users, process_users_body, provision_user, notify_user_directory_created.
  frame.
Qed.

Lemma vo_create_data_fileset_keeps_timestamp vo :
  preserves timestamp_file (Vo.create_data_fileset vo).
Proof.
  unfold Vo.create_data_fileset, Vo._create_fileset, Vo._data_path. frame.
Qed.

Lemma vo_set_quota_keeps_timestamp vo path_function q :
  preserves timestamp_file path_function ->
  preserves timestamp_file (Vo._set_quota vo path_function q).
Proof. intros Hp. unfold Vo._set_quota. frame. Qed.

Lemma vo_data_path_keeps_timestamp vo : preserves timestamp_file (Vo._data_path vo).
Proof. unfold Vo._data_path. frame. Qed.

Lemma process_vos_keeps_timestamp vos : preserves timestamp_file (process_vos vos).
Proof.
  unfold process_vos, process_vos_body, process_vos_member, provision_vo_member.
  apply preserves_for_each. intros vo acc.
  apply preserves_try_except; [|frame].
  apply preserves_bind; [frame|]. intros _.
  apply preserves_bind; [apply vo_create_data_fileset_keeps_timestamp|]. intros _.
  apply preserves_bind.
  { unfold Vo.set_data_quota. apply preserves_bind; [frame|]. intros q.
    apply vo_set_quota_keeps_timestamp, vo_data_path_keeps_timestamp. }
  intros _. apply preserves_bind; [frame|]. intros members.
  apply preserves_for_each. intros user [ok err].
  apply preserves_try_except; [|frame].
  apply preserves_bind; [|frame].
  apply preserves_bind; [|frame].
  unfold Vo.set_member_data_quota, Vo._set_member_quota.
  pose proof (vo_data_path_keeps_timestamp vo). frame.
Qed.

Lemma main_sync_keeps_timestamp opts : preserves timestamp_file (main_sync opts).
Proof.
  pose proof process_users_keeps_timestamp. pose proof process_vos_keeps_timestamp.
  unfold main_sync, read_timestamp. frame.
Qed.

Lemma main_start_keeps_timestamp opts : preserves timestamp_file (main_start opts).
Proof. unfold main_start, sys_exit. frame. Qed.

Lemma main_failed_keeps_timestamp {A} : preserves timestamp_file (@main_failed _ _ A).
Proof. unfold main_failed, sys_exit, nagios_reporter_cache. frame. Qed.

Lemma main_failed_raises {A} w : raised (@main_failed _ _ A w).2 = true.
Proof.
  unfold main_failed, sys_exit, nagios_reporter_cache, log_msg, bind, call, raise. simpl.
  destruct (lockfile_release _) as [e [[]|x]]; reflexivity.
Qed.

Lemma main_commit_kept_or_fresh metrics w : kept_or_fresh w (main_commit metrics w).1.
Proof.
  unfold kept_or_fresh, main_commit, try_finally, try_except, bind, call, write_timestamp,
    nagios_reporter_cache, log_msg, ret.
  destruct (convert_timestamp (ext w)) as [e1 [t|x]] eqn:Hc; simpl.
  - destruct (write_timestamp_fault e1) eqn:Hw; simpl.
    + destruct (release_or_bork _) as [e2 [[]|x]]; simpl; left; reflexivity.
    + destruct (release_or_bork _) as [e2 [[]|x]]; simpl; right; eauto.
  - destruct (release_or_bork _) as [e2 [[]|x']]; simpl; left; reflexivity.
Qed.

Lemma main_commit_writes metrics w :
  (forall e, raised (convert_timestamp e).2 = false) ->
  (forall e, write_timestamp_fault e = None) ->
  exists e e' t, convert_timestamp e = (e', Returned t)
                 /\ timestamp_file (main_commit metrics w).1 = Some t.
Proof.
  intros Hclock Hwrite.
  unfold main_commit, try_finally, try_except, bind, call, write_timestamp,
    nagios_reporter_cache, log_msg, ret.
  specialize (Hclock (ext w)).
  destruct (convert_timestamp (ext w)) as [e1 [t|x]] eqn:Hc; simpl in *; [|discriminate].
  rewrite Hwrite. simpl.
  exists (ext w), e1, t. split; [exact Hc|].
  destruct (release_or_bork _) as [e2 [[]|x]]; reflexivity.
Qed.

Lemma main_cases opts w :
  (timestamp_file (main opts w).1 = timestamp_file w
   /\ forall w1 l, ~ reaches_commit opts w w1 l)
  \/ exists w1 l ok,
       reaches_commit opts w w1 l
       /\ users_ok l = Some ok
       /\ timestamp_file w1 = timestamp_file w
       /\ timestamp_file (main opts w).1
          = timestamp_file (main_commit (result_metrics (List.length ok) l) w1).1.
Proof.
  unfold main, bind.
  pose proof (main_start_keeps_timestamp opts w) as K0.
  destruct (main_start opts w) as [w0 [[]|e]] eqn:Hstart; simpl in K0.
  2:{ left. split; [exact K0|]. intros w1 l R. inversion R; congruence. }
  pose proof (main_sync_keeps_timestamp opts w0) as K1.
  unfold try_except.
  destruct (main_sync opts w0) as [w1 [l|e]] eqn:Hsync; simpl in K1.
  - destruct (users_ok l) as [ok|] eqn:Hok.
    + right. exists w1, l, ok.
      split; [econstructor; eauto|]. split; [exact Hok|]. split; [congruence|].
      unfold ret. simpl.
      destruct (main_commit (result_metrics (List.length ok) l) w1) as [w2 [[]|e]];
        reflexivity.
    + left. split; [simpl; congruence|].
      intros w1' l' R. inversion R. congruence.
  - left. split.
    + destruct (is_Exception e); simpl; [|congruence].
      pose proof (@main_failed_keeps_timestamp main_locals w1) as K2.
      pose proof (@main_failed_raises main_locals w1) as R2.
      destruct main_failed as [w2 [l|e2]]; simpl in *; [discriminate | congruence].
    + intros w1' l' R. inversion R. congruence.
Qed.

Lemma process_users_returns dry users w :
  exists w' r, process_users dry users w = (w', Returned r).
Proof.
  destruct (process_users_isolation dry users w) as (w' & ok & err & E & _). eauto.
Qed.

Lemma process_vos_returns vos w :
  exists w' r, process_vos vos w = (w', Returned r).
Proof.
  unfold process_vos. apply for_each_returns. clear. intros vo acc w.
  unfold process_vos_body, try_except.
  match goal with |- context [match ?b w with _ => _ end] => destruct (b w) as [w1 [r|e]] end.
  - eauto.
  - cbn [any_exn]. unfold bind, log_msg, ret. simpl. eauto.
Qed.

Lemma call_returns {A} (f : Ext A) w :
  raised (f (ext w)).2 = false -> exists e a, call f w = (set_ext e w, Returned a).
Proof.
  unfold call. destruct (f (ext w)) as [e [a|x]]; simpl; [eauto | discriminate].
Qed.

Lemma call_raises {A} (f : Ext A) w :
  raised (f (ext w)).2 = true -> exists e x, call f w = (set_ext e w, Raised x).
Proof.
  unfold call. destruct (f (ext w)) as [e [a|x]]; simpl; [discriminate | eauto].
Qed.

Lemma read_timestamp_or_default_returns w :
  exists w' t,
    try_except read_timestamp any_exn
      (fun _ => log_msg LException "Something broke reading the timestamp from %s" [] ;;
                ret default_timestamp) w = (w', Returned t).
Proof.
  unfold try_except, read_timestamp. destruct (timestamp_file w); simpl; eauto.
Qed.

(** Failures of single users or VOs do not make the synchronisation raise:
    it returns whenever the directory can be queried. *)
Lemma main_sync_returns opts w :
  opt_user opts = true ->
  (forall e, raised (LdapQuery_init e).2 = false) ->
  (forall t e, raised (VscUser_lookup t e).2 = false) ->
  (forall t e, raised (VscVo_lookup t e).2 = false) ->
  exists w1 l ok, main_sync opts w = (w1, Returned l) /\ users_ok l = Some ok.
Proof.
  intros Hu Hldap Huser Hvo. unfold main_sync. rewrite Hu.
  destruct (call_returns LdapQuery_init w (Hldap _)) as (e0 & [] & E0).
  erewrite bind_returned by exact E0.
  destruct (read_timestamp_or_default_returns (set_ext e0 w)) as (w2 & t & E2).
  erewrite bind_returned by exact E2.
  do 2 erewrite bind_returned by reflexivity.
  match goal with |- context [bind _ _ ?v] => set (w3 := v) end.
  set (w3' := add_log (LogRecord LDebug "Filter for looking up changed UGent users %s" []) w3).
  destruct (call_returns (VscUser_lookup t) w3' (Huser _ _)) as (e3 & us & E3).
  destruct (process_users_returns (opt_dry_run opts) us
              (add_log (LogRecord LDebug "Found the following UGent users: {users}"
                          (map user_id us))
                 (add_log (LogRecord LInfo
                             "Found %d UGent users that have changed in the LDAP since %s" [])
                    (set_ext e3 w3')))) as (w4 & [ok err] & E4).
  erewrite bind_returned; cycle 1.
  { erewrite bind_returned by reflexivity.
    erewrite bind_returned by exact E3.
    do 2 erewrite bind_returned by reflexivity.
    erewrite bind_returned by exact E4. reflexivity. }
  destruct (opt_vo opts).
  - set (w4' := add_log (LogRecord LInfo "Filter for looking up changed UGent VOs = %s" []) w4).
    destruct (call_returns (VscVo_lookup t) w4' (Hvo _ _)) as (e5 & vs & E5).
    destruct (process_vos_returns
                (filter (fun vo : Vo.VscVo => Vo.vo_id vo ∉ institute_vos) vs)
                (add_log (LogRecord LDebug "Found the following UGent VOs: {vos}"
                            (map Vo.vo_id
                               (filter (fun vo : Vo.VscVo => Vo.vo_id vo ∉ institute_vos) vs)))
                   (add_log (LogRecord LInfo
                               "Found %d UGent VOs that have changed in the LDAP since %s" [])
                      (set_ext e5 w4')))) as (w6 & r6 & E6).
    erewrite bind_returned; cycle 1.
    { erewrite bind_returned by reflexivity.
      erewrite bind_returned by exact E5.
      do 2 erewrite bind_returned by reflexivity. exact E6. }
    eexists _, _, ok. split; reflexivity.
  - erewrite bind_returned by reflexivity.
    eexists _, _, ok. split; reflexivity.
Qed.

Lemma main_start_returns opts w :
  opt_nagios opts = false ->
  (forall e, raised (lock_or_bork e).2 = false) ->
  exists w0, main_start opts w = (w0, Returned tt).
Proof.
  intros Hn Hl. unfold main_start, bind, call, log_msg, ret. rewrite Hn. simpl.
  match goal with |- context [lock_or_bork ?e] =>
    specialize (Hl e); destruct (lock_or_bork e) as [e1 [[]|x]] end;
    simpl in Hl; [eauto | discriminate].
Qed.

(** When the change set cannot be fetched the synchronisation raises. *)
Lemma main_sync_fetch_fails opts w :
  opt_user opts = true ->
  (forall t e, raised (VscUser_lookup t e).2 = true) ->
  raised (main_sync opts w).2 = true.
Proof.
  intros Hu Hf. unfold main_sync. rewrite Hu.
  unfold bind at 1. destruct (call LdapQuery_init w) as [w0 [[]|x]]; [|reflexivity].
  destruct (read_timestamp_or_default_returns w0) as (w2 & t & E2).
  erewrite bind_returned by exact E2.
  do 2 erewrite bind_returned by reflexivity.
  match goal with |- context [bind _ _ ?v] => set (w3 := v) end.
  set (w3' := add_log (LogRecord LDebug "Filter for looking up changed UGent users %s" []) w3).
  destruct (call_raises (VscUser_lookup t) w3' (Hf _ _)) as (e3 & x & E3).
  erewrite bind_raised; [reflexivity|].
  erewrite bind_returned by reflexivity.
  erewrite bind_raised; [reflexivity | exact E3].
Qed.

(** C2, amended.  The timestamp file is written only by a pass that had no
    fatal error: the start of [main] and the synchronisation returned and
    [users_ok] is bound.  What is written is the time that the clock has
    just read.  Failures of single users or VOs do not prevent the write
    when users are processed: the file then holds the clock reading
    whatever the provisioning of the entities does.  When the users cannot
    be fetched the file is left as it was.  The timestamp after the pass
    is greater than or equal to the one before it whenever the clock does
    not read a time before the stored timestamp. *)
Theorem watermark_commit (opts : options) (w : world) :
  let w' := (main opts w).1 in
  (timestamp_file w' <> timestamp_file w -> exists w1 l, reaches_commit opts w w1 l)
  /\ kept_or_fresh w w'
  /\ (opt_nagios opts = false -> opt_user opts = true ->
      (forall e, raised (lock_or_bork e).2 = false) ->
      (forall e, raised (LdapQuery_init e).2 = false) ->
      (forall t e, raised (VscUser_lookup t e).2 = false) ->
      (forall t e, raised (VscVo_lookup t e).2 = false) ->
      (forall e, raised (convert_timestamp e).2 = false) ->
      (forall e, write_timestamp_fault e = None) ->
      exists e e' t, convert_timestamp e = (e', Returned t) /\ timestamp_file w' = Some t)
  /\ (opt_user opts = true ->
      (forall t e, raised (VscUser_lookup t e).2 = true) ->
      timestamp_file w' = timestamp_file w)
  /\ (forall t0, timestamp_file w = Some t0 ->
      (forall e e' t, convert_timestamp e = (e', Returned t) -> (t0 <= t)%Z) ->
      exists t1, timestamp_file w' = Some t1 /\ (t0 <= t1)%Z).
Proof.
  cbv zeta.
  assert (kept_or_fresh w (main opts w).1) as Hkf.
  { destruct (main_cases opts w) as [[E _] | (w1 & l & ok & _ & _ & E1 & E)].
    - left. exact E.
    - destruct (main_commit_kept_or_fresh (result_metrics (List.length ok) l) w1)
        as [K | (e & e' & t & Hc & K)].
      + left. congruence.
      + right. exists e, e', t. split; [exact Hc | congruence]. }
  split; [|split; [exact Hkf|split; [|split]]].
  - intros Hne. destruct (main_cases opts w) as [[E _] | (w1 & l & ok & R & _)].
    + contradiction.
    + eauto.
  - intros Hn Hu Hlock Hldap Huser Hvo Hclock Hwrite.
    destruct (main_start_returns opts w Hn Hlock) as (w0 & E0).
    destruct (main_sync_returns opts w0 Hu Hldap Huser Hvo) as (w1 & l & ok & E1 & Hok).
    destruct (main_cases opts w) as [[_ N] | (w1' & l' & ok' & R & Hok' & _ & E)].
    + exfalso. apply (N w1 l). econstructor; eauto.
    + rewrite E. apply main_commit_writes; assumption.
  - intros Hu Hf.
    destruct (main_cases opts w) as [[E _] | (w1 & l & ok & R & _)]; [exact E|].
    inversion R as [w0 w1' l' ok' E0 E1 Hok]; subst.
    pose proof (main_sync_fetch_fails opts w0 Hu Hf) as Hr.
    rewrite E1 in Hr. discriminate.
  - intros t0 Ht0 Hclock. destruct Hkf as [K | (e & e' & t & Hc & K)].
    + exists t0. split; [congruence | lia].
    + exists t. split; [exact K | eauto].
Qed.

End SyncUgentMain.

(** ** Quota: from KiB to the limits handed to the backend *)

Section Quota.
Context `{Platform} `{!VscConfig} `{!Tier1c.AccountPage} `{!Vo.VscLdapGroup}.









(** The calls of [_set_fileset_quota]: the quota call comes first, with the
    soft limit computed from the hard limit; the grace period follows when
    the quota call did not raise. *)
Lemma set_fileset_quota_calls (b : Tier1c.VscStorageBackend) (path name : string)
    (quota : Z) (w : world) :
  let hard := Tier1c.hard_limit b quota in
  exists rest,
    calls (Tier1c._set_fileset_quota b path name quota w).1
    = calls w ++ SetFilesetQuota (Tier1c.soft_limit hard) path name hard :: rest
    /\ (rest = [] \/ rest = [SetFilesetGrace path vo_storage_grace_time]).
Proof.
  cbv zeta. unfold Tier1c._set_fileset_quota, try_except, bind, fsops, log_raiseException,
    log_msg, raise.
  destruct (fsops_exec _ (SetFilesetQuota _ _ _ _) _) as [e1 [x|]]; simpl.
  - destruct (is_Exception x); simpl; exists []; split; auto.
  - destruct (fsops_exec _ (SetFilesetGrace _ _) _) as [e2 [x|]]; simpl.
    + destruct (is_Exception x); simpl; eexists; (split; [|right; reflexivity]);
        rewrite <- app_assoc; reflexivity.
    + eexists; split; [|right; reflexivity]. rewrite <- app_assoc. reflexivity.
Qed.

Lemma try_except_calls {A} (body : M A) c h w :
  (forall e, preserves calls (h e)) ->
  calls (try_except body c h w).1 = calls (body w).1.
Proof.
  intros Hh. unfold try_except. destruct (body w) as [w1 [a|e]]; [reflexivity|].
  destruct (c e); [apply Hh | reflexivity].
Qed.

Lemma storage_repr_keeps_calls (vo : Vo.VscVo) : preserves calls (Vo.storage_repr vo).
Proof. unfold Vo.storage_repr. frame. Qed.




End Quota.

(** ** Filesets *)

Section Filesets.
Context `{Platform} `{!VscConfig} `{!Tier1c.AccountPage} `{!Vo.VscLdapGroup}.

Lemma fsops_returns k c w :
  fsops_reliable ->
  fsops k c w = (add_call c (set_ext (fsops_exec k c (ext w)).1 w), Returned tt).
Proof.
  intros Hr. unfold fsops. specialize (Hr k c (ext w)).
  destruct (fsops_exec k c (ext w)) as [e r]. simpl in *. subst r. reflexivity.
Qed.

(** The calls of [_create_fileset] of the storage backend. *)
Lemma tier1c_create_fileset_calls (b : Tier1c.VscStorageBackend) (path name : string)
    (mode : Z) (w : world) :
  fsops_reliable ->
  let info := fsops_get_fileset_info (Tier1c.ops b) (Tier1c.storage_name b) name (ext w) in
  (Tier1c._create_fileset b path name mode w).2 = Returned tt
  /\ calls (Tier1c._create_fileset b path name mode w).1
     = calls w ++ creation_calls info path name ++ [Chmod mode path].
Proof.
  intros Hr. cbv zeta. unfold Tier1c._create_fileset, creation_calls.
  erewrite bind_returned by reflexivity.
  destruct (fsops_get_fileset_info _ _ _ _); cbn [negb].
  - erewrite bind_returned by reflexivity.
    rewrite fsops_returns by assumption. split; reflexivity.
  - erewrite bind_returned; cycle 1.
    { erewrite bind_returned by reflexivity.
      erewrite bind_returned by (apply fsops_returns; assumption).
      apply fsops_returns; assumption. }
    rewrite fsops_returns by assumption. simpl.
    split; [reflexivity|]. rewrite <- !app_assoc. reflexivity.
Qed.

(** The end of [VscVo._create_fileset]: the owner is set unless the group
    id cannot be read. *)
Lemma vo_chown_calls (vo : Vo.VscVo) (path : string) (w : world) :
  fsops_reliable ->
  exists rest,
    calls ((gid <~ call (Vo.gidNumber vo) ;;
            gid' <~ call (Vo.gidNumber vo) ;;
            fsops Gpfs (Chown gid gid' path)) w).1 = calls w ++ rest
    /\ (rest = [] \/ exists gid gid', rest = [Chown gid gid' path]).
Proof.
  intros Hr. unfold bind, call.
  destruct (Vo.gidNumber vo (ext w)) as [e1 [g|x]]; cbn [ext set_ext].
  - destruct (Vo.gidNumber vo e1) as [e2 [g'|x]]; cbn [ext set_ext].
    + rewrite fsops_returns by assumption. simpl. eexists. split; [reflexivity|].
      right. eauto.
    + simpl. exists []. split; [by rewrite app_nil_r | auto].
  - simpl. exists []. split; [by rewrite app_nil_r | auto].
Qed.

(** The calls of [VscVo._create_fileset]: the list of filesets is
    refreshed first, and the owner is set at the end unless the group id
    cannot be read. *)
Lemma vo_create_fileset_calls (vo : Vo.VscVo) (filesystem_name path : string) (w : world) :
  fsops_reliable ->
  let listed := (fsops_exec Gpfs ListFilesets (ext w)).1 in
  let info := fsops_get_fileset_info Gpfs filesystem_name (Vo.vo_id vo) listed in
  exists rest,
    calls (Vo._create_fileset vo filesystem_name path w).1
    = calls w ++ ListFilesets :: creation_calls info path (Vo.vo_id vo)
              ++ Chmod 448 path :: rest
    /\ (rest = [] \/ exists gid gid', rest = [Chown gid gid' path]).
Proof.
  intros Hr. cbv zeta. unfold Vo._create_fileset, creation_calls.
  erewrite bind_returned by (apply fsops_returns; assumption).
  erewrite bind_returned by reflexivity.
  cbn [ext set_ext add_call].
  destruct (fsops_get_fileset_info _ _ _ _); cbn [negb].
  - erewrite bind_returned by reflexivity.
    erewrite bind_returned by (apply fsops_returns; assumption).
    match goal with |- context [bind _ _ ?w0] =>
      destruct (vo_chown_calls vo path w0 Hr) as (rest & C & Hrest) end.
    exists rest. split; [|exact Hrest].
    rewrite C. simpl. rewrite <- !app_assoc. reflexivity.
  - erewrite bind_returned; cycle 1.
    { erewrite bind_returned by reflexivity.
      erewrite bind_returned by (apply fsops_returns; assumption).
      apply fsops_returns; assumption. }
    erewrite bind_returned by (apply fsops_returns; assumption).
    match goal with |- context [bind _ _ ?w0] =>
      destruct (vo_chown_calls vo path w0 Hr) as (rest & C & Hrest) end.
    exists rest. split; [|exact Hrest].
    rewrite C. simpl. rewrite <- !app_assoc. reflexivity.
Qed.

(** C4.  Creating a fileset is idempotent.  When the fileset exists under
    its name, no directory and no fileset is made and the mode is still
    applied to the path; when it does not exist, the directory above the
    path is made, then the fileset, and then the mode is applied.  This
    holds for the storage backend of tier1c.py and for [VscVo]. *)
Theorem create_fileset_idempotent :
  fsops_reliable ->
  (forall (b : Tier1c.VscStorageBackend) path name mode w,
      (fsops_get_fileset_info (Tier1c.ops b) (Tier1c.storage_name b) name (ext w) = true ->
       (Tier1c._create_fileset b path name mode w).2 = Returned tt
       /\ calls (Tier1c._create_fileset b path name mode w).1 = calls w ++ [Chmod mode path])
      /\ (fsops_get_fileset_info (Tier1c.ops b) (Tier1c.storage_name b) name (ext w) = false ->
          (Tier1c._create_fileset b path name mode w).2 = Returned tt
          /\ calls (Tier1c._create_fileset b path name mode w).1
             = calls w ++ [MakeDir (dirname path); MakeFileset path name; Chmod mode path]))
  /\ (forall (vo : Vo.VscVo) filesystem_name path w,
      let listed := (fsops_exec Gpfs ListFilesets (ext w)).1 in
      (fsops_get_fileset_info Gpfs filesystem_name (Vo.vo_id vo) listed = true ->
       exists rest,
         calls (Vo._create_fileset vo filesystem_name path w).1
         = calls w ++ ListFilesets :: Chmod 448 path :: rest
         /\ (rest = [] \/ exists gid gid', rest = [Chown gid gid' path]))
      /\ (fsops_get_fileset_info Gpfs filesystem_name (Vo.vo_id vo) listed = false ->
          exists rest,
            calls (Vo._create_fileset vo filesystem_name path w).1
            = calls w ++ ListFilesets :: MakeDir (dirname path)
                      :: MakeFileset path (Vo.vo_id vo) :: Chmod 448 path :: rest
            /\ (rest = [] \/ exists gid gid', rest = [Chown gid gid' path]))).
Proof.
  intros Hr. split.
  - intros b path name mode w.
    destruct (tier1c_create_fileset_calls b path name mode w Hr) as [R C].
    split; intros E; rewrite E in C; (split; [exact R | exact C]).
  - intros vo fs path w. cbv zeta.
    destruct (vo_create_fileset_calls vo fs path w Hr) as (rest & C & Hrest).
    split; intros E; rewrite E in C; exists rest; (split; [exact C | exact Hrest]).
Qed.

End Filesets.

(** ** tier1c.py and sync.py: construction, dry-run, moderators *)

Section Tier1cSync.
Import Tier1c Sync.
Context `{Platform} `{!VscConfig} `{!AccountPage} `{!SyncEnv} `{!ProjectEntryPoints}.

Lemma call_eq {A} (f : Ext A) w e r : f (ext w) = (e, r) -> call f w = (set_ext e w, r).
Proof. unfold call. intros ->. reflexivity. Qed.

(** A backend that is given a storage and neither path templates nor a
    storage name cannot be built. *)
Lemma backend_init_without_templates (st : Storage) (institute : option string)
    (dry : bool) (w : world) :
  VscStorageBackend_init (Some st) None None institute dry w
  = (add_log (LogRecord LException no_backend_message []) w,
     Raised (Exception_ no_backend_message)).
Proof. reflexivity. Qed.

(** The constructor of [VscTier1cUser] raises for every user. *)
Lemma VscTier1cUser_init_raises (id : string) (dry : bool) (w : world) :
  VscTier1cUser_init id dry w
  = (add_log (LogRecord LException no_backend_message []) w,
     Raised (Exception_ no_backend_message)).
Proof. reflexivity. Qed.


Lemma sorted_cons (id : string) (ids : list string) :
  exists first rest, sorted (id :: ids) = first :: rest.
Proof.
  pose proof (merge_sort_Permutation str_le (id :: ids)) as P.
  unfold sorted. destruct (merge_sort str_le (id :: ids)) as [|first rest].
  - apply Permutation_nil_l in P. discriminate.
  - eauto.
Qed.

(** C1, in [process_t1_users].  The user object is built before the
    [try], and building it raises: with at least one account id the
    method raises at the first user, no user reaches either list,
    nothing is provisioned and the other users are not looked at.  The
    same happens at the first quota record when there is no account id. *)
Theorem process_t1_users_aborts (id : string) (ids : list string) (quota : UserQuota)
    (quotas : list UserQuota) (dry : bool) (w : world) :
  process_t1_users (id :: ids) quotas VSC_TIER1C_SCRATCH dry w
  = (add_log (LogRecord LException no_backend_message []) w,
     Raised (Exception_ no_backend_message))
  /\ process_t1_users [] (quota :: quotas) VSC_TIER1C_SCRATCH dry w
     = (add_log (LogRecord LException no_backend_message []) w,
        Raised (Exception_ no_backend_message)).
Proof.
  unfold process_t1_users, check_storage_name.
  change (negb (VSC_TIER1C_SCRATCH =? VSC_TIER1C_SCRATCH)%string) with false.
  split.
  - erewrite bind_returned by reflexivity.
    destruct (sorted_cons id ids) as (first & rest & ->).
    cbn [for_each]. unfold process_t1_users_body at 1.
    erewrite bind_raised; [reflexivity|].
    erewrite bind_raised; [reflexivity|].
    erewrite bind_raised; [reflexivity|].
    apply VscTier1cUser_init_raises.
  - reflexivity.
Qed.

(** Inside the [try] a user is isolated: whatever the provisioning of a
    user that has been built does, the loop body returns, and the user is
    added to exactly one list. *)
Lemma process_t1_users_try (user : VscTier1cUser) (ok_users error_users : list VscTier1cUser)
    (w : world) :
  let r := try_except
             (provision_t1_user user ;; ret (ok_users ++ [user], error_users))
             is_Exception
             (fun _ => log_msg LException "Cannot process user %s" [user_id user] ;;
                       ret (ok_users, error_users ++ [user])) w in
  match (provision_t1_user user w).2 with
  | Returned _ => r.2 = Returned (ok_users ++ [user], error_users)
  | Raised e => if is_Exception e
                then r.2 = Returned (ok_users, error_users ++ [user])
                else r.2 = Raised e
  end.
Proof.
  cbv zeta. unfold try_except, bind.
  destruct (provision_t1_user user w) as [w1 [[]|e]]; simpl; [reflexivity|].
  destruct (is_Exception e); reflexivity.
Qed.

(** The constructors store nothing for [dry_run], so a dry run of the
    tier1c classes is a real run. *)
Lemma backend_init_ignores_dry_run st pt name institute :
  VscStorageBackend_init st pt name institute true
  = VscStorageBackend_init st pt name institute false.
Proof. reflexivity. Qed.

Lemma project_init_ignores_dry_run (id : string) :
  VscTier1cProject_init id true = VscTier1cProject_init id false.
Proof. reflexivity. Qed.

Lemma process_projects_ignores_dry_run prj_ids storage_name datestamp :
  process_projects prj_ids storage_name datestamp true
  = process_projects prj_ids storage_name datestamp false.
Proof. reflexivity. Qed.

Lemma do_ignores_dry_run options_user options_projects :
  do options_user options_projects true = do options_user options_projects false.
Proof. reflexivity. Qed.



Lemma md_set_ne (k k' : string) (v : list string) (d : MonoidDict) :
  k <> k' -> md_set k v d !! k' = d !! k'.
Proof.
  intros Hne. unfold md_set. destruct (d !! k); by rewrite lookup_insert_ne.
Qed.

Lemma md_set_is_Some (k : string) (v : list string) (d : MonoidDict) :
  is_Some (md_set k v d !! k).
Proof.
  unfold md_set. destruct (d !! k); rewrite lookup_insert_eq; eauto.
Qed.

(** A loop keeps what each of its iterations keeps. *)
Lemma for_each_invariant {A S} (P : S -> Prop) (body : A -> S -> M S) (xs : list A) :
  (forall x s w w' s', x ∈ xs -> body x s w = (w', Returned s') -> P s -> P s') ->
  forall s w w' s', for_each xs body s w = (w', Returned s') -> P s -> P s'.
Proof.
  induction xs as [|x xs IH]; intros Hb s w w' s' E Hs; cbn [for_each] in E.
  - injection E as _ <-. exact Hs.
  - unfold bind in E. destruct (body x s w) as [w1 [s1|e]] eqn:Ex; [|discriminate].
    eapply IH; [|exact E|].
    + intros y t v v' t' Hy. apply Hb. by right.
    + eapply Hb; [by left | exact Ex | exact Hs].
Qed.








End Tier1cSync.

(** ** sync.py and tier1c.py: a failed moderator lookup *)

Section ModeratorLookup.
Import Tier1c Sync.
Context `{Platform} `{!VscConfig} `{!AccountPage} `{!SyncEnv}.


End ModeratorLookup.

(** ** bin/sync_ugent_vsc_users.py: a VO that cannot be loaded *)

Section VoLoad.
Import SyncUgent.
Context `{Platform} `{!VscConfig} `{!VscUserMethods} `{!Vo.VscLdapGroup} `{!ScriptEnv}.

(** C8, in [process_vos].  When the attributes of a VO cannot be loaded,
    only this VO is given up: the failure is logged, no file system
    operation is invoked for it, and the remaining VOs are processed.
    Both dictionaries are as they were, so the VO is not recorded as
    failed. *)
Theorem vo_load_failure_is_not_recorded (vo : Vo.VscVo) (vos : list Vo.VscVo)
    (acc : MonoidDict * MonoidDict) (w : world) e1 x :
  Vo.status vo (ext w) = (e1, Raised x) ->
  let w1 := add_log (LogRecord LException
                       "Something went wrong setting up the VO %s on the storage %s"
                       [Vo.vo_id vo]) (set_ext e1 w) in
  process_vos_body vo acc w = (w1, Returned acc)
  /\ calls w1 = calls w
  /\ process_vos (vo :: vos) w = process_vos vos w1.
Proof.
  intros Hs. cbv zeta.
  assert (process_vos_body vo acc w
          = (add_log (LogRecord LException
                        "Something went wrong setting up the VO %s on the storage %s"
                        [Vo.vo_id vo]) (set_ext e1 w), Returned acc)) as Eb.
  { unfold process_vos_body.
    erewrite try_except_caught; cycle 1.
    - erewrite bind_raised; [reflexivity|]. unfold call. rewrite Hs. reflexivity.
    - reflexivity.
    - reflexivity. }
  split; [exact Eb|]. split; [reflexivity|].
  unfold process_vos. cbn [for_each].
  assert (forall a, process_vos_body vo a w
          = (add_log (LogRecord LException
                        "Something went wrong setting up the VO %s on the storage %s"
                        [Vo.vo_id vo]) (set_ext e1 w), Returned a)) as Ea.
  { intros a. unfold process_vos_body.
    erewrite try_except_caught; cycle 1.
    - erewrite bind_raised; [reflexivity|]. unfold call. rewrite Hs. reflexivity.
    - reflexivity.
    - reflexivity. }
  erewrite bind_returned by apply Ea. reflexivity.
Qed.

End VoLoad.

(** ** Examples on the small site: the timestamp *)

Section TimestampExamples.
Import SyncUgent.

(** C2, counterexample: a pass in 2020 over a timestamp of 2030 ends
    without fatal error, although one user could not be provisioned, and
    leaves a timestamp that is smaller than the one before the pass. *)
Lemma watermark_moves_back :
  (Demo.pass_2020 203001010000).2 = Returned tt
  /\ timestamp_file (Demo.world0 (Demo.site ["vsc40002"]) (Some 203001010000%Z))
     = Some 203001010000%Z
  /\ timestamp_file (Demo.pass_2020 203001010000).1 = Some 202001010000%Z
  /\ ~ (203001010000 <= 202001010000)%Z.
Proof. repeat split; try (vm_compute; reflexivity). intros Hle. vm_compute in Hle. auto. Qed.

(** C2, witness: over a timestamp of 2019 the same pass writes the time of
    the pass, which is not smaller. *)
Lemma watermark_commit_witness :
  (exists e e' t,
      @convert_timestamp _ (Demo.script_env 202001010000 true
                              [Demo.a_user "vsc40001" "new"; Demo.a_user "vsc40002" "new"] [])
                         e = (e', Returned t)
      /\ timestamp_file (Demo.pass_2020 201901010000).1 = Some t)
  /\ (exists t1,
      timestamp_file (Demo.pass_2020 201901010000).1 = Some t1 /\ (201901010000 <= t1)%Z).
Proof.
  destruct (@watermark_commit Demo.platform (Demo.config 1) Demo.user_methods Demo.ldap_group
              (Demo.script_env 202001010000 true
                 [Demo.a_user "vsc40001" "new"; Demo.a_user "vsc40002" "new"] [])
              Demo.users_only
              (Demo.world0 (Demo.site ["vsc40002"]) (Some 201901010000%Z)))
    as (_ & _ & Hwrite & _ & Hmono).
  split.
  - apply Hwrite; try reflexivity; intros; reflexivity.
  - apply (Hmono 201901010000%Z).
    + reflexivity.
    + intros e e' t Hc. injection Hc as _ <-. vm_compute. discriminate.
Defined.

End TimestampExamples.

(** ** Examples on the small site: users, quota, filesets, projects *)

Section SiteExamples.

Lemma demo_reliable : @fsops_reliable Demo.platform.
Proof. intros k c e. destruct c; reflexivity. Qed.

(** Of three changed users the second cannot be provisioned: the first
    and the third are provisioned and end in the success list, the first
    with its new status; the second ends in the failure list. *)
Lemma process_users_three_users :
  Demo.three_users.2
  = Returned ([Demo.a_user "vsc40001" "notify"; Demo.a_user "vsc40003" "active"],
              [Demo.a_user "vsc40002" "new"]).
Proof. vm_compute. reflexivity. Qed.

(** C9, witness: a user in status [new] is moved to [notify] by a real
    run and left alone by a dry run. *)
Lemma notify_new_to_notify_only_witness :
  exists user' w',
    @SyncUgent.notify_user_directory_created Demo.platform (Demo.a_user "vsc40001" "new") false
      (Demo.world0 (Demo.site []) None) = (w', Returned user')
    /\ SyncUgent.status user' = "notify"
    /\ status_pushes w' = [("vsc40001", "notify")].
Proof.
  destruct (@notify_new_to_notify_only Demo.platform (Demo.a_user "vsc40001" "new") false
              (Demo.world0 (Demo.site []) None))
    as (user' & w' & E & _ & _ & Hnew & _).
  exists user', w'. split; [exact E|]. apply (Hnew eq_refl eq_refl).
Defined.




(** C4, witness: the fileset of a project on a site where it exists and
    on a site where it does not. *)
Lemma create_fileset_idempotent_witness :
  calls (Demo.create_test01 ["proj_test01"]).1 = [] ++ [Chmod 504 Demo.test01_path]
  /\ calls (Demo.create_test01 []).1
     = [] ++ [MakeDir (dirname Demo.test01_path);
              MakeFileset Demo.test01_path "proj_test01";
              Chmod 504 Demo.test01_path].
Proof.
  destruct (@create_fileset_idempotent Demo.platform Demo.ldap_group demo_reliable)
    as [Htier1c _].
  split.
  - apply (Htier1c (Demo.backend (Demo.config 1)) Demo.test01_path "proj_test01" 504%Z
             (Demo.world0 {| Demo.clock := 0; Demo.filesets := ["proj_test01"];
                             Demo.broken := [] |} None)).
    reflexivity.
  - apply (Htier1c (Demo.backend (Demo.config 1)) Demo.test01_path "proj_test01" 504%Z
             (Demo.world0 {| Demo.clock := 0; Demo.filesets := []; Demo.broken := [] |} None)).
    reflexivity.
Defined.


(** The numbers of the quota examples in binary64 arithmetic: the soft
    limits for 20480 bytes, for the default project quota and for one
    byte with the float 0.95 are the ones of the exact computation. *)
Lemma soft_limits_binary64 :
  Tier1c.soft_limit_binary64 (float_literal 95 100) 20480 = Some 19456%Z
  /\ @Tier1c.soft_limit (Demo.config 2) 20480 = 19456%Z
  /\ Tier1c.soft_limit_binary64 (float_literal 95 100) 1073741824 = Some 1020054732%Z
  /\ @Tier1c.soft_limit (Demo.config 1) 1073741824 = 1020054732%Z
  /\ Tier1c.soft_limit_binary64 (float_literal 95 100) 1 = Some 0%Z
  /\ @Tier1c.soft_limit (Demo.config 1) 1 = 0%Z.
Proof. repeat split; vm_compute; reflexivity. Qed.


(** C8, witness: of two VOs the first cannot be loaded; it is in neither
    dictionary, and the members of the second are set up. *)
Lemma vo_load_failure_witness :
  exists w1,
    calls w1 = []
    /\ Demo.two_vos
       = @SyncUgent.process_vos Demo.platform (Demo.config 1) Demo.ldap_group
           [Demo.a_vo "gvo00021"] w1.
Proof.
  destruct (@vo_load_failure_is_not_recorded Demo.platform (Demo.config 1) Demo.ldap_group
              (Demo.a_vo "gvo00020") [Demo.a_vo "gvo00021"] (∅, ∅)
              (Demo.world0 (Demo.site ["gvo00020"]) None)
              (Demo.site ["gvo00020"]) IOError eq_refl)
    as (_ & Hc & Hrest).
  eexists. split; [exact Hc | exact Hrest].
Defined.

(** What [process_vos] returns for the two VOs. *)
Lemma two_vos_result :
  option_map (fun r : MonoidDict * MonoidDict => (map_to_list r.1, map_to_list r.2))
    (match Demo.two_vos.2 with Returned r => Some r | Raised _ => None end)
  = Some ([("gvo00021", ["vsc40001"; "vsc40002"])], []).
Proof. vm_compute. reflexivity. Qed.



End SiteExamples.

(** ** Reading a run backwards *)

Section MonadInversion.
Context `{Platform}.

Lemma bind_inv_returned {A B} (m : M A) (k : A -> M B) w w' b :
  bind m k w = (w', Returned b) ->
  exists w1 a, m w = (w1, Returned a) /\ k a w1 = (w', Returned b).
Proof. unfold bind. destruct (m w) as [w1 [a|e]]; [eauto | discriminate]. Qed.

Lemma bind_inv_raised {A B} (m : M A) (k : A -> M B) w w' x :
  bind m k w = (w', Raised x) ->
  m w = (w', Raised x) \/ exists w1 a, m w = (w1, Returned a) /\ k a w1 = (w', Raised x).
Proof.
  unfold bind. destruct (m w) as [w1 [a|e]]; intros E.
  - right. exists w1, a. split; [reflexivity | exact E].
  - left. by injection E as -> ->.
Qed.

Lemma preserves_eq {X A} (p : world -> X) (m : M A) w w' r :
  preserves p m -> m w = (w', r) -> p w' = p w.
Proof. intros Hp E. specialize (Hp w). rewrite E in Hp. exact Hp. Qed.

End MonadInversion.

(** ** bin/sync_ugent_vsc_users.py: what happens to each user *)

Section MoreUsers.
Import SyncUgent.
Context `{Platform} `{!VscConfig} `{!VscUserMethods} `{!Vo.VscLdapGroup} `{!ScriptEnv}.

(** What the provisioning of a user that returns has done to the status. *)
Lemma provision_user_returned dry u w w1 u' :
  provision_user dry u w = (w1, Returned u') ->
  user_id u' = user_id u
  /\ ((u' = u /\ status_pushes w1 = status_pushes w)
      \/ (dry = false /\ status u = "new" /\ u' = set_status u "notify"
          /\ status_pushes w1 = status_pushes w ++ [(user_id u, "notify")])).
Proof.
  unfold provision_user. intros Hp.
  repeat (apply bind_inv_returned in Hp as (? & [] & ?%(preserves_eq status_pushes) & Hp);
          [|by frame]).
  unfold notify_user_directory_created in Hp.
  destruct dry.
  - injection Hp as <- <-. split; [reflexivity|]. left. split; [reflexivity|].
    cbn. congruence.
  - destruct (String.eqb_spec (status u) "new") as [Hnew|Hnew];
      injection Hp as <- <-; (split; [reflexivity|]).
    + right. repeat split; auto. cbn. congruence.
    + left. split; [reflexivity|]. cbn. congruence.
Qed.

Lemma provision_user_raised dry u w w1 x :
  provision_user dry u w = (w1, Raised x) ->
  status_pushes w1 = status_pushes w.
Proof.
  unfold provision_user. intros Hp.
  repeat (apply bind_inv_raised in Hp
            as [Hp%(preserves_eq status_pushes)
               |(? & [] & ?%(preserves_eq status_pushes) & Hp)];
          [congruence|by frame| |by frame]).
  unfold notify_user_directory_created in Hp.
  destruct dry; [discriminate|]. destruct (String.eqb _ "new"); discriminate.
Qed.

(** X1.  Failure isolation in [process_users]: the loop returns for every
    list of users, whatever exception the provisioning of a user raises
    (also [KeyboardInterrupt] and [SystemExit], which the bare [except]
    catches); every user ends in exactly one of the two lists, and both
    lists keep the order of the input. *)
Theorem process_users_partitions (dry : bool) (users : list VscUser) (w : world) :
  exists w' ok err,
    process_users dry users w = (w', Returned (ok, err))
    /\ map user_id (ok ++ err) ≡ₚ map user_id users
    /\ sublist (map user_id ok) (map user_id users)
    /\ sublist (map user_id err) (map user_id users).
Proof.
  revert w. induction users as [|u users IH]; intros w.
  - exists w, [], []. repeat split; constructor.
  - rewrite process_users_cons. cbv zeta.
    destruct (provision_user dry _ w) as [w1 [u'|e]] eqn:Hp.
    + destruct (IH w1) as (w' & ok & err & -> & Hperm & Hok & Herr).
      apply provision_user_returned in Hp as [Hid _].
      assert (user_id u' = user_id u) as Hid' by (rewrite Hid; by destruct dry).
      exists w', (u' :: ok), err. cbn [map_result fst snd map app].
      rewrite Hid'. repeat split.
      * by constructor.
      * by constructor.
      * by constructor.
    + match goal with |- context [process_users dry users ?v] =>
        destruct (IH v) as (w' & ok & err & -> & Hperm & Hok & Herr) end.
      exists w', ok, ((if dry then set_dry_run u true else u) :: err).
      cbn [map_result fst snd].
      assert (user_id (if dry then set_dry_run u true else u) = user_id u) as Hid
        by (by destruct dry).
      repeat split.
      * rewrite map_app. cbn [map]. rewrite <- Permutation_middle, Hid.
        rewrite <- map_app. by constructor.
      * by constructor.
      * cbn [map]. rewrite Hid. by constructor.
Qed.

(** X2.  Only users whose provisioning went through are notified: the
    status values written by [process_users] are [notify] for some of the
    users of the success list, in order, each of which ends in status
    [notify]; in dry-run mode nothing is written; the users of the
    failure list are the users as they were found (with the dry-run flag
    set in dry-run mode), so their status is unchanged. *)
Theorem failed_users_are_not_notified (dry : bool) (users : list VscUser) (w w' : world)
    (ok err : list VscUser) :
  process_users dry users w = (w', Returned (ok, err)) ->
  exists notified,
    status_pushes w' = status_pushes w ++ map (fun u => (user_id u, "notify")) notified
    /\ sublist notified ok
    /\ Forall (fun u => status u = "notify") notified
    /\ (dry = false \/ notified = [])
    /\ Forall (fun u => exists u0, u0 ∈ users
                                  /\ u = (if dry then set_dry_run u0 true else u0)) err.
Proof.
  revert w ok err. induction users as [|u users IH]; intros w ok err E.
  - injection E as <- <- <-. exists []. rewrite app_nil_r.
    split; [reflexivity|]. split; [constructor|]. split; [constructor|].
    split; [by right | constructor].
  - rewrite process_users_cons in E. cbv zeta in E.
    destruct (provision_user dry _ w) as [w1 [u'|x]] eqn:Hp.
    + destruct (process_users dry users w1) as [w2 [[ok2 err2]|?]] eqn:E2; [|discriminate].
      injection E as <- <- <-.
      destruct (IH _ _ _ E2) as (notified & Hpush & Hsub & Hst & Hdry & Herr).
      assert (Forall (fun u1 => exists u0, u0 ∈ u :: users
                /\ u1 = (if dry then set_dry_run u0 true else u0)) err2) as Herr'.
      { eapply Forall_impl; [exact Herr|]. intros u1 (u0 & Hin & ->).
        exists u0. split; [by right | reflexivity]. }
      apply provision_user_returned in Hp
        as [_ [[-> Hp] | (-> & Hnew & -> & Hp)]].
      * exists notified. rewrite Hpush, Hp.
        split; [reflexivity|]. split; [by constructor|]. auto.
      * exists (set_status u "notify" :: notified). rewrite Hpush, Hp.
        cbn [map set_status user_id]. rewrite <- app_assoc.
        split; [reflexivity|]. split; [by constructor|]. split; [by constructor|].
        split; [by left | exact Herr'].
    + match type of E with context [process_users dry users ?v] =>
        destruct (process_users dry users v) as [w2 [[ok2 err2]|?]] eqn:E2; [|discriminate]
      end.
      injection E as <- <- <-.
      destruct (IH _ _ _ E2) as (notified & Hpush & Hsub & Hst & Hdry & Herr).
      apply provision_user_raised in Hp.
      exists notified. split; [rewrite Hpush; cbn; by rewrite Hp|].
      split; [exact Hsub|]. split; [exact Hst|]. split; [exact Hdry|].
      constructor.
      * exists u. split; [by left | reflexivity].
      * eapply Forall_impl; [exact Herr|]. intros u1 (u0 & Hin & ->).
        exists u0. split; [by right | reflexivity].
Qed.

End MoreUsers.

(** ** bin/sync_ugent_vsc_users.py: the members of a VO *)

Section MoreVos.
Import SyncUgent.
Context `{Platform} `{!VscConfig} `{!VscUserMethods} `{!Vo.VscLdapGroup} `{!ScriptEnv}.


Lemma entries_md_set_ne (k k' : string) (v : list string) (d : MonoidDict) :
  k <> k' -> entries (md_set k v d) k' = entries d k'.
Proof. intros Hne. unfold entries. by rewrite md_set_ne. Qed.

(** One member ends in exactly one dictionary, under the id of the VO. *)
Lemma process_vos_member_cases vo user acc w :
  exists w',
    process_vos_member vo user acc w = (w', Returned (md_set (Vo.vo_id vo) [user] acc.1, acc.2))
    \/ process_vos_member vo user acc w
       = (w', Returned (acc.1, md_set (Vo.vo_id vo) [user] acc.2)).
Proof.
  destruct acc as [ok err]. unfold process_vos_member.
  destruct (provision_vo_member vo user w) as [w1 [[]|x]] eqn:Ep.
  - exists w1. left. apply try_except_returned.
    erewrite bind_returned by exact Ep. reflexivity.
  - eexists. right. erewrite try_except_caught; cycle 1.
    { erewrite bind_raised; [reflexivity | exact Ep]. }
    { reflexivity. }
    reflexivity.
Qed.


(** An iteration of [process_vos] returns: it leaves the dictionaries as
    they are, or it has read the members of the VO and run the member loop
    over them. *)
Lemma process_vos_body_cases vo acc w :
  exists w' acc',
    process_vos_body vo acc w = (w', Returned acc')
    /\ (acc' = acc
        \/ exists e e' ms v,
             Vo.memberUid vo e = (e', Returned ms)
             /\ for_each ms (process_vos_member vo) acc v = (w', Returned acc')).
Proof.
  unfold process_vos_body, try_except.
  match goal with |- context [match ?b w with _ => _ end] =>
    destruct (b w) as [w1 [r|x]] eqn:E end.
  - exists w1, r. split; [reflexivity|]. right.
    apply bind_inv_returned in E as (v1 & st & _ & E).
    apply bind_inv_returned in E as (v2 & [] & _ & E).
    apply bind_inv_returned in E as (v3 & [] & _ & E).
    apply bind_inv_returned in E as (v4 & ms & Em & E).
    unfold call in Em. destruct (Vo.memberUid vo (ext v3)) as [e' r'] eqn:Eu.
    injection Em as _ ->.
    exists (ext v3), e', ms, v4. split; assumption.
  - cbn [any_exn]. eexists _, acc. split; [reflexivity | by left].
Qed.


Lemma md_set_lookup (k : string) (v : list string) (d : MonoidDict) :
  md_set k v d !! k = Some (entries d k ++ v).
Proof.
  unfold entries, md_set. destruct (d !! k) eqn:E; rewrite lookup_insert_eq; reflexivity.
Qed.

Lemma member_lists_md_set ids k u d :
  k ∈ ids -> member_lists ids d -> member_lists ids (md_set k [u] d).
Proof.
  intros Hk Hd k' l. destruct (decide (k = k')) as [<-|Hne].
  - rewrite md_set_lookup. intros [= <-]. split; [exact Hk|].
    intros Hnil. by apply app_eq_nil in Hnil as [_ ?].
  - rewrite md_set_ne by assumption. apply Hd.
Qed.

(** X4.  [process_vos] returns for every list of VOs; the keys of both
    dictionaries are ids of the VOs it was given, and no key holds an
    empty list: a VO that was set up and has no member is in neither
    dictionary. *)
Theorem process_vos_records_members_only (vos : list Vo.VscVo) (w : world) :
  exists w' ok err,
    process_vos vos w = (w', Returned (ok, err))
    /\ member_lists (map Vo.vo_id vos) ok
    /\ member_lists (map Vo.vo_id vos) err.
Proof.
  destruct (process_vos_returns vos w) as (w' & [ok err] & E).
  exists w', ok, err. split; [exact E|].
  set (ids := map Vo.vo_id vos).
  unfold process_vos in E.
  apply (for_each_invariant
           (fun acc => member_lists ids acc.1 /\ member_lists ids acc.2)) in E;
    [exact E| |split; intros k l Hl; cbn in Hl; by rewrite lookup_empty in Hl].
  intros vo acc v v' acc' Hvo Eb [P1 P2].
  destruct (process_vos_body_cases vo acc v) as (v2 & acc2 & E2 & Hc).
  rewrite Eb in E2. injection E2 as <- <-.
  destruct Hc as [-> | (e & e' & ms & v3 & _ & El)]; [by split|].
  apply (for_each_invariant
           (fun acc => member_lists ids acc.1 /\ member_lists ids acc.2)) in El;
    [exact El| |by split].
  intros m [ok1 err1] u u' s' _ Em [Q1 Q2].
  assert (Vo.vo_id vo ∈ ids) as Hid by (by apply list_elem_of_fmap_2).
  destruct (process_vos_member_cases vo m (ok1, err1) u) as (u2 & [E3|E3]);
    rewrite Em in E3; injection E3 as _ ->; cbn [fst snd] in *;
    (split; [|]); auto using member_lists_md_set.
Qed.

End MoreVos.

(** ** Frames of the script, for every component of the world *)

Section ScriptFrames.
Import SyncUgent.
Context `{Platform} `{!VscConfig} `{!VscUserMethods} `{!Vo.VscLdapGroup} `{!ScriptEnv}.
Context {X : Type} (p : world -> X).
Hypothesis (He : ext_blind p) (Hl : log_blind p) (Hc : call_blind p) (Hs : push_blind p).

Lemma preserves_push_status user st : preserves p (push_status user st).
Proof. intros w. apply Hs. Qed.

Lemma process_users_preserves dry users : preserves p (process_users dry users).
Proof.
  pose proof preserves_push_status.
  unfold process_users, process_users_body, provision_user, notify_user_directory_created.
  frame.
Qed.

Lemma process_vos_preserves vos : preserves p (process_vos vos).
Proof.
  unfold process_vos, process_vos_body, process_vos_member, provision_vo_member,
    Vo.create_data_fileset, Vo.set_data_quota, Vo.set_member_data_quota,
    Vo._set_quota, Vo._set_member_quota, Vo._create_fileset, Vo._data_path, Vo.storage_repr.
  frame.
Qed.

Lemma main_sync_preserves opts : preserves p (main_sync opts).
Proof.
  pose proof process_users_preserves. pose proof process_vos_preserves.
  unfold main_sync, read_timestamp. frame.
Qed.

Lemma main_start_preserves opts : preserves p (main_start opts).
Proof. unfold main_start, sys_exit. frame. Qed.

End ScriptFrames.

(** ** bin/sync_ugent_vsc_users.py: the modes and the end of [main] *)

Section MoreMain.
Import SyncUgent.
Context `{Platform} `{!VscConfig} `{!VscUserMethods} `{!Vo.VscLdapGroup} `{!ScriptEnv}.

Lemma nagios_ext_blind : ext_blind nagios_cache.
Proof. intros e w. reflexivity. Qed.
Lemma nagios_log_blind : log_blind nagios_cache.
Proof. intros r w. reflexivity. Qed.
Lemma nagios_call_blind : call_blind nagios_cache.
Proof. intros c w. reflexivity. Qed.
Lemma nagios_push_blind : push_blind nagios_cache.
Proof. intros s w. reflexivity. Qed.
Lemma timestamp_push_blind : push_blind timestamp_file.
Proof. intros s w. reflexivity. Qed.
Lemma calls_push_blind : push_blind calls.
Proof. intros s w. reflexivity. Qed.

(** X5.  With the nagios option, [main] hands over to [report_and_exit]
    and ends in an exception ([SystemExit(0)] when the report returns):
    the lock is not taken, the directory is not queried, no file system
    operation is invoked, no status and no timestamp is written, and
    nothing is cached. *)
Theorem main_nagios_mode_only_reports (opts : options) (w : world) :
  opt_nagios opts = true ->
  let r := main opts w in
  r.2 = match (report_and_exit (ext w)).2 with
        | Returned _ => Raised (SystemExit 0)
        | Raised x => Raised x
        end
  /\ ext r.1 = (report_and_exit (ext w)).1
  /\ calls r.1 = calls w
  /\ status_pushes r.1 = status_pushes w
  /\ timestamp_file r.1 = timestamp_file w
  /\ nagios_cache r.1 = nagios_cache w.
Proof.
  intros Hn. cbv zeta. unfold main, main_start. rewrite Hn.
  unfold bind, call, log_msg, sys_exit, raise. cbn [ext add_log].
  destruct (report_and_exit (ext w)) as [e [[]|x]]; cbn; repeat split; reflexivity.
Qed.

(** X6.  When the synchronisation raises an [Exception], [main] caches one
    critical report, releases the lock file and raises (the [SystemExit]
    of [sys.exit(NAGIOS_EXIT_CRITICAL)] when the release returns); the
    timestamp file is left as it was.  An
    exception that is not an [Exception] ([KeyboardInterrupt],
    [SystemExit]) leaves [main] as it is: nothing is cached and the lock
    is not released. *)
Theorem main_fatal_error_reports_critical (opts : options) (w w0 w1 : world) (x : exn) :
  main_start opts w = (w0, Returned tt) ->
  main_sync opts w0 = (w1, Raised x) ->
  let r := main opts w in
  timestamp_file r.1 = timestamp_file w
  /\ if is_Exception x then
       r.2 = match (lockfile_release (ext w1)).2 with
             | Returned _ => Raised (SystemExit NAGIOS_EXIT_CRITICAL_code)
             | Raised y => Raised y
             end
       /\ nagios_cache r.1 = nagios_cache w ++ [critical_report]
       /\ ext r.1 = (lockfile_release (ext w1)).1
     else
       r = (w1, Raised x) /\ nagios_cache w1 = nagios_cache w.
Proof.
  intros Hstart Hsync. cbv zeta.
  pose proof (preserves_eq _ _ _ _ _
                (main_start_preserves nagios_cache nagios_ext_blind nagios_log_blind opts)
                Hstart) as N0.
  pose proof (preserves_eq _ _ _ _ _
                (main_sync_preserves nagios_cache nagios_ext_blind nagios_log_blind
                   nagios_call_blind nagios_push_blind opts) Hsync) as N1.
  pose proof (preserves_eq _ _ _ _ _ (main_start_keeps_timestamp opts) Hstart) as T0.
  pose proof (preserves_eq _ _ _ _ _ (main_sync_keeps_timestamp opts) Hsync) as T1.
  unfold main. erewrite bind_returned by exact Hstart.
  destruct (is_Exception x) eqn:Hx.
  - set (w2 := add_nagios critical_report
                 (add_log (LogRecord LException
                             "Fail during UGent users synchronisation: {err}" []) w1)).
    assert (@main_failed _ _ main_locals w1
            = (set_ext (lockfile_release (ext w1)).1 w2,
               match (lockfile_release (ext w1)).2 with
               | Returned _ => Raised (SystemExit NAGIOS_EXIT_CRITICAL_code)
               | Raised y => Raised y
               end)) as Hf.
    { unfold main_failed, bind, log_msg, nagios_reporter_cache, call, sys_exit, raise.
      cbn [ext add_log add_nagios].
      destruct (lockfile_release (ext w1)) as [e [[]|y]]; reflexivity. }
    erewrite bind_raised; cycle 1.
    { erewrite try_except_caught; [|exact Hsync|exact Hx].
      rewrite Hf. apply injective_projections; [reflexivity|]. cbn [snd].
      instantiate (1 := match (lockfile_release (ext w1)).2 with
                        | Returned _ => SystemExit NAGIOS_EXIT_CRITICAL_code | Raised y => y end).
      destruct (lockfile_release (ext w1)).2; reflexivity. }
    cbn [fst snd]. split; [cbn; by rewrite T1, T0|].
    split; [destruct (lockfile_release (ext w1)).2; reflexivity|].
    split; [cbn; by rewrite N1, N0 | reflexivity].
  - erewrite bind_raised; cycle 1.
    { erewrite try_except_escapes; [reflexivity | exact Hsync | exact Hx]. }
    cbn [fst snd]. split; [by rewrite T1, T0|].
    split; [reflexivity | congruence].
Qed.

(** X7.  The end of [main] hands exactly one report to the nagios reporter
    and always calls [release_or_bork], whose outcome is the outcome of
    the block: an OK report when the clock was read and the timestamp
    written, which the file then holds; a warning when the clock or the
    write failed, and the file is left as it was.  No file system
    operation is invoked. *)
Theorem main_commit_reports_once (metrics : list (string * nat)) (w : world) :
  let r := main_commit metrics w in
  let clock := convert_timestamp (ext w) in
  ext r.1 = (release_or_bork clock.1).1
  /\ r.2 = (release_or_bork clock.1).2
  /\ calls r.1 = calls w
  /\ ((exists t, clock.2 = Returned t /\ write_timestamp_fault clock.1 = None
                 /\ timestamp_file r.1 = Some t
                 /\ nagios_cache r.1 = nagios_cache w ++ [ok_report metrics])
      \/ ((raised clock.2 = true \/ write_timestamp_fault clock.1 <> None)
          /\ timestamp_file r.1 = timestamp_file w
          /\ nagios_cache r.1 = nagios_cache w ++ [warning_report metrics])).
Proof.
  cbv zeta. unfold main_commit, try_finally, try_except, bind, call, write_timestamp,
    nagios_reporter_cache, log_msg, ret.
  destruct (convert_timestamp (ext w)) as [e1 [t|x]] eqn:Hc; cbn [fst snd ext set_ext].
  - destruct (write_timestamp_fault e1) eqn:Hw; cbn [any_exn ext set_ext add_log add_nagios
      set_timestamp_file].
    + destruct (release_or_bork e1) as [e2 [[]|y]]; cbn;
        (do 3 (split; [reflexivity|])); right;
        (split; [right; discriminate | split; reflexivity]).
    + destruct (release_or_bork e1) as [e2 [[]|y]]; cbn;
        (do 3 (split; [reflexivity|])); left; exists t; repeat split; reflexivity.
  - cbn [any_exn ext set_ext add_log add_nagios].
    destruct (release_or_bork e1) as [e2 [[]|y]]; cbn;
      (do 3 (split; [reflexivity|])); right;
      (split; [left; reflexivity | split; reflexivity]).
Qed.

(** The timestamp that the lookups get: the stored one, or the default. *)
Lemma read_timestamp_or_default_value w w' t :
  try_except read_timestamp any_exn
    (fun _ => log_msg LException "Something broke reading the timestamp from %s" [] ;;
              ret default_timestamp) w = (w', Returned t) ->
  t = default (default_timestamp) (timestamp_file w).
Proof.
  unfold try_except, read_timestamp. destruct (timestamp_file w); cbn.
  - by intros [= _ <-].
  - by intros [= _ <-].
Qed.

(** X8.  When users are processed and the synchronisation returns, the
    users were looked up with the timestamp of the file, or with the
    default [200901010000] when the file cannot be read, and every user
    found is counted once: the success list and the failure list together
    hold the users that were found. *)
Theorem every_changed_user_is_counted (opts : options) (w w1 : world) (l : main_locals) :
  opt_user opts = true ->
  main_sync opts w = (w1, Returned l) ->
  exists e e' users ok,
    VscUser_lookup (default default_timestamp (timestamp_file w)) e = (e', Returned users)
    /\ users_ok l = Some ok
    /\ map user_id (ok ++ users_critical l) ≡ₚ map user_id users
    /\ List.length ok + List.length (users_critical l) = List.length users.
Proof.
  intros Hu E. unfold main_sync in E. rewrite Hu in E.
  apply bind_inv_returned in E as (v0 & [] & E0 & E).
  apply bind_inv_returned in E as (v1 & t & Et & E).
  apply read_timestamp_or_default_value in Et.
  assert (timestamp_file v0 = timestamp_file w) as T0.
  { eapply (preserves_eq timestamp_file); [|exact E0]. frame. }
  rewrite T0 in Et. subst t.
  apply bind_inv_returned in E as (v2 & [] & _ & E).
  apply bind_inv_returned in E as (v3 & [] & _ & E).
  apply bind_inv_returned in E as (v4 & [ok err] & Eusers & E).
  apply bind_inv_returned in Eusers as (v5 & [] & _ & Eusers).
  apply bind_inv_returned in Eusers as (v6 & users & Elook & Eusers).
  apply bind_inv_returned in Eusers as (v7 & [] & _ & Eusers).
  apply bind_inv_returned in Eusers as (v8 & [] & _ & Eusers).
  apply bind_inv_returned in Eusers as (v9 & [ok' err'] & Ep & Eusers).
  injection Eusers as _ <- <-.
  apply bind_inv_returned in E as (v10 & vos & _ & E).
  injection E as _ <-. cbn [users_ok users_critical fst snd].
  destruct (process_users_isolation (opt_dry_run opts) users v8)
    as (v9' & ok2 & err2 & Ep' & Hperm).
  rewrite Ep in Ep'. injection Ep' as _ <- <-.
  unfold call in Elook.
  destruct (VscUser_lookup _ (ext v5)) as [e' r] eqn:El. injection Elook as _ ->.
  exists (ext v5), e', users, ok'. split; [exact El|]. split; [reflexivity|].
  split; [exact Hperm|].
  apply Permutation_length in Hperm. rewrite !length_map, length_app in Hperm. exact Hperm.
Qed.

End MoreMain.

(** ** Paths *)

Section Paths.

Lemma list_ascii_app (a b : string) :
  list_ascii_of_string (a ++ b)%string = list_ascii_of_string a ++ list_ascii_of_string b.
Proof. induction a as [|c a IH]; simpl; [reflexivity | by rewrite IH]. Qed.

Lemma component_head (s : string) :
  component s -> exists c rest, s = String c rest /\ Ascii.eqb c "/" = false.
Proof.
  intros [Hne Hs]. destruct s as [|c rest]; [done|].
  exists c, rest. split; [reflexivity|].
  destruct (Ascii.eqb_spec c "/") as [->|]; [|reflexivity].
  exfalso. apply Hs. simpl. by left.
Qed.

Lemma path_join_component (a b : string) :
  open_dir a -> component b -> path_join a b = (a ++ "/" ++ b)%string.
Proof.
  intros [Ha Hs] Hb. destruct (component_head b Hb) as (c & rest & -> & Hc).
  unfold path_join. rewrite Hc, Hs.
  destruct (String.eqb_spec a "") as [->|_]; [done | reflexivity].
Qed.

Lemma ends_with_slash_app (a b : string) :
  b <> "" -> ends_with_slash (a ++ b)%string = ends_with_slash b.
Proof.
  intros Hb. unfold ends_with_slash. rewrite list_ascii_app, reverse_app.
  destruct b as [|c b]; [done|]. simpl.
  rewrite reverse_cons. destruct (reverse (list_ascii_of_string b)); reflexivity.
Qed.

Lemma component_open (b : string) : component b -> open_dir b.
Proof.
  intros [Hne Hs]. split; [exact Hne|]. unfold ends_with_slash.
  destruct (reverse (list_ascii_of_string b)) as [|c l] eqn:E; [reflexivity|].
  destruct (Ascii.eqb_spec c "/") as [->|]; [|reflexivity].
  exfalso. apply Hs. apply elem_of_reverse. rewrite E. by left.
Qed.

Lemma open_dir_extend (a b : string) : component b -> open_dir (a ++ "/" ++ b)%string.
Proof.
  intros Hb. split.
  - destruct a; discriminate.
  - rewrite ends_with_slash_app by discriminate.
    rewrite (ends_with_slash_app "/" b) by apply Hb. by apply component_open.
Qed.

Lemma drop_basename_component (lb la : list ascii) :
  "/"%char ∉ lb ->
  drop_basename (reverse lb ++ "/"%char :: la) = "/"%char :: la.
Proof.
  intros Hs. assert ("/"%char ∉ reverse lb) as Hr by (by rewrite elem_of_reverse).
  induction (reverse lb) as [|c l IH]; simpl; [reflexivity|].
  destruct (Ascii.eqb_spec c "/") as [->|_].
  - exfalso. apply Hr. by left.
  - apply IH. intros Hin. apply Hr. by right.
Qed.

(** [os.path.dirname] undoes the last step of [os.path.join]. *)
Lemma dirname_extend (a b : string) :
  open_dir a -> component b -> dirname (a ++ "/" ++ b)%string = a.
Proof.
  intros [Ha Hs] [_ Hb]. unfold dirname.
  rewrite list_ascii_app. change (list_ascii_of_string ("/" ++ b)%string)
    with ("/"%char :: list_ascii_of_string b).
  rewrite reverse_app, reverse_cons, <- app_assoc. cbn [app].
  rewrite drop_basename_component by assumption.
  cbn [drop_slashes]. change (Ascii.eqb "/" "/") with true. cbn.
  unfold ends_with_slash in Hs.
  destruct (reverse (list_ascii_of_string a)) as [|c l] eqn:E.
  - apply (f_equal reverse) in E. rewrite reverse_involutive in E.
    destruct a; [done | discriminate].
  - cbn [drop_slashes]. rewrite Hs.
    change (rev_append l [c]) with (reverse (c :: l)).
    rewrite <- E, reverse_involutive. apply string_of_list_ascii_of_string.
Qed.

Lemma string_app_assoc (a b c : string) : ((a ++ b) ++ c = a ++ (b ++ c))%string.
Proof.
  induction a as [|x a IH]; [reflexivity|].
  change (String x ((a ++ b) ++ c) = String x (a ++ (b ++ c)))%string. by f_equal.
Qed.

(** [os.path.join] appends a relative path to an open directory. *)
Lemma path_join_relative (a b : string) (c : ascii) (rest : string) :
  open_dir a -> b = String c rest -> Ascii.eqb c "/" = false ->
  path_join a b = (a ++ "/" ++ b)%string.
Proof.
  intros [Ha Hs] -> Hc. unfold path_join. rewrite Hc, Hs.
  destruct (String.eqb_spec a "") as [->|_]; [done | reflexivity].
Qed.

(** An absolute second argument makes [os.path.join] forget the first. *)
Lemma path_join_absolute (a rest : string) : path_join a (String "/" rest) = String "/" rest.
Proof. reflexivity. Qed.

End Paths.

(** ** lib/vsc/administration/vo.py: paths, member quota, missing attributes *)

Section VoPaths.
Context `{Platform} `{!VscConfig} `{!Vo.VscLdapGroup}.

Lemma length_list_ascii (s : string) : List.length (list_ascii_of_string s) = String.length s.
Proof. induction s as [|c s IH]; simpl; [reflexivity | by rewrite IH]. Qed.

Lemma drop_last2_component (s : string) :
  component s -> 2 < String.length s -> component (Vo.drop_last2 s).
Proof.
  intros [_ Hs] Hlen. unfold Vo.drop_last2. rewrite length_list_ascii. split.
  - intros E. apply (f_equal String.length) in E.
    rewrite <- length_list_ascii, list_ascii_of_string_of_list_ascii, length_take,
      length_list_ascii in E. simpl in E. lia.
  - rewrite list_ascii_of_string_of_list_ascii. intros Hin. apply Hs.
    eapply elem_of_sublist; [exact Hin | apply sublist_take].
Qed.

Lemma drop_last2_short (s : string) : String.length s <= 2 -> Vo.drop_last2 s = "".
Proof.
  intros Hlen. unfold Vo.drop_last2. rewrite length_list_ascii.
  replace (String.length s - 2) with 0 by lia. by rewrite take_0.
Qed.

Lemma vos_component : component "vos".
Proof. split; [discriminate|]. apply (bool_decide_unpack _). by vm_compute. Qed.

Lemma vo_path_components (mp : string) (vo : Vo.VscVo) :
  open_dir mp -> component (Vo.vo_id vo) -> 2 < String.length (Vo.vo_id vo) ->
  Vo.vo_path mp vo = (mp ++ "/vos/" ++ Vo.drop_last2 (Vo.vo_id vo) ++ "/" ++ Vo.vo_id vo)%string
  /\ dirname (Vo.vo_path mp vo) = (mp ++ "/vos/" ++ Vo.drop_last2 (Vo.vo_id vo))%string.
Proof.
  intros Hmp Hid Hlen. pose proof (drop_last2_component _ Hid Hlen) as Hpre.
  unfold Vo.vo_path.
  rewrite (path_join_component mp "vos") by (assumption || apply vos_component).
  rewrite (path_join_component _ (Vo.drop_last2 _))
    by (assumption || apply open_dir_extend, vos_component).
  rewrite (path_join_component _ (Vo.vo_id vo))
    by (assumption || by apply open_dir_extend).
  split.
  - by rewrite !string_app_assoc.
  - rewrite dirname_extend by (assumption || by apply open_dir_extend).
    by rewrite !string_app_assoc.
Qed.

(** X9.  The data fileset of a VO lies at
    [<mount point>/vos/<id without its last two characters>/<id>], and the
    directory above it, which [_create_fileset] makes first, is shared by
    the VOs with the same prefix.  An id of at most two characters has an
    empty prefix, and the fileset lies directly under [vos]. *)
Theorem vo_filesets_are_grouped_by_prefix (vo : Vo.VscVo) (st : Vo.CentralStorage)
    (name mp : string) (w : world) :
  Vo.storage vo = Some st -> Vo.data_name st = Some name ->
  fsops_mount_point name (ext w) = Some mp ->
  open_dir mp -> component (Vo.vo_id vo) ->
  let id := Vo.vo_id vo in
  (2 < String.length id ->
     Vo._data_path vo w
     = (w, Returned (mp ++ "/vos/" ++ Vo.drop_last2 id ++ "/" ++ id)%string)
     /\ dirname (mp ++ "/vos/" ++ Vo.drop_last2 id ++ "/" ++ id)%string
        = (mp ++ "/vos/" ++ Vo.drop_last2 id)%string)
  /\ (String.length id <= 2 ->
      Vo._data_path vo w = (w, Returned (mp ++ "/vos/" ++ id)%string)).
Proof.
  intros Hst Hname Hmount Hmp Hid. cbv zeta.
  assert (Vo._data_path vo w = (w, Returned (Vo.vo_path mp vo))) as Hpath.
  { unfold Vo._data_path. rewrite Hst. erewrite bind_returned by reflexivity.
    rewrite Hname. erewrite bind_returned by reflexivity.
    erewrite bind_returned; [reflexivity|].
    unfold get_mount_point. by rewrite Hmount. }
  split.
  - intros Hlen. destruct (vo_path_components mp vo Hmp Hid Hlen) as [E1 E2].
    rewrite Hpath, <- E1. split; [reflexivity | exact E2].
  - intros Hlen. rewrite Hpath. f_equal. f_equal. unfold Vo.vo_path.
    rewrite drop_last2_short by assumption.
    rewrite (path_join_component mp "vos") by (assumption || apply vos_component).
    destruct Hmp as [Hne Hs].
    assert (path_join (mp ++ "/" ++ "vos") "" = (mp ++ "/vos/")%string) as ->.
    { unfold path_join.
      destruct (open_dir_extend mp "vos" vos_component) as [Hne' Hs'].
      rewrite Hs'. destruct (String.eqb_spec (mp ++ "/" ++ "vos") "") as [E|_]; [done|].
      by rewrite !string_app_assoc. }
    destruct (component_head _ Hid) as (c & rest & -> & Hc).
    unfold path_join. rewrite Hc.
    rewrite (ends_with_slash_app mp "/vos/") by discriminate.
    change (ends_with_slash "/vos/") with true. rewrite orb_true_r.
    by rewrite !string_app_assoc.
Qed.

End VoPaths.

Section MoreVo.
Import SyncUgent.
Context `{Platform} `{!VscConfig} `{!VscUserMethods} `{!Vo.VscLdapGroup} `{!ScriptEnv}.

Lemma vo_data_path_keeps_calls vo : preserves calls (Vo._data_path vo).
Proof. unfold Vo._data_path. frame. Qed.

Lemma vo_scratch_path_keeps_calls vo : preserves calls (Vo._scratch_path vo).
Proof. unfold Vo._scratch_path. frame. Qed.

(** The call of [_set_member_quota] once the path and the uid are known. *)
Lemma vo_set_member_quota_calls vo (path_function : M string) member quota w w1 path e2 uid :
  path_function w = (w1, Returned path) ->
  Vo.uidNumber member (ext w1) = (e2, Returned uid) ->
  calls (Vo._set_member_quota vo path_function member quota w).1
  = calls w1 ++ [SetUserQuota (Vo.soft_limit quota) uid path quota].
Proof.
  intros Hp Hu. unfold Vo._set_member_quota.
  rewrite try_except_calls
    by (intros e; apply preserves_bind; [apply storage_repr_keeps_calls | frame]).
  erewrite bind_returned by exact Hp.
  erewrite bind_returned by (apply call_eq; exact Hu).
  unfold fsops. destruct (fsops_exec _ _ _) as [e3 r]. reflexivity.
Qed.

(** X10.  The quota of a member.  [set_member_data_quota] hands to the
    backend one user quota for the data path, with the hard limit
    [dataQuota / 2 * 1024] (integer division) and the soft limit computed
    from it; [set_member_scratch_quota] does the same on the scratch path,
    also from [dataQuota].  Twice the hard limit of a member is at most
    the hard limit of the VO and falls short of it by less than 2048
    bytes, so a VO quota of 1 KiB gives its members the limit 0. *)
Theorem member_quota_is_half_the_vo_quota (vo : Vo.VscVo) (member : string) (w : world)
    (q : Z) (e1 : ext_state) :
  Vo.dataQuota vo (ext w) = (e1, Returned q) ->
  let hard := (q / 2 * 1024)%Z in
  (forall w2 path e3 uid,
      Vo._data_path vo (set_ext e1 w) = (w2, Returned path) ->
      Vo.uidNumber member (ext w2) = (e3, Returned uid) ->
      calls (Vo.set_member_data_quota vo member w).1
      = calls w ++ [SetUserQuota (Vo.soft_limit hard) uid path hard])
  /\ (forall w2 path e3 uid,
      Vo._scratch_path vo (set_ext e1 w) = (w2, Returned path) ->
      Vo.uidNumber member (ext w2) = (e3, Returned uid) ->
      calls (Vo.set_member_scratch_quota vo member w).1
      = calls w ++ [SetUserQuota (Vo.soft_limit hard) uid path hard])
  /\ (2 * hard <= Vo.hard_limit q < 2 * hard + 2048)%Z.
Proof.
  intros Hq. cbv zeta. split; [|split].
  - intros w2 path e3 uid Hp Hu. unfold Vo.set_member_data_quota.
    erewrite bind_returned by (apply call_eq; exact Hq).
    erewrite vo_set_member_quota_calls by eassumption.
    f_equal. apply (preserves_eq calls) in Hp; [exact Hp | apply vo_data_path_keeps_calls].
  - intros w2 path e3 uid Hp Hu. unfold Vo.set_member_scratch_quota.
    erewrite bind_returned by (apply call_eq; exact Hq).
    erewrite vo_set_member_quota_calls by eassumption.
    f_equal. apply (preserves_eq calls) in Hp; [exact Hp | apply vo_scratch_path_keeps_calls].
  - unfold Vo.hard_limit. pose proof (Z.div_mod q 2 ltac:(lia)).
    pose proof (Z.mod_pos_bound q 2 ltac:(lia)). lia.
Qed.

(** Without a [data_name] the data path cannot be computed. *)
Lemma data_path_without_name vo st w :
  Vo.storage vo = Some st -> Vo.data_name st = None ->
  Vo._data_path vo w = (w, Raised AttributeError).
Proof. intros Hst Hn. unfold Vo._data_path. rewrite Hst. cbn. rewrite Hn. reflexivity. Qed.

Lemma attribute_handler_returns vo st fmt w :
  Vo.storage vo = Some st ->
  (Vo.storage_repr vo ;; log_msg LException fmt []) w
  = (add_log (LogRecord LException fmt []) w, Returned tt).
Proof. intros Hst. unfold Vo.storage_repr. rewrite Hst. reflexivity. Qed.

Lemma member_without_data_name vo st user acc w :
  Vo.storage vo = Some st -> Vo.data_name st = None ->
  (forall e, raised (Vo.dataQuota vo e).2 = false) ->
  (forall u e, raised (Vo.set_member_data_symlink vo u e).2 = false) ->
  exists w',
    process_vos_member vo user acc w
    = (w', Returned (md_set (Vo.vo_id vo) [user] acc.1, acc.2))
    /\ calls w' = calls w.
Proof.
  intros Hst Hn Hq Hl. destruct acc as [ok err]. unfold process_vos_member.
  destruct (call_returns (Vo.dataQuota vo) w (Hq _)) as (e1 & q & E1).
  set (w1 := add_log (LogRecord LException
                        "No such attribute in the storage instance %s" []) (set_ext e1 w)).
  destruct (call_returns (Vo.set_member_data_symlink vo user) w1 (Hl _ _)) as (e2 & [] & E2).
  exists (set_ext e2 w1). split; [|reflexivity].
  apply try_except_returned. unfold provision_vo_member.
  erewrite bind_returned; cycle 1.
  { erewrite bind_returned; cycle 1.
    { unfold Vo.set_member_data_quota. erewrite bind_returned by exact E1.
      unfold Vo._set_member_quota. erewrite try_except_caught; cycle 1.
      { erewrite bind_raised; [reflexivity|].
        eapply data_path_without_name; eassumption. }
      { reflexivity. }
      eapply attribute_handler_returns; eassumption. }
    exact E2. }
  reflexivity.
Qed.

(** X11.  A VO whose storage has no [data_name]: [create_data_fileset],
    [set_data_quota] and the member quota swallow the [AttributeError],
    so when the directory can be read and the symlinks can be set, every
    member is recorded in the success dictionary although no file system
    operation was invoked. *)
Theorem vo_without_data_name_is_reported_ok (vo : Vo.VscVo) (st : Vo.CentralStorage)
    (acc : MonoidDict * MonoidDict) (w : world) :
  Vo.storage vo = Some st -> Vo.data_name st = None ->
  (forall e, raised (Vo.status vo e).2 = false) ->
  (forall e, raised (Vo.dataQuota vo e).2 = false) ->
  (forall e, raised (Vo.memberUid vo e).2 = false) ->
  (forall u e, raised (Vo.set_member_data_symlink vo u e).2 = false) ->
  exists w' e e' ms,
    Vo.memberUid vo e = (e', Returned ms)
    /\ process_vos_body vo acc w
       = (w', Returned (foldl (fun d u => md_set (Vo.vo_id vo) [u] d) acc.1 ms, acc.2))
    /\ calls w' = calls w.
Proof.
  intros Hst Hn Hs Hq Hm Hl.
  destruct (call_returns (Vo.status vo) w (Hs _)) as (e1 & s & E1).
  set (w1 := add_log (LogRecord LException
                        "No data_name attribute in the storage instance %s" [])
               (set_ext e1 w)).
  destruct (call_returns (Vo.dataQuota vo) w1 (Hq _)) as (e2 & q & E2).
  set (w2 := add_log (LogRecord LException
                        "No such attribute in the storage instance %s" []) (set_ext e2 w1)).
  destruct (call_returns (Vo.memberUid vo) w2 (Hm _)) as (e3 & ms & E3).
  assert (forall ms acc v, exists v',
            for_each ms (process_vos_member vo) acc v
            = (v', Returned (foldl (fun d u => md_set (Vo.vo_id vo) [u] d) acc.1 ms, acc.2))
            /\ calls v' = calls v) as Hloop.
  { clear -Hst Hn Hq Hl. induction ms as [|m ms IH]; intros acc v; cbn [for_each foldl].
    - exists v. by destruct acc.
    - destruct (member_without_data_name vo st m acc v Hst Hn Hq Hl) as (v1 & E & C1).
      erewrite bind_returned by exact E.
      destruct (IH (md_set (Vo.vo_id vo) [m] acc.1, acc.2) v1) as (v2 & E' & C2).
      exists v2. split; [exact E' | congruence]. }
  destruct (Hloop ms acc (set_ext e3 w2)) as (w' & El & Cl).
  exists w', (ext w2), e3, ms. split.
  { unfold call in E3. destruct (Vo.memberUid vo (ext w2)) as [e r].
    injection E3 as <- <-. reflexivity. }
  split; [|exact Cl].
  unfold process_vos_body. apply try_except_returned.
  erewrite bind_returned by exact E1.
  erewrite bind_returned; cycle 1.
  { unfold Vo.create_data_fileset. erewrite try_except_caught; cycle 1.
    { erewrite bind_raised; [reflexivity|].
      eapply data_path_without_name; eassumption. }
    { reflexivity. }
    eapply attribute_handler_returns; eassumption. }
  erewrite bind_returned; cycle 1.
  { unfold Vo.set_data_quota. erewrite bind_returned by exact E2.
    unfold Vo._set_quota. erewrite try_except_caught; cycle 1.
    { erewrite bind_raised; [reflexivity|].
      eapply data_path_without_name; eassumption. }
    { reflexivity. }
    eapply attribute_handler_returns; eassumption. }
  erewrite bind_returned by exact E3.
  exact El.
Qed.

(** X12.  [VscVo.__init__] assigns [self.storage] only when no storage is
    passed.  A VO built with a storage has no such attribute: the
    handlers of [AttributeError] raise [AttributeError] again when they
    format it, so creating a fileset and setting the quota raise, and
    [process_vos] logs the VO and records nothing for it. *)
Theorem vo_built_with_storage_has_no_storage (central st : Vo.CentralStorage) (id : string)
    (acc : MonoidDict * MonoidDict) (w : world) :
  let vo := Vo.VscVo_init central id (Some st) in
  Vo.storage (Vo.VscVo_init central id None) = Some central
  /\ Vo.storage vo = None
  /\ Vo.create_data_fileset vo w = (w, Raised AttributeError)
  /\ Vo.create_scratch_fileset vo w = (w, Raised AttributeError)
  /\ (forall q, Vo._set_quota vo (Vo._data_path vo) q w = (w, Raised AttributeError))
  /\ (forall e1 s, Vo.status vo (ext w) = (e1, Returned s) ->
      process_vos_body vo acc w
      = (add_log (LogRecord LException
                    "Something went wrong setting up the VO %s on the storage %s" [id])
           (set_ext e1 w),
         Returned acc)).
Proof.
  cbv zeta. repeat split; try reflexivity.
  intros e1 s Hs. unfold process_vos_body.
  erewrite try_except_caught; cycle 1.
  { erewrite bind_returned by (apply call_eq; exact Hs).
    erewrite bind_raised; reflexivity. }
  { reflexivity. }
  reflexivity.
Qed.

End MoreVo.

(** ** lib/vsc/administration/tier1c.py: the backend and the project *)

Section ProjectPaths.
Import Tier1c.
Context `{Platform} `{!VscConfig} `{!AccountPage}.

Lemma projects_component : component "projects".
Proof. split; [discriminate|]. apply (bool_decide_unpack _). by vm_compute. Qed.

Lemma project_path_components (pjname institute : string) :
  component institute -> component pjname ->
  project_path pjname institute = (institute ++ "/projects/" ++ pjname)%string.
Proof.
  intros Hi Hp. unfold project_path, PROJECT_SUBDIR.
  rewrite (path_join_component institute "projects");
    [|by apply component_open|exact projects_component].
  rewrite path_join_component;
    [|apply (open_dir_extend institute "projects"), projects_component|exact Hp].
  by rewrite !string_app_assoc.
Qed.

(** X13.  For path components as institute and project name, the path of a
    project on the backend of [VscTier1cProject] is
    [/dodrio/scratch/<institute>/projects/<name>], and the directory above
    it is the same for all projects.  A name that begins with a slash is
    taken as the whole path: it leaves the mount point. *)
Theorem project_filesets_share_a_parent (id pjname : string) (dry : bool) (w v : world) :
  component GENT -> component pjname ->
  exists prj,
    VscTier1cProject_init id dry w = (w, Returned prj)
    /\ _get_project_path (backend prj) pjname v
       = (v, Returned ("/dodrio/scratch/" ++ GENT ++ "/projects/" ++ pjname)%string)
    /\ dirname ("/dodrio/scratch/" ++ GENT ++ "/projects/" ++ pjname)%string
       = ("/dodrio/scratch/" ++ GENT ++ "/projects")%string
    /\ forall rest, _get_project_path (backend prj) (String "/" rest) v
                    = (v, Returned (String "/" rest)).
Proof.
  intros Hg Hp. eexists. split; [reflexivity|].
  cbn [backend]. unfold _get_project_path, _get_path. cbn [templates storage Dodrio mount_point].
  change (PROJ =? PROJ)%string with true. cbv iota.
  split; [|split].
  - unfold ret. f_equal. f_equal.
    rewrite project_path_components by assumption.
    destruct (component_head GENT Hg) as (c & rest & Eg & Hc).
    erewrite path_join_relative; [reflexivity| |rewrite Eg; reflexivity|exact Hc].
    split; [discriminate | reflexivity].
  - change ("/dodrio/scratch/" ++ GENT ++ "/projects/" ++ pjname)%string
      with ("/dodrio/scratch" ++ "/" ++ (GENT ++ "/projects" ++ "/" ++ pjname))%string.
    replace ("/dodrio/scratch" ++ "/" ++ (GENT ++ "/projects" ++ "/" ++ pjname))%string
      with (("/dodrio/scratch/" ++ GENT ++ "/projects") ++ "/" ++ pjname)%string.
    2:{ cbn. by rewrite !string_app_assoc. }
    apply dirname_extend; [|exact Hp].
    change ("/dodrio/scratch/" ++ GENT ++ "/projects")%string
      with ("/dodrio/scratch" ++ "/" ++ (GENT ++ "/" ++ "projects"))%string.
    replace ("/dodrio/scratch" ++ "/" ++ (GENT ++ "/" ++ "projects"))%string
      with (("/dodrio/scratch" ++ "/" ++ GENT) ++ "/" ++ "projects")%string.
    2:{ cbn. by rewrite !string_app_assoc. }
    apply open_dir_extend, projects_component.
  - intros rest. reflexivity.
Qed.

End ProjectPaths.

Section MoreTier1c.
Import Tier1c.
Context `{Platform} `{!VscConfig} `{!AccountPage}.

(** X14.  The outcomes of [VscStorageBackend.__init__].  Given a storage
    and path templates it returns for the backends lustre and gpfs, takes
    the name of the backend from the storage (the [storage_name] argument
    is not looked at), and logs and raises for any other backend.  Without
    a storage or without path templates it logs and raises when the
    storage name or the institute is missing; otherwise both the storage
    and the templates are the ones of the configuration, also when one of
    them was passed, and [KeyError] is raised when the configuration has
    none. *)
Theorem backend_init_outcomes (st : option Storage) (pt : option path_templates)
    (name institute : option string) (dry : bool) (w : world) :
  (forall s t, st = Some s -> pt = Some t ->
     (fsbackend s = "lustre" \/ fsbackend s = "gpfs" ->
      exists b, VscStorageBackend_init st pt name institute dry w = (w, Returned b)
                /\ storage b = s /\ templates b = t
                /\ storage_name b = filesystem s
                /\ ops b = (if (fsbackend s =? "lustre")%string then Lustre else Gpfs))
     /\ (fsbackend s <> "lustre" -> fsbackend s <> "gpfs" ->
         VscStorageBackend_init st pt name institute dry w
         = (add_log (LogRecord LException unsupported_backend_message []) w,
            Raised (Exception_ unsupported_backend_message))))
  /\ (st = None \/ pt = None ->
      (name = None \/ institute = None ->
       VscStorageBackend_init st pt name institute dry w
       = (add_log (LogRecord LException no_backend_message []) w,
          Raised (Exception_ no_backend_message)))
      /\ (forall n i, name = Some n -> institute = Some i ->
          match vscstorage i n with
          | None => VscStorageBackend_init st pt name institute dry w = (w, Raised KeyError)
          | Some (s, t) =>
              VscStorageBackend_init st pt name institute dry w
              = VscStorageBackend_init (Some s) (Some t) name institute dry w
          end)).
Proof.
  split.
  - intros s t -> ->. split.
    + intros Hk.
      assert (VscStorageBackend_init (Some s) (Some t) name institute dry w
              = (w, Returned {| storage := s; storage_name := filesystem s; templates := t;
                                ops := if (fsbackend s =? "lustre")%string
                                       then Lustre else Gpfs |})) as E.
      { unfold VscStorageBackend_init, bind, ret. cbv beta iota.
        destruct Hk as [Hk|Hk]; rewrite Hk; reflexivity. }
      eexists. split; [exact E|]. repeat split; reflexivity.
    + intros Hl Hg. unfold VscStorageBackend_init, bind, ret. cbv beta iota.
      apply String.eqb_neq in Hl, Hg. rewrite Hl, Hg. reflexivity.
  - intros Hmiss. split.
    + intros Hn. unfold VscStorageBackend_init.
      erewrite bind_raised; [reflexivity|].
      destruct st, pt, name, institute; try reflexivity;
        destruct Hmiss, Hn; discriminate.
    + intros n i -> ->. unfold VscStorageBackend_init.
      destruct (vscstorage i n) as [[s t]|] eqn:Ev.
      * destruct st, pt; try (destruct Hmiss; discriminate); reflexivity.
      * erewrite bind_raised; [reflexivity|].
        destruct st, pt; try (destruct Hmiss; discriminate); reflexivity.
Qed.

Lemma get_project_path_templated (b : VscStorageBackend) f pjname w :
  templates b PROJ = Some f ->
  _get_project_path b pjname w = (w, Returned (templated_path b f pjname)).
Proof. intros Ht. unfold _get_project_path, _get_path. rewrite Ht. reflexivity. Qed.

(** The calls of [create_project_fileset]. *)
Lemma create_project_fileset_calls (b : VscStorageBackend) f pjname uid gid w :
  fsops_reliable ->
  templates b PROJ = Some f ->
  let path := templated_path b f pjname in
  let info := fsops_get_fileset_info (ops b) (storage_name b) pjname (ext w) in
  (create_project_fileset b pjname uid gid w).2 = Returned tt
  /\ calls (create_project_fileset b pjname uid gid w).1
     = calls w ++ creation_calls info path pjname ++ [Chmod 504 path; Chown uid gid path].
Proof.
  intros Hr Ht. cbv zeta. unfold create_project_fileset.
  erewrite bind_returned by (by apply get_project_path_templated).
  destruct (tier1c_create_fileset_calls b (templated_path b f pjname) pjname 504 w Hr)
    as [R C].
  destruct (_create_fileset b _ pjname 504 w) as [w1 r] eqn:Ec. cbn [fst snd] in R, C.
  subst r. erewrite bind_returned by exact Ec.
  rewrite fsops_returns by assumption. cbn. split; [reflexivity|].
  rewrite C, <- !app_assoc. reflexivity.
Qed.

Lemma resolve_owner_found (prj : VscTier1cProject) w e1 p m ms e2 a e3 p' :
  prj_load (pjid prj) (ext w) = (e1, Returned p) ->
  moderators p = m :: ms ->
  account_get m e1 = (e2, Returned a) ->
  prj_load (pjid prj) e2 = (e3, Returned p') ->
  resolve_owner prj w
  = (set_ext e3 w, Returned (Some (acc_vsc_id_number a), Some (vsc_id_number p'))).
Proof.
  intros Hload Hmods Hacc Hload'. unfold resolve_owner.
  erewrite try_except_returned; [reflexivity|].
  erewrite bind_returned by (apply call_eq; exact Hload).
  rewrite Hmods. erewrite bind_returned by reflexivity.
  erewrite bind_returned by (apply call_eq; exact Hacc).
  erewrite bind_returned by (apply call_eq; exact Hload').
  reflexivity.
Qed.

(** X15.  When the first moderator and the project can be read,
    [create_fileset] returns, and the fileset (created when it did not
    exist) gets the mode [0o770], the moderator as owner and the project
    as group. *)
Theorem create_fileset_owner_and_group (prj : VscTier1cProject) (w : world)
    e1 p m ms e2 a e3 p' f :
  fsops_reliable ->
  templates (backend prj) PROJ = Some f ->
  prj_load (pjid prj) (ext w) = (e1, Returned p) ->
  moderators p = m :: ms ->
  account_get m e1 = (e2, Returned a) ->
  prj_load (pjid prj) e2 = (e3, Returned p') ->
  let b := backend prj in
  let path := templated_path b f (pjid prj) in
  let info := fsops_get_fileset_info (ops b) (storage_name b) (pjid prj) e3 in
  (create_fileset prj w).2 = Returned tt
  /\ calls (create_fileset prj w).1
     = calls w ++ creation_calls info path (pjid prj)
               ++ [Chmod 504 path; Chown (acc_vsc_id_number a) (vsc_id_number p') path].
Proof.
  intros Hr Ht Hload Hmods Hacc Hload'. cbv zeta. unfold create_fileset.
  erewrite bind_returned by (eapply resolve_owner_found; eassumption).
  destruct (create_project_fileset_calls (backend prj) f (pjid prj)
              (acc_vsc_id_number a) (vsc_id_number p') (set_ext e3 w) Hr Ht) as [R C].
  cbn [ext set_ext calls] in C.
  destruct (create_project_fileset (backend prj) (pjid prj) _ _ (set_ext e3 w))
    as [w1 r] eqn:Ec.
  cbn [fst snd] in R, C. subst r.
  erewrite try_except_returned; cycle 1.
  { cbn [fst snd]. unfold local. do 2 erewrite bind_returned by reflexivity. exact Ec. }
  split; [reflexivity | exact C].
Qed.



Lemma set_fileset_quota_log_grows (b : VscStorageBackend) path name quota w r :
  r ∈ log w -> r ∈ log (_set_fileset_quota b path name quota w).1.
Proof.
  intros Hr. unfold _set_fileset_quota, try_except, bind, fsops, log_raiseException,
    log_msg, raise.
  destruct (fsops_exec _ (SetFilesetQuota _ _ _ _) _) as [e1 [x|]]; cbn.
  - destruct (is_Exception x); cbn; [apply elem_of_app; by left | exact Hr].
  - destruct (fsops_exec _ (SetFilesetGrace _ _) _) as [e2 [x|]]; cbn; [|exact Hr].
    destruct (is_Exception x); cbn; [apply elem_of_app; by left | exact Hr].
Qed.

(** X18.  A project without a quota record gets the default quota of the
    storage: [set_quota] logs an error and sets the hard limit
    [1073741824 * replication factor] bytes (1048576 KiB) on the path of
    the project. *)
Theorem project_quota_defaults_to_one_gibibyte (id : string) (dry : bool) (w v : world) :
  quota_cache id = None ->
  exists prj,
    VscTier1cProject_init id dry w = (w, Returned prj)
    /\ let path := templated_path (backend prj) (fun pjname => project_path pjname GENT) id in
       let hard := (1073741824 * storage_data_replication_factor)%Z in
       exists rest,
         calls (set_quota prj v).1
         = calls v ++ SetFilesetQuota (soft_limit hard) path id hard :: rest
         /\ (rest = [] \/ rest = [SetFilesetGrace path vo_storage_grace_time])
         /\ LogRecord LError no_quota_message [id; "dodrioscratch"] ∈ log (set_quota prj v).1.
Proof.
  intros Hq. eexists. split; [reflexivity|]. cbv zeta.
  unfold set_quota, prj_quota. cbn [pjid backend]. rewrite Hq.
  unfold set_project_quota.
  erewrite bind_returned by (apply get_project_path_templated; reflexivity).
  erewrite bind_returned by reflexivity.
  erewrite bind_returned by reflexivity.
  match goal with |- context [_set_fileset_quota ?b ?p ?n ?q ?v0] =>
    destruct (set_fileset_quota_calls b p n q v0) as (rest & C & Hrest);
    pose proof (set_fileset_quota_log_grows b p n q v0) as L
  end.
  exists rest. split; [|split; [exact Hrest|]].
  - rewrite C. cbn. unfold hard_limit. cbn.
    replace (1048576 * 1024 * storage_data_replication_factor)%Z
      with (1073741824 * storage_data_replication_factor)%Z by lia.
    reflexivity.
  - apply L. cbn. apply elem_of_app. left. apply elem_of_app. left.
    apply elem_of_app. right. by left.
Qed.

End MoreTier1c.

(** ** lib/vsc/administration/sync.py: what a pass can return *)

Section MoreSync.
Import Tier1c Sync.
Context `{Platform} `{!VscConfig} `{!AccountPage} `{!SyncEnv} `{!ProjectEntryPoints}.








Lemma str_le_total : Total str_le.
Proof. intros a b. apply String.leb_total. Qed.

(** X23.  The projects of a pass.  The ids that [do] hands to
    [process_projects] are without duplicates and in ascending order; an
    id is among them exactly when it is the id of a changed group that
    begins with [proj_], or the VO of a changed quota whose fileset begins
    with [proj_].  The pass is [process_projects] on these ids; when it
    returns, its counts are stored, and a non-empty failure dictionary
    makes [do] raise [TypeError]. *)
Theorem projects_are_selected_once (changed_groups : list Group) (quota : list VoQuota) :
  NoDup (selected_projects changed_groups quota)
  /\ Sorted str_le (selected_projects changed_groups quota)
  /\ (forall id, id ∈ selected_projects changed_groups quota
      <-> (exists g, g ∈ changed_groups /\ group_vsc_id g = id
                     /\ String.prefix "proj_" id = true)
          \/ (exists q, q ∈ quota /\ virtual_organisation q = id
                        /\ String.prefix "proj_" (quota_fileset q) = true))
  /\ (forall dry w e1 e2,
      get_groups "GhentTier1c" (ext w) = (e1, Returned changed_groups) ->
      get_vo_storage_quota VSC_TIER1C_SCRATCH e1 = (e2, Returned quota) ->
      exists w1,
        ext w1 = e2 /\ calls w1 = calls w
        /\ do false true dry w
           = match process_projects (selected_projects changed_groups quota)
                     VSC_TIER1C_SCRATCH start_timestamp dry w1 with
             | (w2, Returned r) => project_pass_result r w2
             | (w2, Raised x) => (w2, Raised x)
             end).
Proof.
  unfold selected_projects. cbv zeta.
  set (l := map group_vsc_id _ ++ map virtual_organisation _).
  split; [|split; [|split]].
  - unfold sorted. rewrite merge_sort_Permutation. apply NoDup_remove_dups.
  - apply Sorted_merge_sort, str_le_total.
  - intros id. unfold sorted. rewrite merge_sort_Permutation, elem_of_remove_dups.
    unfold l. rewrite elem_of_app, !list_elem_of_fmap. split.
    + intros [(g & -> & Hg) | (q & -> & Hq)].
      * apply list_elem_of_filter in Hg as [Hp Hg]. left. eauto.
      * apply list_elem_of_filter in Hq as [Hp Hq]. right. eauto.
    + intros [(g & Hg & <- & Hp) | (q & Hq & <- & Hp)].
      * left. exists g. split; [reflexivity|]. by apply list_elem_of_filter.
      * right. exists q. split; [reflexivity|]. by apply list_elem_of_filter.
  - intros dry w e1 e2 Hg Hq.
    set (w1 := add_log (LogRecord LDebug "Found the following {institute} projects: {prjs}"
                          ("GhentTier1c" :: sorted (remove_dups l)))
                 (add_log (LogRecord LInfo
                     "Found %d %s VOs that have changed quota in the accountpage since %s"
                     ["GhentTier1c"])
                    (add_log (LogRecord LInfo
                        "Found %d %s projects that have changed in the accountpage since %s"
                        ["GhentTier1c"])
                       (set_ext e2 (set_ext e1 w))))).
    exists w1. split; [reflexivity|]. split; [reflexivity|].
    unfold do. cbv zeta.
    erewrite bind_returned by reflexivity.
    destruct (process_projects (sorted (remove_dups l)) VSC_TIER1C_SCRATCH
                start_timestamp dry w1) as [w2 [r|x]] eqn:Ep.
    + erewrite bind_returned; cycle 1.
      { erewrite bind_returned by (apply call_eq; exact Hg).
        erewrite bind_returned by (apply call_eq; exact Hq).
        do 3 erewrite bind_returned by reflexivity.
        erewrite bind_returned by exact Ep. reflexivity. }
      unfold project_pass_result, bind, ret, store_thresholds. cbn.
      destruct (dict_truthy r.2); reflexivity.
    + erewrite bind_raised; [reflexivity|].
      erewrite bind_returned by (apply call_eq; exact Hg).
      erewrite bind_returned by (apply call_eq; exact Hq).
      do 3 erewrite bind_returned by reflexivity.
      erewrite bind_raised; [reflexivity | exact Ep].
Qed.

End MoreSync.

(** ** More examples on the small site *)

Section MoreExamples.


(** X2, witness: of the three users the first is notified, the third was
    active before, and the second, which failed, keeps its status. *)
Lemma failed_users_are_not_notified_witness :
  exists notified,
    status_pushes Demo.three_users.1
    = [] ++ map (fun u => (SyncUgent.user_id u, "notify")) notified
    /\ sublist notified [Demo.a_user "vsc40001" "notify"; Demo.a_user "vsc40003" "active"]
    /\ Forall (fun u => SyncUgent.status u = "notify") notified
    /\ (false = false \/ notified = [])
    /\ Forall (fun u => exists u0,
                 u0 ∈ [Demo.a_user "vsc40001" "new"; Demo.a_user "vsc40002" "new";
                       Demo.a_user "vsc40003" "active"]
                 /\ u = u0) [Demo.a_user "vsc40002" "new"].
Proof.
  apply (@failed_users_are_not_notified Demo.platform Demo.user_methods false
           [Demo.a_user "vsc40001" "new"; Demo.a_user "vsc40002" "new";
            Demo.a_user "vsc40003" "active"]
           (Demo.world0 (Demo.site ["vsc40002"]) None) Demo.three_users.1).
  vm_compute. reflexivity.
Defined.


(** X5, witness: the nagios check on the small site. *)
Lemma main_nagios_mode_only_reports_witness :
  let r := @SyncUgent.main Demo.platform (Demo.config 1) Demo.user_methods Demo.ldap_group
             (Demo.script_env 202001010000 true [] []) Demo.nagios_only
             (Demo.world0 (Demo.site []) (Some 201901010000%Z)) in
  r.2 = Raised (SystemExit 0) /\ calls r.1 = [] /\ timestamp_file r.1 = Some 201901010000%Z.
Proof.
  destruct (@main_nagios_mode_only_reports Demo.platform (Demo.config 1) Demo.user_methods
              Demo.ldap_group (Demo.script_env 202001010000 true [] []) Demo.nagios_only
              (Demo.world0 (Demo.site []) (Some 201901010000%Z)) eq_refl)
    as (Hexit & _ & Hcalls & _ & Htime & _).
  cbv zeta. split; [exact Hexit|]. split; [exact Hcalls | exact Htime].
Defined.

(** X6, witness: the directory is down. *)
Lemma main_fatal_error_reports_critical_witness :
  let r := @SyncUgent.main Demo.platform (Demo.config 1) Demo.user_methods Demo.ldap_group
             (Demo.script_env 202001010000 false [] []) Demo.users_only
             (Demo.world0 (Demo.site []) (Some 201901010000%Z)) in
  timestamp_file r.1 = Some 201901010000%Z
  /\ r.2 = Raised (SystemExit SyncUgent.NAGIOS_EXIT_CRITICAL_code)
  /\ nagios_cache r.1 = [] ++ [critical_report].
Proof.
  pose (env := Demo.script_env 202001010000 false [] []).
  pose (w := Demo.world0 (Demo.site []) (Some 201901010000%Z)).
  pose (w0 := (@SyncUgent.main_start Demo.platform env Demo.users_only w).1).
  pose (w1 := (@SyncUgent.main_sync Demo.platform (Demo.config 1) Demo.user_methods
                 Demo.ldap_group env Demo.users_only w0).1).
  destruct (@main_fatal_error_reports_critical Demo.platform (Demo.config 1)
              Demo.user_methods Demo.ldap_group env Demo.users_only w w0 w1 IOError)
    as (Htime & Hexit & Hcache & _).
  - vm_compute. reflexivity.
  - vm_compute. reflexivity.
  - cbv zeta. split; [exact Htime|]. split; [exact Hexit | exact Hcache].
Defined.

(** X8, witness: the two users of a pass in 2020. *)
Lemma every_changed_user_is_counted_witness :
  exists e e' users ok,
    @SyncUgent.VscUser_lookup Demo.platform
      (Demo.script_env 202001010000 true
         [Demo.a_user "vsc40001" "new"; Demo.a_user "vsc40002" "new"] [])
      201901010000%Z e = (e', Returned users)
    /\ Some [Demo.a_user "vsc40001" "notify"] = Some ok
    /\ map SyncUgent.user_id (ok ++ [Demo.a_user "vsc40002" "new"])
       ≡ₚ map SyncUgent.user_id users
    /\ List.length ok + 1 = List.length users.
Proof.
  pose (env := Demo.script_env 202001010000 true
                 [Demo.a_user "vsc40001" "new"; Demo.a_user "vsc40002" "new"] []).
  pose (w := Demo.world0 (Demo.site ["vsc40002"]) (Some 201901010000%Z)).
  apply (@every_changed_user_is_counted Demo.platform (Demo.config 1) Demo.user_methods
           Demo.ldap_group env Demo.users_only w
           (@SyncUgent.main_sync Demo.platform (Demo.config 1) Demo.user_methods
              Demo.ldap_group env Demo.users_only w).1
           {| SyncUgent.users_ok := Some [Demo.a_user "vsc40001" "notify"];
              SyncUgent.users_critical := [Demo.a_user "vsc40002" "new"];
              SyncUgent.vos_ok := ∅; SyncUgent.vos_critical := ∅ |}).
  - reflexivity.
  - vm_compute. reflexivity.
Defined.

(** X9, witness: the VO [gvo00012] on the data filesystem, and a VO with a
    short id. *)
Lemma vo_filesets_are_grouped_by_prefix_witness :
  (@Vo._data_path Demo.platform (Demo.a_vo "gvo00012") (Demo.world0 (Demo.site []) None)
   = (Demo.world0 (Demo.site []) None, Returned "/data/vos/gvo000/gvo00012")
   /\ dirname "/data/vos/gvo000/gvo00012" = "/data/vos/gvo000")
  /\ @Vo._data_path Demo.platform (Demo.a_vo "vo") (Demo.world0 (Demo.site []) None)
     = (Demo.world0 (Demo.site []) None, Returned "/data/vos/vo").
Proof.
  split.
  - apply (@vo_filesets_are_grouped_by_prefix Demo.platform (Demo.a_vo "gvo00012")
             Demo.central_storage "data" "/data" (Demo.world0 (Demo.site []) None)
             eq_refl eq_refl eq_refl).
    + split; [discriminate | reflexivity].
    + split; [discriminate | apply (bool_decide_unpack _); vm_compute; exact I].
    + vm_compute. lia.
  - apply (@vo_filesets_are_grouped_by_prefix Demo.platform (Demo.a_vo "vo")
             Demo.central_storage "data" "/data" (Demo.world0 (Demo.site []) None)
             eq_refl eq_refl eq_refl).
    + split; [discriminate | reflexivity].
    + split; [discriminate | apply (bool_decide_unpack _); vm_compute; exact I].
    + vm_compute. lia.
Defined.

(** X10, witness: a VO quota of 10 KiB and of 1 KiB, with the fraction
    0.95. *)
Lemma member_quota_is_half_the_vo_quota_witness :
  calls (@Vo.set_member_data_quota Demo.platform (Demo.config 1) Demo.steady_ldap_group
           (Demo.a_vo "gvo00012") "vsc40001" (Demo.world0 (Demo.site []) None)).1
  = [] ++ [SetUserQuota (@Vo.soft_limit (Demo.config 1) (10 / 2 * 1024)%Z) 2540001
             "/data/vos/gvo000/gvo00012" (10 / 2 * 1024)%Z]
  /\ calls (@Vo.set_member_scratch_quota Demo.platform (Demo.config 1) Demo.steady_ldap_group
              (Demo.a_vo "gvo00012") "vsc40001" (Demo.world0 (Demo.site []) None)).1
     = [] ++ [SetUserQuota (@Vo.soft_limit (Demo.config 1) (10 / 2 * 1024)%Z) 2540001
                "/scratch/vos/gvo000/gvo00012" (10 / 2 * 1024)%Z].
Proof.
  destruct (@member_quota_is_half_the_vo_quota Demo.platform (Demo.config 1)
              Demo.steady_ldap_group (Demo.a_vo "gvo00012") "vsc40001"
              (Demo.world0 (Demo.site []) None) 10%Z (Demo.site []) eq_refl)
    as (Hdata & Hscratch & _).
  split.
  - apply (Hdata (Demo.world0 (Demo.site []) None) "/data/vos/gvo000/gvo00012"
             (Demo.site []) 2540001%Z); reflexivity.
  - apply (Hscratch (Demo.world0 (Demo.site []) None) "/scratch/vos/gvo000/gvo00012"
             (Demo.site []) 2540001%Z); reflexivity.
Defined.

(** X11, witness: a VO on a storage without data filesystem. *)
Lemma vo_without_data_name_is_reported_ok_witness :
  exists w' e e' ms,
    @Vo.memberUid Demo.platform Demo.steady_ldap_group (Demo.scratch_only_vo "gvo00030") e
    = (e', Returned ms)
    /\ @SyncUgent.process_vos_body Demo.platform (Demo.config 1) Demo.steady_ldap_group
         (Demo.scratch_only_vo "gvo00030") (∅, ∅) (Demo.world0 (Demo.site []) None)
       = (w', Returned (foldl (fun d u => md_set "gvo00030" [u] d) ∅ ms, ∅))
    /\ calls w' = [].
Proof.
  apply (@vo_without_data_name_is_reported_ok Demo.platform (Demo.config 1)
           Demo.steady_ldap_group (Demo.scratch_only_vo "gvo00030")
           {| Vo.data_name := None; Vo.scratch_name := Some "scratch" |}
           (∅, ∅) (Demo.world0 (Demo.site []) None));
    try reflexivity; intros; reflexivity.
Defined.

(** X12, witness: a VO built with the central storage as argument. *)
Lemma vo_built_with_storage_has_no_storage_witness :
  @SyncUgent.process_vos_body Demo.platform (Demo.config 1) Demo.steady_ldap_group
    (Vo.VscVo_init Demo.central_storage "gvo00031" (Some Demo.central_storage)) (∅, ∅)
    (Demo.world0 (Demo.site []) None)
  = (add_log (LogRecord LException
                "Something went wrong setting up the VO %s on the storage %s" ["gvo00031"])
       (@set_ext Demo.platform (Demo.site []) (Demo.world0 (Demo.site []) None)),
     Returned (∅, ∅)).
Proof.
  destruct (@vo_built_with_storage_has_no_storage Demo.platform (Demo.config 1)
              Demo.steady_ldap_group Demo.central_storage Demo.central_storage "gvo00031"
              (∅, ∅) (Demo.world0 (Demo.site []) None)) as (_ & _ & _ & _ & _ & Hbody).
  apply (Hbody (Demo.site [] : @ext_state Demo.platform) "active"). reflexivity.
Defined.

(** X13, witness: the project [proj_test01] of the institute [gent]. *)
Lemma project_filesets_share_a_parent_witness :
  exists prj,
    @Tier1c.VscTier1cProject_init Demo.platform (Demo.config 1) Demo.account_page
      "proj_test01" false (Demo.world0 (Demo.site []) None)
    = (Demo.world0 (Demo.site []) None, Returned prj)
    /\ @Tier1c._get_project_path Demo.platform (Tier1c.backend prj) "proj_test01"
         (Demo.world0 (Demo.site []) None)
       = (Demo.world0 (Demo.site []) None, Returned Demo.test01_path)
    /\ dirname Demo.test01_path = "/dodrio/scratch/gent/projects".
Proof.
  destruct (@project_filesets_share_a_parent Demo.platform (Demo.config 1) Demo.account_page
              "proj_test01" "proj_test01" false (Demo.world0 (Demo.site []) None)
              (Demo.world0 (Demo.site []) None))
    as (prj & Ei & Ep & Ed & _).
  - split; [discriminate | apply (bool_decide_unpack _); vm_compute; exact I].
  - split; [discriminate | apply (bool_decide_unpack _); vm_compute; exact I].
  - exists prj. split; [exact Ei|]. split; [exact Ep | exact Ed].
Defined.


(** X14, witness: the backend of a project; a storage on an unknown
    backend; a storage without templates and without name; a name that the
    configuration does not know. *)
Lemma backend_init_outcomes_witness :
  (exists b,
      @Tier1c.VscStorageBackend_init Demo.platform Demo.account_page
        (Some (@Tier1c.Dodrio (Demo.config 1)))
        (Some (Tier1c.templates (Demo.backend (Demo.config 1)))) (Some "other") None false
        (Demo.world0 (Demo.site []) None)
      = (Demo.world0 (Demo.site []) None, Returned b)
      /\ Tier1c.storage_name b = "dodrioscratch" /\ Tier1c.ops b = Lustre)
  /\ (@Tier1c.VscStorageBackend_init Demo.platform Demo.account_page
        (Some {| Tier1c.filesystem := "tape"; Tier1c.fsbackend := "ceph";
                 Tier1c.mount_point := "/tape"; Tier1c.quota_prj := 1;
                 Tier1c.data_replication_factor := 1 |})
        (Some (Tier1c.templates (Demo.backend (Demo.config 1)))) None None false
        (Demo.world0 (Demo.site []) None)).2
     = Raised (Exception_ unsupported_backend_message)
  /\ (@Tier1c.VscStorageBackend_init Demo.platform Demo.account_page
        (Some (@Tier1c.Dodrio (Demo.config 1))) None None (Some "gent") false
        (Demo.world0 (Demo.site []) None)).2
     = Raised (Exception_ no_backend_message)
  /\ @Tier1c.VscStorageBackend_init Demo.platform Demo.account_page
       None None (Some "dodrioscratch") (Some "gent") false
       (Demo.world0 (Demo.site []) None)
     = (Demo.world0 (Demo.site []) None, Raised KeyError).
Proof.
  split; [|split; [|split]].
  - destruct (@backend_init_outcomes Demo.platform Demo.account_page
                (Some (@Tier1c.Dodrio (Demo.config 1)))
                (Some (Tier1c.templates (Demo.backend (Demo.config 1)))) (Some "other") None
                false (Demo.world0 (Demo.site []) None)) as (Hgiven & _).
    destruct (Hgiven _ _ eq_refl eq_refl) as (Hok & _).
    destruct Hok as (b & E & _ & _ & Hn & Ho); [left; reflexivity|].
    exists b. split; [exact E|]. split; [exact Hn | exact Ho].
  - destruct (@backend_init_outcomes Demo.platform Demo.account_page
                (Some {| Tier1c.filesystem := "tape"; Tier1c.fsbackend := "ceph";
                         Tier1c.mount_point := "/tape"; Tier1c.quota_prj := 1;
                         Tier1c.data_replication_factor := 1 |})
                (Some (Tier1c.templates (Demo.backend (Demo.config 1)))) None None
                false (Demo.world0 (Demo.site []) None)) as (Hgiven & _).
    destruct (Hgiven _ _ eq_refl eq_refl) as (_ & Hbad).
    rewrite Hbad by discriminate. reflexivity.
  - destruct (@backend_init_outcomes Demo.platform Demo.account_page
                (Some (@Tier1c.Dodrio (Demo.config 1))) None None (Some "gent")
                false (Demo.world0 (Demo.site []) None)) as (_ & Hmiss).
    destruct (Hmiss (or_intror eq_refl)) as (Hnone & _).
    rewrite Hnone by (left; reflexivity). reflexivity.
  - destruct (@backend_init_outcomes Demo.platform Demo.account_page
                None None (Some "dodrioscratch") (Some "gent")
                false (Demo.world0 (Demo.site []) None)) as (_ & Hmiss).
    destruct (Hmiss (or_introl eq_refl)) as (_ & Hcfg).
    exact (Hcfg "dodrioscratch" "gent" eq_refl eq_refl).
Defined.

(** X15, witness: the fileset of [proj_test01] on the small site. *)
Lemma create_fileset_owner_and_group_witness :
  calls (@Tier1c.create_fileset Demo.platform (Demo.config 1) Demo.account_page
           (Demo.test01 (Demo.config 1)) (Demo.world0 (Demo.site []) None)).1
  = [] ++ [MakeDir (dirname Demo.test01_path); MakeFileset Demo.test01_path "proj_test01"]
       ++ [Chmod 504 Demo.test01_path; Chown 2540001 2640100 Demo.test01_path].
Proof.
  apply (@create_fileset_owner_and_group Demo.platform (Demo.config 1) Demo.account_page
           (Demo.test01 (Demo.config 1)) (Demo.world0 (Demo.site []) None)
           (Demo.site [])
           {| Tier1c.vsc_id := "proj_test01"; Tier1c.vsc_id_number := 2640100;
              Tier1c.moderators := ["vsc40001"] |}
           "vsc40001" [] (Demo.site [])
           {| Tier1c.acc_vsc_id := "vsc40001"; Tier1c.acc_vsc_id_number := 2540001 |}
           (Demo.site [])
           {| Tier1c.vsc_id := "proj_test01"; Tier1c.vsc_id_number := 2640100;
              Tier1c.moderators := ["vsc40001"] |}
           (fun pjname => Tier1c.project_path pjname "gent") demo_reliable);
    reflexivity.
Defined.



(** X18, witness: the default quota of [proj_test01]. *)
Lemma project_quota_defaults_to_one_gibibyte_witness :
  exists prj rest,
    @Tier1c.VscTier1cProject_init Demo.platform (Demo.config 1) Demo.account_page
      "proj_test01" false (Demo.world0 (Demo.site []) None)
    = (Demo.world0 (Demo.site []) None, Returned prj)
    /\ calls (@Tier1c.set_quota Demo.platform (Demo.config 1) Demo.account_page prj
                (Demo.world0 (Demo.site []) None)).1
       = [] ++ SetFilesetQuota 1020054732 Demo.test01_path "proj_test01" 1073741824 :: rest.
Proof.
  destruct (@project_quota_defaults_to_one_gibibyte Demo.platform (Demo.config 1)
              Demo.account_page "proj_test01" false (Demo.world0 (Demo.site []) None)
              (Demo.world0 (Demo.site []) None) eq_refl)
    as (prj & Ei & rest & C & _).
  pose proof Ei as Ep. vm_compute in Ep. injection Ep as <-.
  eexists _, rest. split; [exact Ei | exact C].
Defined.





(** X23, witness: three changed groups and two changed quota. *)
Lemma projects_are_selected_once_witness :
  let groups := [ {| Sync.group_vsc_id := "proj_test01" |};
                  {| Sync.group_vsc_id := "gvo00020" |};
                  {| Sync.group_vsc_id := "proj_a" |} ] in
  let quota := [ {| Sync.quota_fileset := "proj_test01";
                    Sync.virtual_organisation := "proj_test01" |};
                 {| Sync.quota_fileset := "gvo00020";
                    Sync.virtual_organisation := "gvo00020" |} ] in
  selected_projects groups quota = ["proj_a"; "proj_test01"]
  /\ NoDup (selected_projects groups quota)
  /\ "proj_a" ∈ selected_projects groups quota
  /\ exists w1,
       @Sync.do Demo.platform (Demo.config 1) Demo.account_page
         (Demo.sync_env_with (Demo.config 1) Demo.account_page) Sync.Tier1cEntryPoints
         false true false (Demo.world0 (Demo.site []) None)
       = match @Sync.process_projects Demo.platform (Demo.config 1) Demo.account_page
                 (Demo.sync_env_with (Demo.config 1) Demo.account_page)
                 Sync.Tier1cEntryPoints (selected_projects groups quota)
                 Sync.VSC_TIER1C_SCRATCH 202101010000 false w1 with
         | (w2, Returned r) => project_pass_result r w2
         | (w2, Raised x) => (w2, Raised x)
         end.
Proof.
  cbv zeta.
  destruct (@projects_are_selected_once Demo.platform (Demo.config 1) Demo.account_page
              (Demo.sync_env_with (Demo.config 1) Demo.account_page) Sync.Tier1cEntryPoints
              [ {| Sync.group_vsc_id := "proj_test01" |};
                {| Sync.group_vsc_id := "gvo00020" |};
                {| Sync.group_vsc_id := "proj_a" |} ]
              [ {| Sync.quota_fileset := "proj_test01";
                   Sync.virtual_organisation := "proj_test01" |};
                {| Sync.quota_fileset := "gvo00020";
                   Sync.virtual_organisation := "gvo00020" |} ])
    as (Hnd & _ & Hin & Hdo).
  split; [vm_compute; reflexivity|]. split; [exact Hnd|]. split.
  - apply Hin. left. exists {| Sync.group_vsc_id := "proj_a" |}.
    split; [|split; reflexivity]. rewrite !elem_of_cons. auto.
  - destruct (Hdo false (Demo.world0 (Demo.site []) None) (Demo.site []) (Demo.site [])
                eq_refl eq_refl) as (w1 & _ & _ & E).
    exists w1. exact E.
Defined.

End MoreExamples.
